(** * Resume builder: the keyword / ATS matching and scoring engine

    A shallow embedding of the scoring code of [career_toolkit.py]
    (class [CareerToolkit]) and [production_career_toolkit.py] (class
    [ProductionCareerToolkit]), and the properties of it that the
    specification states.

    Modelling conventions.
    - A Python [str] is a [string]; its characters are read as the code
      points U+0000 to U+00FF.
    - Python numbers ([int] and [float]) are exact rationals [Q]: every
      finite float is a rational, comparisons are those of the rationals,
      and rounding of float arithmetic is not modelled, but for the module
      [Float64], which replays the arithmetic of scikit-learn in binary64
      on the run where the rounding decides a bound.
    - A Python [set] of strings is a [gset string]; a [list] is a [list].
    - A call that may raise returns a [result]; [try ... except Exception]
      is [try_except].
    - scikit-learn, pdfplumber and the text-generation service are outside
      the repository: they are operations of the classes [Sklearn] and
      [Services], over which every definition is parameterised.
    - A report, which the code renders as a formatted text, is kept as the
      record of the values the text interpolates.

    The later modules embed more of the two toolkits: the analysis of a
    resume, the suggestions and recommendations, the job matcher, the
    skill gap finders, the perfection scores and the chat. For them,
    - the patterns of the module [re] that the analysis searches are
      operations of the class [Regex], the order in which a set is
      iterated is an operation of the class [SetOrder] (some enumeration
      of the elements), and [generate_ai_content] is the operation of the
      class [Advisor];
    - [str.title] is modelled on ASCII text;
    - an answer that is one of a few fixed texts with pictographs is kept
      as a value of an enumeration. *)

From Stdlib Require Import QArith Qround Lqa ZArith List String Ascii Lia.
From Stdlib Require Import Sorting.Sorted Sorting.Permutation.
From Stdlib Require Floats.
From stdpp Require Import gmap strings list.

Set Default Proof Using "Type".

(* ================================================================== *)
(** * The Python runtime *)
(* ================================================================== *)

Module Py.

(** An exception: its class and its message; [str(e)] is the message. *)
Record exn := Exception { exn_class : string; exn_msg : string }.

Definition str_exn (e : exn) : string := exn_msg e.

(** The outcome of a call: a returned value or a raised exception. *)
Inductive result (A : Type) : Type :=
| Return (a : A)
| Raise (e : exn).
Arguments Return {A} a.
Arguments Raise {A} e.

Definition bind {A B} (c : result A) (k : A -> result B) : result B :=
  match c with
  | Return a => k a
  | Raise e => Raise e
  end.

(** [try: body / except Exception as e: handler e] *)
Definition try_except {A} (body : result A) (handler : exn -> result A) : result A :=
  match body with
  | Return a => Return a
  | Raise e => handler e
  end.

(** ** Characters *)

Definition between (lo hi n : nat) : bool := (lo <=? n)%nat && (n <=? hi)%nat.

(** [str.isspace] on one character: TAB..CR, FS..US, space, NEL, NBSP. *)
Definition isspace (c : ascii) : bool :=
  let n := nat_of_ascii c in
  between 9 13 n || between 28 32 n || (n =? 133)%nat || (n =? 160)%nat.

(** The class [[A-Za-z]] of the regular expressions. *)
Definition is_ascii_letter (c : ascii) : bool :=
  let n := nat_of_ascii c in
  between 65 90 n || between 97 122 n.

(** The class [\w] of [re] on [str] patterns: alphanumeric or underscore. *)
Definition is_word_char (c : ascii) : bool :=
  let n := nat_of_ascii c in
  between 48 57 n || between 65 90 n || between 97 122 n || (n =? 95)%nat
  || (n =? 170)%nat || between 178 179 n || (n =? 181)%nat
  || between 185 186 n || between 188 190 n
  || between 192 214 n || between 216 246 n || between 248 255 n.

(** [str.lower] on one character. *)
Definition lower_char (c : ascii) : ascii :=
  let n := nat_of_ascii c in
  if between 65 90 n || (between 192 222 n && negb (n =? 215)%nat)
  then ascii_of_nat (n + 32)
  else c.

(** ** Strings *)

Definition chars (s : string) : list ascii := list_ascii_of_string s.
Definition join_chars (l : list ascii) : string := string_of_list_ascii l.

(** Truth value of a string: non-empty. *)
Definition truthy (s : string) : bool :=
  match s with
  | EmptyString => false
  | String _ _ => true
  end.

Definition lower (s : string) : string := join_chars (map lower_char (chars s)).

Fixpoint drop_spaces (l : list ascii) : list ascii :=
  match l with
  | [] => []
  | c :: l' => if isspace c then drop_spaces l' else l
  end.

(** [s.strip()] *)
Definition strip (s : string) : string :=
  join_chars (rev (drop_spaces (rev (drop_spaces (chars s))))).

(** [s.split()]: the maximal runs of non-space characters. [cur] holds
    the run being read, last character first. *)
Fixpoint split_runs (cur : list ascii) (l : list ascii) : list (list ascii) :=
  match l with
  | [] => match cur with [] => [] | _ => [rev cur] end
  | c :: l' =>
      if isspace c
      then match cur with
           | [] => split_runs [] l'
           | _ => rev cur :: split_runs [] l'
           end
      else split_runs (c :: cur) l'
  end.

Definition split (s : string) : list string := map join_chars (split_runs [] (chars s)).

(** ** [re.findall(r'\b[A-Za-z]{3,}\b', text)] *)

Definition is_word_at (c : option ascii) : bool :=
  match c with
  | Some c => is_word_char c
  | None => false
  end.

(** [\b] between the characters [prev] and [next] ([None] at either end
    of the text). *)
Definition word_boundary (prev next : option ascii) : bool :=
  xorb (is_word_at prev) (is_word_at next).

Fixpoint letter_run (l : list ascii) : list ascii :=
  match l with
  | [] => []
  | c :: l' => if is_ascii_letter c then c :: letter_run l' else []
  end.

(** A match of the pattern at the head of [l], [prev] being the character
    before it. The greedy [{3,}] takes the whole run of letters; giving
    letters back cannot help, since there is no [\b] between two letters. *)
Definition match_alpha3 (prev : option ascii) (l : list ascii) : option (list ascii) :=
  let run := letter_run l in
  let rest := drop (length run) l in
  if word_boundary prev (head l) && (3 <=? length run)%nat
     && word_boundary (last run) (head rest)
  then Some run
  else None.

(** The scan of [findall]: leftmost matches, not overlapping. [skip]
    counts the characters of the last match still to pass. *)
Fixpoint findall_from (prev : option ascii) (skip : nat) (l : list ascii) : list (list ascii) :=
  match l with
  | [] => []
  | c :: l' =>
      match skip with
      | S k => findall_from (Some c) k l'
      | O =>
          match match_alpha3 prev l with
          | Some w => w :: findall_from (Some c) (length w - 1) l'
          | None => findall_from (Some c) 0 l'
          end
      end
  end.

Definition findall_alpha3 (text : string) : list string :=
  map join_chars (findall_from None 0 (chars text)).

(** ** Numbers *)

Definition num (n : nat) : Q := inject_Z (Z.of_nat n).

(** [len(l)] *)
Definition len {A} (l : list A) : Q := num (length l).

(** [min(a, b)]: [b] when [b < a], else [a]. *)
Definition min (a b : Q) : Q := if Qle_bool a b then a else b.

(** [max(a, b)]: [b] when [b > a], else [a]. *)
Definition max (a b : Q) : Q := if Qle_bool b a then a else b.

(** [int(x)]: truncation towards zero. *)
Definition int (x : Q) : Z := Z.quot (Qnum x) (Zpos (Qden x)).

(** [a / b] *)
Definition truediv (a b : Q) : result Q :=
  if Qeq_bool b 0
  then Raise (Exception "ZeroDivisionError" "division by zero")
  else Return (a / b)%Q.

(** [sum(l)] *)
Definition sum (l : list Q) : Q := fold_left Qplus l 0%Q.

(** [l[i]] on a list *)
Definition getitem {A} (l : list A) (i : nat) : result A :=
  match nth_error l i with
  | Some a => Return a
  | None => Raise (Exception "IndexError" "list index out of range")
  end.

(** [m[i, j]] on a matrix *)
Definition getitem2 (m : list (list Q)) (i j : nat) : result Q :=
  match nth_error m i with
  | Some row =>
      match nth_error row j with
      | Some x => Return x
      | None => Raise (Exception "IndexError" "index out of bounds")
      end
  | None => Raise (Exception "IndexError" "index out of bounds")
  end.

(** ** Dictionaries with string keys, in insertion order *)

Definition dict := list (string * Q).

(** [d[k] = v] *)
Fixpoint setitem (d : dict) (k : string) (v : Q) : dict :=
  match d with
  | [] => [(k, v)]
  | (k', v') :: d' =>
      if String.eqb k k' then (k, v) :: d' else (k', v') :: setitem d' k v
  end.

(** [d[k]] *)
Fixpoint lookup (d : dict) (k : string) : result Q :=
  match d with
  | [] => Raise (Exception "KeyError" k)
  | (k', v') :: d' => if String.eqb k k' then Return v' else lookup d' k
  end.

(** [d.values()] *)
Definition values (d : dict) : list Q := map snd d.

(** ** [list.sort(key=..., reverse=True)] on (term, weight) pairs

    The sort is stable, also when reversed: among equal weights the
    original order is kept. *)

Fixpoint insert_desc (x : string * Q) (l : list (string * Q)) : list (string * Q) :=
  match l with
  | [] => [x]
  | y :: l' =>
      if Qle_bool (snd y) (snd x)
      then x :: y :: l'
      else y :: insert_desc x l'
  end.

Definition sort_desc (l : list (string * Q)) : list (string * Q) :=
  fold_right insert_desc [] l.

End Py.

Notation "x <- c1 ;; c2" := (Py.bind c1 (fun x => c2))
  (at level 100, c1 at next level, right associativity).

(* ================================================================== *)
(** * Outside the repository *)
(* ================================================================== *)

(** The arguments of [TfidfVectorizer(...)] that the code sets; the
    others keep the defaults of scikit-learn. *)
Record TfidfVectorizer := {
  stop_words : option string;
  lowercase : bool;
  max_features : option nat;
  ngram_range : nat * nat
}.

(** What [fit_transform] leaves behind: the vocabulary, as
    [get_feature_names_out] lists it, and the matrix of weights, a row per
    document, as [toarray] gives it. *)
Record Tfidf := {
  get_feature_names_out : list string;
  toarray : list (list Q)
}.

Definition matrix := list (list Q).

(** scikit-learn. [fit_transform] raises [ValueError] on a corpus with an
    empty vocabulary. *)
Class Sklearn := {
  fit_transform : TfidfVectorizer -> list string -> Py.result Tfidf;
  cosine_similarity : matrix -> Py.result matrix
}.

(** pdfplumber and the text generation of the production toolkit.
    [pdf_pages path] is [page.extract_text()] for each page of
    [pdfplumber.open(path)], or the exception of the read. *)
Class Services := {
  pdf_pages : string -> Py.result (list (option string));
  generate_ats_ai_analysis : string -> string -> Q -> Py.result string
}.

Definition nonneg_row (u : list Q) : Prop := Forall (fun w => 0 <= w)%Q u.

Definition nonneg_matrix (m : matrix) : Prop := Forall nonneg_row m.

(** The inner product of two rows. *)
Fixpoint dot (u v : list Q) : Q :=
  match u, v with
  | x :: u', y :: v' => x * y + dot u' v'
  | _, _ => 0
  end.

(** [x] is the cosine of the rows [u] and [v]: the inner product over
    the product of the norms, written without square roots, and 0 when a
    row is null. *)
Definition is_cosine (x : Q) (u v : list Q) : Prop :=
  (x * x * (dot u u * dot v v) == dot u v * dot u v
   /\ (0 <= dot u v -> 0 <= x)
   /\ (dot u v <= 0 -> x <= 0))%Q.

(** What holds of scikit-learn, in float64 as in exact arithmetic:
    TF-IDF weights are not negative, and no entry of the cosine-similarity
    matrix of a TF-IDF matrix is negative. That an entry is at most 1
    holds of the exact cosine, not of the one computed in float64. *)
Class SklearnContract (sk : Sklearn) : Prop := {
  tfidf_nonneg : forall v docs t,
    fit_transform v docs = Py.Return t -> nonneg_matrix (toarray t);
  cosine_nonneg : forall v docs t s i j x,
    fit_transform v docs = Py.Return t ->
    cosine_similarity (toarray t) = Py.Return s ->
    Py.getitem2 s i j = Py.Return x ->
    (0 <= x)%Q
}.

(** An uploaded file: the code reads its [name] only. *)
Record File := { name : string }.

(** What an entry point hands to the interface as first component: a
    message, or a report. *)
Inductive output (R : Type) : Type :=
| Text (message : string)
| Report (report : R).
Arguments Text {R} message.
Arguments Report {R} report.

(* ================================================================== *)
(** * career_toolkit.py *)
(* ================================================================== *)

Module CareerToolkit.

Import Py.
Local Open Scope Q_scope.

Section Toolkit.

Context {sk : Sklearn} {sv : Services}.

(** The dictionary that [perform_resume_analysis] builds. *)
Record Analysis := {
  sections_found : list string;
  sections_missing : list string;
  word_count : nat;
  skills_found : list string;
  contact_info : bool;
  action_verbs : nat;
  quantified_achievements : nat;
  grammar_issues : list string
}.

Definition extract_text_from_pdf (pdf_path : string) : string :=
  let text := "" in
  match pdf_pages pdf_path with
  | Return pages =>
      fold_left
        (fun text page_text =>
           match page_text with
           | Some page_text =>
               if truthy page_text then text +:+ page_text +:+ String "010" ""
               else text
           | None => text
           end)
        pages text
  | Raise e => ""
  end.

(** The points of the word-count band. *)
Definition word_count_points (wc : nat) : Q :=
  if (300 <=? wc)%nat && (wc <=? 700)%nat then 20
  else if (200 <=? wc)%nat && (wc <=? 800)%nat then 15
  else 10.

Definition calculate_resume_score (analysis : Analysis) : Z :=
  let score := 0 in
  (* Sections (40 points max) *)
  let required_sections := 5 in
  let found_sections := len (sections_found analysis) in
  let score := score + min 40 ((found_sections / required_sections) * 40) in
  (* Word count (20 points max) *)
  let score := score + word_count_points (word_count analysis) in
  (* Skills (15 points max) *)
  let score := score + min 15 (len (skills_found analysis) * 2) in
  (* Action verbs (10 points max) *)
  let score := score + min 10 (num (action_verbs analysis) * 1.5) in
  (* Quantified achievements (10 points max) *)
  let score := score + min 10 (num (quantified_achievements analysis) * 2) in
  (* Contact info (5 points max) *)
  let score := if contact_info analysis then score + 5 else score in
  int (min 100 score).

(** The vectorizer of [extract_keywords]. *)
Definition keyword_vectorizer : TfidfVectorizer :=
  {| stop_words := Some "english"; lowercase := true;
     max_features := Some 50%nat; ngram_range := (1%nat, 2%nat) |}.

(** The vectorizer of [calculate_ats_score]. *)
Definition ats_vectorizer : TfidfVectorizer :=
  {| stop_words := Some "english"; lowercase := true;
     max_features := None; ngram_range := (1%nat, 2%nat) |}.

Definition above_threshold (ks : string * Q) : bool := negb (Qle_bool (snd ks) 0.1).

Definition extract_keywords (text : string) : result (list string) :=
  tfidf_matrix <- fit_transform keyword_vectorizer [text];;
  let feature_names := get_feature_names_out tfidf_matrix in
  (* Get TF-IDF scores *)
  scores <- getitem (toarray tfidf_matrix) 0;;
  (* Get top keywords *)
  let keyword_scores := combine feature_names scores in
  let keyword_scores := sort_desc keyword_scores in
  Return (map fst (List.filter above_threshold (firstn 20 keyword_scores))).

(** The values that the text of the ATS report shows. *)
Record AtsReport := {
  ats_score : Q;
  score_level : string;
  job_keyword_count : Q;
  resume_keywords_found : Q;
  match_rate : Q;
  matching_keywords : gset string;
  missing_keywords : gset string
}.

Definition level_of (ats_score : Q) : string :=
  if Qle_bool 80 ats_score then "Excellent"
  else if Qle_bool 60 ats_score then "Good"
  else if Qle_bool 40 ats_score then "Fair"
  else "Needs Improvement".

Definition create_ats_report (ats_score : Q) (matching_keywords missing_keywords : gset string)
    (job_keywords resume_keywords : list string) : result AtsReport :=
  let score_level := level_of ats_score in
  ratio <- truediv (num (size matching_keywords)) (len job_keywords);;
  Return {| ats_score := ats_score;
            score_level := score_level;
            job_keyword_count := len job_keywords;
            resume_keywords_found := num (size matching_keywords);
            match_rate := ratio * 100;
            matching_keywords := matching_keywords;
            missing_keywords := missing_keywords |}.

(** Find matching and missing keywords. *)
Definition keyword_sets (job_keywords resume_keywords : list string) : gset string * gset string :=
  let matching_keywords : gset string := list_to_set job_keywords ∩ list_to_set resume_keywords in
  let missing_keywords : gset string := list_to_set job_keywords ∖ list_to_set resume_keywords in
  (matching_keywords, missing_keywords).

Definition calculate_ats_score (resume_file : option File) (job_description : string)
    : result (output AtsReport * option string) :=
  match resume_file with
  | None => Return (Text "Please upload a resume file and provide a job description.", None)
  | Some resume_file =>
      if negb (truthy (strip job_description))
      then Return (Text "Please upload a resume file and provide a job description.", None)
      else
        try_except
          ((* Extract resume text *)
           let resume_text := extract_text_from_pdf (name resume_file) in
           if negb (truthy resume_text)
           then Return (Text "Could not extract text from resume file.", None)
           else
             (* Calculate similarity using TF-IDF and cosine similarity *)
             let documents := [resume_text; job_description] in
             tfidf_matrix <- fit_transform ats_vectorizer documents;;
             similarity_matrix <- cosine_similarity (toarray tfidf_matrix);;
             s <- getitem2 similarity_matrix 0 1;;
             let ats_score := s * 100 in
             (* Extract keywords from job description *)
             job_keywords <- extract_keywords job_description;;
             resume_keywords <- extract_keywords resume_text;;
             let '(matching_keywords, missing_keywords) := keyword_sets job_keywords resume_keywords in
             report <- create_ats_report ats_score matching_keywords missing_keywords
                         job_keywords resume_keywords;;
             Return (Report report, None))
          (fun e => Return (Text ("Error calculating ATS score: " +:+ str_exn e), None))
  end.

Definition calculate_detailed_scores (analysis : Analysis) (resume_text : string) : result dict :=
  let scores : dict :=
    [("structure", 0); ("content", 0); ("keywords", 0);
     ("formatting", 0); ("grammar", 0); ("overall", 0)] in
  (* Structure Score (25 points) *)
  let required_sections := ["experience"; "education"; "skills"; "summary"] in
  let n_found := len (sections_found analysis) in
  let scores := setitem scores "structure"
                  (min 25 ((n_found / len required_sections) * 25)) in
  (* Content Score (25 points) *)
  let content_score := 0 in
  let content_score :=
    if (300 <=? word_count analysis)%nat then content_score + 5 else content_score in
  let content_score :=
    if (5 <=? action_verbs analysis)%nat then content_score + 5 else content_score in
  let content_score :=
    if (3 <=? quantified_achievements analysis)%nat then content_score + 5 else content_score in
  let content_score :=
    if (5 <=? length (skills_found analysis))%nat then content_score + 5 else content_score in
  let content_score :=
    if contact_info analysis then content_score + 5 else content_score in
  let scores := setitem scores "content" content_score in
  (* Keywords Score (20 points) *)
  let scores := setitem scores "keywords" (min 20 (len (skills_found analysis) * 2)) in
  (* Formatting Score (15 points) *)
  let formatting_score := 15 in
  let formatting_score :=
    if (length (split resume_text) <? 200)%nat then formatting_score - 5 else formatting_score in
  let scores := setitem scores "formatting" formatting_score in
  (* Grammar Score (15 points) *)
  let grammar_score := 15 - len (grammar_issues analysis) * 3 in
  let scores := setitem scores "grammar" (max 0 grammar_score) in
  (* Calculate overall score *)
  overall <- lookup scores "overall";;
  let scores := setitem scores "overall" (sum (values scores) - overall) in
  Return scores.

End Toolkit.

End CareerToolkit.

(* ================================================================== *)
(** * production_career_toolkit.py *)
(* ================================================================== *)

Module ProductionCareerToolkit.

Import Py.
Local Open Scope Q_scope.

Section Toolkit.

Context {sk : Sklearn} {sv : Services}.

(** The dictionary that [perform_comprehensive_analysis] builds. *)
Record Analysis := {
  sections_found : list string;
  sections_missing : list string;
  word_count : nat;
  skills_found : list string;
  contact_info : bool;
  action_verbs : nat;
  quantified_achievements : nat;
  keywords_density : list (string * nat);
  readability_score : Q
}.

(** The same code as in [career_toolkit.py]. *)
Definition extract_text_from_pdf (pdf_path : string) : string :=
  CareerToolkit.extract_text_from_pdf pdf_path.

Definition calculate_tfidf_similarity (resume_text job_description : string) : result Q :=
  let documents := [resume_text; job_description] in
  tfidf_matrix <- fit_transform CareerToolkit.ats_vectorizer documents;;
  similarity_matrix <- cosine_similarity (toarray tfidf_matrix);;
  s <- getitem2 similarity_matrix 0 1;;
  Return (s * 100).

Definition common_words : gset string :=
  list_to_set
    ["the"; "and"; "or"; "but"; "in"; "on"; "at"; "to"; "for"; "of"; "with";
     "by"; "this"; "that"; "these"; "those"; "will"; "have"; "has"; "had";
     "can"; "could"; "should"; "would"; "may"; "might"; "must"].

Definition calculate_keyword_match (resume_text job_description : string) : result Q :=
  (* Extract keywords from job description *)
  let job_keywords : gset string := list_to_set (findall_alpha3 (lower job_description)) in
  let resume_keywords : gset string := list_to_set (findall_alpha3 (lower resume_text)) in
  (* Filter out common words *)
  let job_keywords := job_keywords ∖ common_words in
  if (size job_keywords =? 0)%nat
  then Return 0
  else
    let matching_keywords := job_keywords ∩ resume_keywords in
    ratio <- truediv (num (size matching_keywords)) (num (size job_keywords));;
    Return (ratio * 100).

(** The values that the text of the ATS report shows. *)
Record AtsReport := {
  ats_score : Q;
  score_level : string;
  tfidf_score : Q;
  keyword_score : Q;
  ai_analysis : string
}.

Definition create_ats_report (ats_score tfidf_score keyword_score : Q) (ai_analysis : string)
    : AtsReport :=
  {| ats_score := ats_score;
     score_level := CareerToolkit.level_of ats_score;
     tfidf_score := tfidf_score;
     keyword_score := keyword_score;
     ai_analysis := ai_analysis |}.

Definition calculate_ats_score_advanced (resume_file : option File) (job_description : string)
    : result (output AtsReport * option string) :=
  match resume_file with
  | None => Return (Text "Please upload a resume file and provide a job description.", None)
  | Some resume_file =>
      if negb (truthy (strip job_description))
      then Return (Text "Please upload a resume file and provide a job description.", None)
      else
        try_except
          (let resume_text := extract_text_from_pdf (name resume_file) in
           if negb (truthy resume_text)
           then Return (Text "Could not extract text from resume file.", None)
           else
             (* Calculate similarity using multiple methods *)
             tfidf_score <- calculate_tfidf_similarity resume_text job_description;;
             keyword_score <- calculate_keyword_match resume_text job_description;;
             (* Combined ATS score *)
             let ats_score := tfidf_score * 0.6 + keyword_score * 0.4 in
             (* Generate AI analysis *)
             ai_analysis <- generate_ats_ai_analysis resume_text job_description ats_score;;
             (* Create detailed report *)
             let report := create_ats_report ats_score tfidf_score keyword_score ai_analysis in
             Return (Report report, None))
          (fun e => Return (Text ("Error calculating ATS score: " +:+ str_exn e), None))
  end.

Definition calculate_detailed_perfection_scores (analysis : Analysis) (resume_text : string)
    : result dict :=
  let scores : dict :=
    [("structure", min 25 (len (sections_found analysis) * 5));
     ("content", min 25 (num (action_verbs analysis) * 2
                         + num (quantified_achievements analysis) * 3));
     ("keywords", min 20 (len (skills_found analysis) * 2));
     ("formatting",
      min 15 (if (300 <=? word_count analysis)%nat && (word_count analysis <=? 700)%nat
              then 15 else 10));
     ("professionalism", min 15 (if contact_info analysis then 15 else 10));
     ("overall", 0)] in
  overall <- lookup scores "overall";;
  let scores := setitem scores "overall" (sum (values scores) - overall) in
  Return scores.

(** The gap computation of [find_skill_gaps_advanced], from the skills
    of the target job found in the database. *)
Definition skill_gaps (current_skills_list target_job_skills : list string)
    : gset string * gset string :=
  let target_skills := map lower target_job_skills in
  let matching_skills : gset string := list_to_set current_skills_list ∩ list_to_set target_skills in
  let missing_skills : gset string := list_to_set target_skills ∖ list_to_set current_skills_list in
  (matching_skills, missing_skills).

End Toolkit.

End ProductionCareerToolkit.

(* ================================================================== *)
(** * The specification's reading of the raw overlap ratio *)
(* ================================================================== *)

Module Spec.

Import Py.
Local Open Scope Q_scope.

Definition is_lower_letter (c : ascii) : bool := between 97 122 (nat_of_ascii c).

(** A lowercase alphabetic token of length 3 at least. *)
Definition lowercase_word (w : string) : Prop :=
  (3 <= length (chars w))%nat /\ Forall (fun c => is_lower_letter c = true) (chars w).

(** The tokens of a document: the lowercase alphabetic words of three
    letters or more, without the common words. *)
Definition tokens (doc : string) : gset string :=
  list_to_set (findall_alpha3 (lower doc)) ∖ ProductionCareerToolkit.common_words.

(** The sum of the sub-scores of a dictionary of scores: of every field
    but 'overall'. *)
Definition sum_of_subscores (scores : dict) : Q :=
  sum (values (List.filter (fun kv => negb (String.eqb (fst kv) "overall")) scores)).

(** [|job_tokens ∩ resume_tokens| / |job_tokens|], 0 if there is no job
    token. *)
Definition raw_overlap_ratio (resume_doc job_doc : string) : Q :=
  let job_tokens := tokens job_doc in
  let resume_tokens := tokens resume_doc in
  if (size job_tokens =? 0)%nat then 0
  else num (size (job_tokens ∩ resume_tokens)) / num (size job_tokens).

End Spec.

(* ================================================================== *)
(** * Sample runs of the libraries *)
(* ================================================================== *)

Module Samples.

Import Py.
Local Open Scope Q_scope.

Definition empty_vocabulary : exn :=
  Exception "ValueError" "empty vocabulary; perhaps the documents only contain stop words".

(** A corpus of stop words only: every vectorization fails. *)
Definition stop_words_only : Sklearn :=
  {| fit_transform := fun _ _ => Raise empty_vocabulary;
     cosine_similarity := fun _ => Raise (Exception "ValueError" "Found array with 0 feature(s)") |}.

(** The cosines of rows that are null or of norm 1: their inner
    products. *)
Definition unit_rows_cosine (m : matrix) : matrix :=
  List.map (fun u => List.map (fun w => dot u w) m) m.

(** A run with rational weights, every row null or of norm 1. A pair of
    documents is the resume "python docker" and the job "python sql", or,
    when its first document is empty, no text and the job
    "Python developer"; a single document is either of the first two. *)
Definition python_run : Sklearn :=
  {| fit_transform := fun v docs =>
       match docs with
       | [resume; _] =>
           if String.eqb resume ""
           then Return {| get_feature_names_out :=
                            ["developer"; "python"; "python developer"];
                          toarray := [[0; 0; 0]; [2 # 3; 1 # 3; 2 # 3]] |}
           else Return {| get_feature_names_out :=
                            ["docker"; "python"; "python docker"; "python sql"; "sql"];
                          toarray := [[2 # 3; 1 # 3; 2 # 3; 0; 0];
                                      [0; 1 # 3; 0; 2 # 3; 2 # 3]] |}
       | [doc] =>
           if String.eqb doc "python sql"
           then Return {| get_feature_names_out := ["python"; "python sql"; "sql"];
                          toarray := [[2 # 3; 1 # 3; 2 # 3]] |}
           else Return {| get_feature_names_out := ["docker"; "python"; "python docker"];
                          toarray := [[2 # 3; 1 # 3; 2 # 3]] |}
       | _ => Raise empty_vocabulary
       end;
     cosine_similarity := fun m => Return (unit_rows_cosine m) |}.

(** A run on a document of eighteen "python" and one "docker": two of
    its four terms weigh less than 0.1. *)
Definition skewed_run : Sklearn :=
  {| fit_transform := fun v docs =>
       match docs with
       | [_] =>
           Return {| get_feature_names_out :=
                       ["docker"; "python"; "python docker"; "python python"];
                     toarray := [[0.040; 0.726; 0.040; 0.685]] |}
       | _ => Raise empty_vocabulary
       end;
     cosine_similarity := fun m => Return [[1]] |}.

(** A file system with one resume, of one page. *)
Definition one_resume (page : string) : Services :=
  {| pdf_pages := fun _ => Return [Some page];
     generate_ats_ai_analysis := fun _ _ _ => Return "Add the missing keywords." |}.

Definition resume_pdf : File := {| name := "resume.pdf" |}.

Definition empty_production_analysis : ProductionCareerToolkit.Analysis :=
  {| ProductionCareerToolkit.sections_found := [];
     ProductionCareerToolkit.sections_missing := [];
     ProductionCareerToolkit.word_count := 0;
     ProductionCareerToolkit.skills_found := [];
     ProductionCareerToolkit.contact_info := false;
     ProductionCareerToolkit.action_verbs := 0;
     ProductionCareerToolkit.quantified_achievements := 0;
     ProductionCareerToolkit.keywords_density := [];
     ProductionCareerToolkit.readability_score := 0 |}.

Definition empty_analysis : CareerToolkit.Analysis :=
  {| CareerToolkit.sections_found := [];
     CareerToolkit.sections_missing := [];
     CareerToolkit.word_count := 0;
     CareerToolkit.skills_found := [];
     CareerToolkit.contact_info := false;
     CareerToolkit.action_verbs := 0;
     CareerToolkit.quantified_achievements := 0;
     CareerToolkit.grammar_issues := [] |}.

(** Eighteen times "python", then "docker". *)
Definition skewed_text : string :=
  "python python python python python python python python python python python python python python python python python python docker".

(** The empty record but for three action verbs and two quantified
    achievements. *)
Definition busy_analysis : CareerToolkit.Analysis :=
  {| CareerToolkit.sections_found := [];
     CareerToolkit.sections_missing := [];
     CareerToolkit.word_count := 0;
     CareerToolkit.skills_found := [];
     CareerToolkit.contact_info := false;
     CareerToolkit.action_verbs := 3;
     CareerToolkit.quantified_achievements := 2;
     CareerToolkit.grammar_issues := [] |}.

End Samples.

(* ================================================================== *)
(** * The arithmetic of scikit-learn in binary64 *)
(* ================================================================== *)

(** The numbers of NumPy are IEEE 754 binary64 floats, here the
    primitive floats of the kernel. A finite float is read as the
    rational it denotes. *)
Module Float64.

Import Floats.
Local Open Scope Q_scope.

Definition of_Z (z : Z) : float :=
  match z with
  | Z0 => PrimFloat.zero
  | Zpos _ => PrimFloat.of_uint63 (Uint63.of_Z z)
  | Zneg p => PrimFloat.opp (PrimFloat.of_uint63 (Uint63.of_Z (Zpos p)))
  end.

(** The float of a rational that is the value of a float. *)
Definition of_Q (q : Q) : float :=
  PrimFloat.div (of_Z (Qnum q)) (of_Z (Zpos (Qden q))).

(** The rational that a finite float denotes: mantissa times a power
    of 2. *)
Definition to_Q (x : float) : Q :=
  match Prim2SF x with
  | S754_finite negative m e =>
      let v := match e with
               | Z0 => Zpos m # 1
               | Zpos k => Zpos (m * 2 ^ k) # 1
               | Zneg k => Zpos m # (2 ^ k)
               end in
      if negative then Qopp v else v
  | _ => 0%Q
  end.

(** The inner product of two rows, summed from the left. *)
Definition dot (u v : list float) : float :=
  fold_left (fun acc xy => PrimFloat.add acc (PrimFloat.mul (fst xy) (snd xy)))
    (combine u v) PrimFloat.zero.

(** [normalize(X, norm='l2')] on one row: the row over its norm, and the
    row itself when the norm is 0. *)
Definition normalize (row : list float) : list float :=
  let norm := PrimFloat.sqrt (dot row row) in
  if PrimFloat.eqb norm PrimFloat.zero
  then row
  else List.map (fun x => PrimFloat.div x norm) row.

(** [cosine_similarity(X)]: the rows are normalised, and the entry
    (i, j) is the inner product of the rows i and j. *)
Definition cosine_similarity (m : matrix) : matrix :=
  let rows := List.map (fun row => normalize (List.map of_Q row)) m in
  List.map (fun u => List.map (fun w => to_Q (dot u w)) rows) rows.

(** The TF-IDF row of a document whose terms have a term frequency of 1
    and the inverse document frequencies [idf], normalised as
    [TfidfVectorizer] does by default. *)
Definition tfidf_row (idf : list Q) : list Q :=
  List.map to_Q (normalize (List.map of_Q idf)).

(** The row of a document of three terms with an inverse document
    frequency of 1 each: the terms are in every document. *)
Definition three_equal_weights : list Q := tfidf_row [1; 1; 1].

End Float64.

Module Runs.

Import Py Samples.
Local Open Scope Q_scope.

(** The inverse document frequency of a term found in one document of
    two, ln(3/2) + 1, in float64: 1.4054651081081644. *)
Definition idf_one_of_two : Q := 6329652137158163 # 4503599627370496.

(** A run in float64 on the resume "python docker", with the job
    description "python docker", or with the job description
    "the and of", which has stop words only: its row in the matrix of the
    pair is null, and on its own it has no vocabulary. The terms are
    "docker", "python" and "python docker". *)
Definition float64_run : Sklearn :=
  {| fit_transform := fun v docs =>
       match docs with
       | [_; job] =>
           Return {| get_feature_names_out := ["docker"; "python"; "python docker"];
                     toarray :=
                       if String.eqb job "the and of"
                       then [Float64.tfidf_row
                               [idf_one_of_two; idf_one_of_two; idf_one_of_two];
                             [0; 0; 0]]
                       else [Float64.three_equal_weights;
                             Float64.three_equal_weights] |}
       | [doc] =>
           if String.eqb doc "the and of"
           then Raise empty_vocabulary
           else Return {| get_feature_names_out := ["docker"; "python"; "python docker"];
                          toarray := [Float64.three_equal_weights] |}
       | _ => Raise empty_vocabulary
       end;
     cosine_similarity := fun m => Return (Float64.cosine_similarity m) |}.

End Runs.

(* ================================================================== *)
(** * Vocabulary of the statements *)
(* ================================================================== *)

Module Messages.

Import Py.

Definition please_upload : string :=
  "Please upload a resume file and provide a job description.".

Definition could_not_extract : string :=
  "Could not extract text from resume file.".

Definition error_calculating (e : exn) : string :=
  "Error calculating ATS score: " +:+ str_exn e.

(** The inputs that the guards of the two ATS entry points stop: no
    file, a job description that is blank once stripped, or a file from
    which no text comes. *)
Definition stopped_by_guard {sv : Services} (resume_file : option File)
    (job_description : string) : Prop :=
  resume_file = None
  \/ strip job_description = ""
  \/ exists f, resume_file = Some f
               /\ CareerToolkit.extract_text_from_pdf (name f) = "".

End Messages.

Module Ranking.

Local Open Scope Q_scope.

(** [heavier p q]: the term [p] may stand before the term [q] in a
    ranking by weight, descending. *)
Definition heavier (p q : string * Q) : Prop := snd q <= snd p.

End Ranking.

Module ResumeScore.

Import Py CareerToolkit.
Local Open Scope Q_scope.

(** The six contributions that [calculate_resume_score] adds up. *)
Definition section_points (a : Analysis) : Q :=
  min 40 ((len (sections_found a) / 5) * 40).
Definition band_points (a : Analysis) : Q := word_count_points (word_count a).
Definition skill_points (a : Analysis) : Q := min 15 (len (skills_found a) * 2).
Definition verb_points (a : Analysis) : Q := min 10 (num (action_verbs a) * 1.5).
Definition achievement_points (a : Analysis) : Q :=
  min 10 (num (quantified_achievements a) * 2).
Definition contact_points (a : Analysis) : Q := if contact_info a then 5 else 0.

(** Two analysis records that agree on every field but the two counts. *)
Definition same_other_fields (a a' : Analysis) : Prop :=
  sections_found a = sections_found a'
  /\ sections_missing a = sections_missing a'
  /\ word_count a = word_count a'
  /\ skills_found a = skills_found a'
  /\ contact_info a = contact_info a'
  /\ grammar_issues a = grammar_issues a'.

End ResumeScore.

(* ================================================================== *)
(** * More of the Python runtime *)
(* ================================================================== *)

Module PyMore.

Import Py.

(** [a < b] on numbers *)
Definition lt (a b : Q) : bool := negb (Qle_bool b a).

(** [a >= b] on numbers *)
Definition ge (a b : Q) : bool := Qle_bool b a.

(** [len(s)] on a string *)
Definition strlen (s : string) : nat := String.length s.

Fixpoint is_prefix (p l : list ascii) : bool :=
  match p, l with
  | [], _ => true
  | a :: p', b :: l' => Ascii.eqb a b && is_prefix p' l'
  | _ :: _, [] => false
  end.

Fixpoint contains_chars (p l : list ascii) : bool :=
  is_prefix p l
  || match l with
     | [] => false
     | _ :: l' => contains_chars p l'
     end.

(** [needle in haystack] on strings: [needle] occurs in [haystack]. *)
Definition contains (needle haystack : string) : bool :=
  contains_chars (chars needle) (chars haystack).

(** [s.split(sep)] for a separator of one character; [cur] holds the
    piece being read, last character first. *)
Fixpoint split_sep_chars (sep : ascii) (cur l : list ascii) : list (list ascii) :=
  match l with
  | [] => [rev cur]
  | c :: l' =>
      if Ascii.eqb c sep
      then rev cur :: split_sep_chars sep [] l'
      else split_sep_chars sep (c :: cur) l'
  end.

Definition split_sep (sep : ascii) (s : string) : list string :=
  List.map join_chars (split_sep_chars sep [] (chars s)).

(** [sep.join(l)] *)
Fixpoint join (sep : string) (l : list string) : string :=
  match l with
  | [] => ""
  | [x] => x
  | x :: l' => x +:+ sep +:+ join sep l'
  end.

(** [s.count(c)] for a character [c] *)
Definition count_char (c : ascii) (s : string) : nat :=
  length (List.filter (Ascii.eqb c) (chars s)).

Definition is_lower (c : ascii) : bool := between 97 122 (nat_of_ascii c).
Definition is_upper (c : ascii) : bool := between 65 90 (nat_of_ascii c).

Definition upper_char (c : ascii) : ascii :=
  if is_lower c then ascii_of_nat (nat_of_ascii c - 32) else c.

(** [s.title()], on ASCII text: a letter is made upper case after a
    character that is no letter, lower case after a letter. Every string
    that the code titles is an ASCII constant of its databases. *)
Fixpoint title_chars (previous_is_cased : bool) (l : list ascii) : list ascii :=
  match l with
  | [] => []
  | c :: l' =>
      if is_lower c
      then (if previous_is_cased then c else upper_char c) :: title_chars true l'
      else if is_upper c
      then (if previous_is_cased then lower_char c else c) :: title_chars true l'
      else c :: title_chars false l'
  end.

Definition title (s : string) : string := join_chars (title_chars false (chars s)).

(** [l.sort(key=key, reverse=True)]: stable, descending. *)
Fixpoint insert_by {A} (key : A -> Q) (x : A) (l : list A) : list A :=
  match l with
  | [] => [x]
  | y :: l' =>
      if Qle_bool (key y) (key x)
      then x :: y :: l'
      else y :: insert_by key x l'
  end.

Definition sort_by_desc {A} (key : A -> Q) (l : list A) : list A :=
  fold_right (insert_by key) [] l.

(** [min(x :: l, key=key)]: the first of the least elements. *)
Fixpoint min_by {A} (key : A -> Q) (x : A) (l : list A) : A :=
  match l with
  | [] => x
  | y :: l' => if lt (key y) (key x) then min_by key y l' else min_by key x l'
  end.

(** Dictionaries with string keys and values of any type, in insertion
    order. *)
Fixpoint dict_set {V} (d : list (string * V)) (k : string) (v : V) : list (string * V) :=
  match d with
  | [] => [(k, v)]
  | (k', v') :: d' =>
      if String.eqb k k' then (k, v) :: d' else (k', v') :: dict_set d' k v
  end.

(** [d.get(k)] *)
Fixpoint dict_get {V} (d : list (string * V)) (k : string) : option V :=
  match d with
  | [] => None
  | (k', v') :: d' => if String.eqb k k' then Some v' else dict_get d' k
  end.

(** [any(p(x) for x in l)] *)
Definition any {A} (p : A -> bool) (l : list A) : bool := existsb p l.

End PyMore.

(** The order in which Python iterates a set of strings: it depends on
    the hashes, and is some enumeration of the elements without
    repetition. *)
Class SetOrder := {
  iterate : gset string -> list string;
  iterate_perm : forall X : gset string, Permutation (iterate X) (elements X)
}.

(** The module [re], for the patterns of the resume analysis. *)
Class Regex := {
  re_search : string -> string -> bool;
  re_findall : string -> string -> list string
}.

(* ================================================================== *)
(** * career_toolkit.py: analysis, recommendations, job matching *)
(* ================================================================== *)

Module CareerAnalysis.

Import Py PyMore.
Local Open Scope Q_scope.

Record SkillInfo := {
  category : string;
  difficulty : string;
  resources : list string
}.

(** The attributes of the toolkit that the code reads. *)
Record Toolkit := {
  job_database : list (string * list string);
  skills_database : list (string * SkillInfo)
}.

Definition create_job_database : list (string * list string) :=
  [("Software Engineer",
    ["Python"; "JavaScript"; "React"; "Node.js"; "SQL"; "Git"; "Docker"; "AWS";
     "API Development"; "Testing"]);
   ("Data Scientist",
    ["Python"; "R"; "Machine Learning"; "SQL"; "Statistics"; "Pandas"; "NumPy";
     "Scikit-learn"; "TensorFlow"; "Data Visualization"]);
   ("Product Manager",
    ["Product Strategy"; "Market Research"; "Agile"; "Roadmapping"; "Analytics";
     "User Research"; "A/B Testing"; "Communication"; "Leadership"]);
   ("Digital Marketing Manager",
    ["SEO"; "SEM"; "Google Analytics"; "Social Media Marketing"; "Content Strategy";
     "Email Marketing"; "PPC"; "Marketing Automation"]);
   ("UX/UI Designer",
    ["Figma"; "Adobe Creative Suite"; "User Research"; "Wireframing"; "Prototyping";
     "Design Systems"; "Usability Testing"; "HTML/CSS"]);
   ("DevOps Engineer",
    ["Docker"; "Kubernetes"; "AWS"; "CI/CD"; "Linux"; "Terraform"; "Jenkins";
     "Monitoring"; "Scripting"; "Cloud Infrastructure"]);
   ("Financial Analyst",
    ["Excel"; "Financial Modeling"; "SQL"; "Python"; "Tableau"; "Financial Reporting";
     "Valuation"; "Risk Analysis"; "Budgeting"]);
   ("Business Analyst",
    ["Requirements Analysis"; "Process Mapping"; "SQL"; "Tableau";
     "Stakeholder Management"; "Documentation"; "Agile"; "Data Analysis"]);
   ("Sales Manager",
    ["CRM"; "Lead Generation"; "Sales Strategy"; "Negotiation"; "Pipeline Management";
     "Customer Relationship Management"; "Forecasting"]);
   ("HR Manager",
    ["Recruitment"; "Employee Relations"; "Performance Management"; "HRIS";
     "Compliance"; "Training Development"; "Compensation"]);
   ("Cybersecurity Analyst",
    ["Network Security"; "Penetration Testing"; "SIEM"; "Incident Response";
     "Risk Assessment"; "Compliance"; "Firewalls"]);
   ("Machine Learning Engineer",
    ["Python"; "TensorFlow"; "PyTorch"; "MLOps"; "Docker"; "Kubernetes";
     "Model Deployment"; "Feature Engineering"]);
   ("Content Writer",
    ["SEO Writing"; "Content Strategy"; "Copywriting"; "WordPress"; "Social Media";
     "Research"; "Grammar"; "Content Management"]);
   ("Project Manager",
    ["PMP"; "Agile"; "Scrum"; "Risk Management"; "Budget Management";
     "Stakeholder Management"; "Communication"; "Leadership"]);
   ("Quality Assurance Engineer",
    ["Test Automation"; "Selenium"; "API Testing"; "Manual Testing"; "Bug Tracking";
     "Test Planning"; "Performance Testing"])].

Definition create_skills_database : list (string * SkillInfo) :=
  [("Python",
    {| category := "Programming"; difficulty := "Medium";
       resources := ["Codecademy Python Course"; "Python.org Tutorial";
                     "Automate the Boring Stuff"] |});
   ("JavaScript",
    {| category := "Programming"; difficulty := "Medium";
       resources := ["MDN Web Docs"; "JavaScript.info"; "FreeCodeCamp"] |});
   ("Machine Learning",
    {| category := "Data Science"; difficulty := "Hard";
       resources := ["Coursera ML Course"; "Kaggle Learn"; "Scikit-learn Documentation"] |});
   ("React",
    {| category := "Frontend"; difficulty := "Medium";
       resources := ["React Official Docs"; "React Tutorial"; "FreeCodeCamp React"] |});
   ("SQL",
    {| category := "Database"; difficulty := "Easy";
       resources := ["W3Schools SQL"; "SQLBolt"; "Codecademy SQL"] |});
   ("AWS",
    {| category := "Cloud"; difficulty := "Hard";
       resources := ["AWS Training"; "A Cloud Guru"; "AWS Documentation"] |});
   ("Docker",
    {| category := "DevOps"; difficulty := "Medium";
       resources := ["Docker Official Tutorial"; "Docker Mastery Course";
                     "Play with Docker"] |});
   ("Data Visualization",
    {| category := "Data Science"; difficulty := "Medium";
       resources := ["Tableau Public Training"; "D3.js Tutorial";
                     "Matplotlib Documentation"] |});
   ("Project Management",
    {| category := "Management"; difficulty := "Medium";
       resources := ["PMI Resources"; "Coursera Project Management"; "Scrum.org"] |});
   ("SEO",
    {| category := "Marketing"; difficulty := "Medium";
       resources := ["Google SEO Starter Guide"; "Moz SEO Learning Center";
                     "SEMrush Academy"] |})].

(** The toolkit as [__init__] builds it. *)
Definition init : Toolkit :=
  {| job_database := create_job_database;
     skills_database := create_skills_database |}.

Section Toolkit.

Context {sv : Services} {re : Regex} {so : SetOrder}.

Abbreviation Analysis := CareerToolkit.Analysis.

(** The loop over the required sections: the titles of those found in
    the text, and of those missing. *)
Definition check_sections (required_sections : list string) (text_lower : string)
    : list string * list string :=
  fold_left
    (fun '(found, missing) section =>
       if contains section text_lower
          || (String.eqb section "summary" && contains "profile" text_lower)
       then (found ++ [title section], missing)
       else (found, missing ++ [title section]))
    required_sections ([], []).

(** [all_skills]: the skills of every job, in lower case. *)
Definition all_skills (self : Toolkit) : gset string :=
  fold_left
    (fun (all_skills : gset string) job_skills =>
       all_skills ∪ list_to_set (List.map lower job_skills))
    (List.map snd (job_database self)) ∅.

Definition email_pattern : string :=
  "\b[A-Za-z0-9._%+-]+@[A-Za-z0-9.-]+\.[A-Z|a-z]{2,}\b".
Definition phone_pattern : string := "\b\d{3}[-.]?\d{3}[-.]?\d{4}\b".
Definition number_pattern : string := "\b\d+(?:\.\d+)?%?\b".

Definition action_verb_list : list string :=
  ["managed"; "developed"; "created"; "implemented"; "designed"; "led"; "improved";
   "increased"; "reduced"; "achieved"; "delivered"; "built"; "established";
   "coordinated"; "analyzed"].

Definition perform_resume_analysis (self : Toolkit) (resume_text : string) : Analysis :=
  (* Check for required sections *)
  let required_sections := ["experience"; "education"; "skills"; "summary"; "objective"] in
  let text_lower := lower resume_text in
  let '(sections_found, sections_missing) := check_sections required_sections text_lower in
  (* Check for contact information *)
  let contact_info :=
    re_search email_pattern resume_text || re_search phone_pattern resume_text in
  (* Find skills mentioned *)
  let skills_found :=
    List.map title
      (List.filter (fun skill => contains (lower skill) text_lower)
         (iterate (all_skills self))) in
  (* Count action verbs *)
  let action_verbs :=
    fold_left
      (fun count verb =>
         (count + length (re_findall ("\b" +:+ verb +:+ "\w*\b") text_lower))%nat)
      action_verb_list 0%nat in
  (* Count quantified achievements (numbers + %) *)
  let quantified_achievements := length (re_findall number_pattern resume_text) in
  (* Basic grammar check (simplified) *)
  let grammar_issues := [] in
  let grammar_issues :=
    if (count_char "." resume_text <? 5)%nat
    then grammar_issues ++ ["Consider adding more complete sentences"]
    else grammar_issues in
  let grammar_issues :=
    if (count_char "," resume_text <? 3)%nat
    then grammar_issues ++ ["Consider using more comma-separated lists for clarity"]
    else grammar_issues in
  {| CareerToolkit.sections_found := sections_found;
     CareerToolkit.sections_missing := sections_missing;
     CareerToolkit.word_count := length (split resume_text);
     CareerToolkit.skills_found := skills_found;
     CareerToolkit.contact_info := contact_info;
     CareerToolkit.action_verbs := action_verbs;
     CareerToolkit.quantified_achievements := quantified_achievements;
     CareerToolkit.grammar_issues := grammar_issues |}.

Definition generate_improvement_suggestions (analysis : Analysis) : list string :=
  let suggestions := [] in
  (* Section completeness *)
  let suggestions :=
    if (0 <? length (CareerToolkit.sections_missing analysis))%nat
    then suggestions
         ++ ["Add missing sections: "
             +:+ join ", " (CareerToolkit.sections_missing analysis)]
    else suggestions in
  (* Word count *)
  let suggestions :=
    if (CareerToolkit.word_count analysis <? 200)%nat
    then suggestions
         ++ ["Resume is too short. Aim for 300-500 words with more detailed descriptions"]
    else if (800 <? CareerToolkit.word_count analysis)%nat
    then suggestions ++ ["Resume is too long. Consider condensing to 500-700 words"]
    else suggestions in
  (* Contact information *)
  let suggestions :=
    if negb (CareerToolkit.contact_info analysis)
    then suggestions ++ ["Add contact information (email and phone number)"]
    else suggestions in
  (* Skills *)
  let suggestions :=
    if (length (CareerToolkit.skills_found analysis) <? 5)%nat
    then suggestions ++ ["Include more relevant technical and soft skills"]
    else suggestions in
  (* Action verbs *)
  let suggestions :=
    if (CareerToolkit.action_verbs analysis <? 5)%nat
    then suggestions
         ++ ["Use more action verbs to describe your achievements (managed, developed, created, etc.)"]
    else suggestions in
  (* Quantified achievements *)
  let suggestions :=
    if (CareerToolkit.quantified_achievements analysis <? 3)%nat
    then suggestions
         ++ ["Add more quantified achievements with specific numbers and percentages"]
    else suggestions in
  (* Grammar *)
  let suggestions :=
    match CareerToolkit.grammar_issues analysis with
    | [] => suggestions
    | _ :: _ => suggestions ++ CareerToolkit.grammar_issues analysis
    end in
  suggestions.

(** The values that the text of the analysis report shows. *)
Record AnalysisReport := {
  report_analysis : Analysis;
  report_suggestions : list string;
  overall_score : Z
}.

Definition create_analysis_report (analysis : Analysis) (suggestions : list string)
    : AnalysisReport :=
  {| report_analysis := analysis;
     report_suggestions := suggestions;
     overall_score := CareerToolkit.calculate_resume_score analysis |}.

Definition analyze_resume (self : Toolkit) (resume_file : option File)
    : result (output AnalysisReport * option string * option string) :=
  match resume_file with
  | None => Return (Text "Please upload a resume file to analyze.", None, None)
  | Some resume_file =>
      try_except
        ((* Extract text from PDF *)
         let resume_text := CareerToolkit.extract_text_from_pdf (name resume_file) in
         if negb (truthy resume_text) || (strlen (strip resume_text) <? 50)%nat
         then Return
                (Text "Could not extract sufficient text from the resume. Please ensure the PDF contains readable text.",
                 None, None)
         else
           (* Analyze resume sections *)
           let analysis := perform_resume_analysis self resume_text in
           (* Generate improvement suggestions *)
           let suggestions := generate_improvement_suggestions analysis in
           (* Create analysis report *)
           let report := create_analysis_report analysis suggestions in
           Return (Report report, None, None))
        (fun e => Return (Text ("Error analyzing resume: " +:+ str_exn e), None, None))
  end.

Definition generate_detailed_recommendations (scores : dict) (analysis : Analysis)
    : result (list string) :=
  let recommendations := [] in
  structure <- lookup scores "structure";;
  let recommendations :=
    if lt structure 20
    then recommendations ++ ["Improve resume structure by adding missing sections"]
    else recommendations in
  content <- lookup scores "content";;
  let recommendations :=
    if lt content 20
    then recommendations
         ++ ["Enhance content with more action verbs and quantified achievements"]
    else recommendations in
  keywords <- lookup scores "keywords";;
  let recommendations :=
    if lt keywords 15
    then recommendations
         ++ ["Include more relevant industry keywords and technical skills"]
    else recommendations in
  formatting <- lookup scores "formatting";;
  let recommendations :=
    if lt formatting 12
    then recommendations ++ ["Improve formatting and ensure consistent styling"]
    else recommendations in
  grammar <- lookup scores "grammar";;
  let recommendations :=
    if lt grammar 12
    then recommendations ++ ["Review grammar and sentence structure"]
    else recommendations in
  Return recommendations.

Definition grade_of (overall_score : Q) : string :=
  if ge overall_score 90 then "A+"
  else if ge overall_score 80 then "A"
  else if ge overall_score 70 then "B+"
  else if ge overall_score 60 then "B"
  else "C".

(** The values that the text of the perfection report shows. *)
Record PerfectionReport := {
  perfection_scores : dict;
  grade : string;
  recommendations : list string
}.

Definition create_perfection_score_report (scores : dict) (recommendations : list string)
    : result PerfectionReport :=
  overall_score <- lookup scores "overall";;
  let grade := grade_of overall_score in
  _ <- lookup scores "structure";;
  _ <- lookup scores "content";;
  _ <- lookup scores "keywords";;
  _ <- lookup scores "formatting";;
  _ <- lookup scores "grammar";;
  Return {| perfection_scores := scores;
            grade := grade;
            recommendations := recommendations |}.

Definition calculate_perfection_score (self : Toolkit) (resume_file : option File)
    : result (output PerfectionReport * option string) :=
  match resume_file with
  | None =>
      Return (Text "Please upload a resume file to calculate the perfection score.", None)
  | Some resume_file =>
      try_except
        (let resume_text := CareerToolkit.extract_text_from_pdf (name resume_file) in
         if negb (truthy resume_text)
         then Return (Text "Could not extract text from resume file.", None)
         else
           (* Perform detailed analysis *)
           let analysis := perform_resume_analysis self resume_text in
           (* Calculate detailed scores *)
           scores <- CareerToolkit.calculate_detailed_scores analysis resume_text;;
           (* Generate improvement recommendations *)
           recommendations <- generate_detailed_recommendations scores analysis;;
           (* Create perfection score report *)
           report <- create_perfection_score_report scores recommendations;;
           Return (Report report, None))
        (fun e =>
           Return (Text ("Error calculating perfection score: " +:+ str_exn e), None))
  end.

End Toolkit.

End CareerAnalysis.

(* ================================================================== *)
(** * career_toolkit.py: job matcher and skill gap finder *)
(* ================================================================== *)

Module JobMatching.

Import Py PyMore CareerAnalysis.
Local Open Scope Q_scope.

Section Toolkit.

Context {so : SetOrder}.

(** An entry of [job_matches]. *)
Record JobMatch := {
  job_title : string;
  match_percentage : Q;
  matching_skills : list string;
  missing_skills : list string
}.

(** [[skill.strip().lower() for skill in user_skills.split(',')]] *)
Definition skills_list_of (user_skills : string) : list string :=
  List.map (fun skill => lower (strip skill)) (split_sep "," user_skills).

(** The loop of [match_jobs] over the items of the job database. *)
Fixpoint match_jobs_loop (user_skills_list : list string)
    (items : list (string * list string)) (job_matches : list JobMatch)
    : result (list JobMatch) :=
  match items with
  | [] => Return job_matches
  | (job_title, job_skills) :: items' =>
      let job_skills_lower := List.map lower job_skills in
      (* Calculate match percentage *)
      let matching_skills : gset string :=
        list_to_set user_skills_list ∩ list_to_set job_skills_lower in
      ratio <- truediv (num (size matching_skills)) (len job_skills_lower);;
      let match_percentage := ratio * 100 in
      let job_matches :=
        if lt 0 match_percentage
        then job_matches
             ++ [{| job_title := job_title;
                    match_percentage := match_percentage;
                    matching_skills := iterate matching_skills;
                    missing_skills :=
                      iterate (list_to_set job_skills_lower ∖ list_to_set user_skills_list) |}]
        else job_matches in
      match_jobs_loop user_skills_list items' job_matches
  end.

(** The values that the text of the job match report shows. *)
Record JobMatchReport := {
  your_skills : list string;
  top_matches : list JobMatch
}.

Definition create_job_match_report (job_matches : list JobMatch) (user_skills : list string)
    : output JobMatchReport :=
  match job_matches with
  | [] =>
      Text "No matching jobs found. Consider expanding your skillset or trying different skill keywords."
  | _ :: _ => Report {| your_skills := user_skills; top_matches := job_matches |}
  end.

Definition match_jobs (self : Toolkit) (user_skills : string)
    : result (output JobMatchReport * option string) :=
  if negb (truthy (strip user_skills))
  then Return (Text "Please enter your skills to find matching jobs.", None)
  else
    try_except
      (let user_skills_list := skills_list_of user_skills in
       job_matches <- match_jobs_loop user_skills_list (job_database self) [];;
       (* Sort by match percentage *)
       let job_matches := sort_by_desc match_percentage job_matches in
       (* Create report *)
       let report := create_job_match_report (firstn 5 job_matches) user_skills_list in
       Return (report, None))
      (fun e => Return (Text ("Error matching jobs: " +:+ str_exn e), None)).

(** The default learning path. *)
Definition default_path : SkillInfo :=
  {| category := "General";
     difficulty := "Medium";
     resources := ["Online tutorials"; "Documentation"; "Practice projects"] |}.

(** [create_learning_roadmap], on the missing skills in the order the
    set is iterated. *)
Definition create_learning_roadmap (self : Toolkit) (missing_skills : list string)
    : list (string * SkillInfo) :=
  fold_left
    (fun roadmap skill =>
       let skill_title := title skill in
       match dict_get (skills_database self) skill with
       | Some info => dict_set roadmap skill_title info
       | None => dict_set roadmap skill_title default_path
       end)
    missing_skills [].

(** The values that the text of the skill gap report shows. *)
Record SkillGapReport := {
  target_role : string;
  skill_match : Q;
  skills_you_have : gset string;
  skills_to_develop : gset string;
  learning_roadmap : list (string * SkillInfo)
}.

Definition create_skill_gap_report (target_job : string)
    (matching_skills missing_skills : gset string) (roadmap : list (string * SkillInfo))
    (current_skills target_skills : list string) : result SkillGapReport :=
  ratio <- truediv (num (size matching_skills)) (len target_skills);;
  let match_percentage := ratio * 100 in
  Return {| target_role := title target_job;
            skill_match := match_percentage;
            skills_you_have := matching_skills;
            skills_to_develop := missing_skills;
            learning_roadmap := firstn 5 roadmap |}.

(** The first job whose title satisfies [p], with its skills in lower
    case. *)
Definition first_job (p : string -> bool) (items : list (string * list string))
    : option (list string) :=
  match List.find (fun item => p (fst item)) items with
  | Some (_, job_skills) => Some (List.map lower job_skills)
  | None => None
  end.

(** [not target_job_skills] *)
Definition no_skills (target_job_skills : option (list string)) : bool :=
  match target_job_skills with
  | None | Some [] => true
  | Some (_ :: _) => false
  end.

(** The two searches of the job database for the target job. *)
Definition find_target_job_skills (self : Toolkit) (target_job : string)
    : option (list string) :=
  (* Find target job requirements *)
  let target_job_skills :=
    first_job (fun job_title => contains (lower target_job) (lower job_title))
      (job_database self) in
  if no_skills target_job_skills
  then
    (* Find partial matches *)
    match first_job
            (fun job_title =>
               any (fun word => contains word (lower job_title)) (split (lower target_job)))
            (job_database self) with
    | Some partial => Some partial
    | None => target_job_skills
    end
  else target_job_skills.

Definition find_skill_gaps (self : Toolkit) (current_skills target_job : string)
    : result (output SkillGapReport * option string) :=
  if negb (truthy (strip current_skills)) || negb (truthy (strip target_job))
  then Return (Text "Please enter your current skills and target job role.", None)
  else
    try_except
      (let current_skills_list := skills_list_of current_skills in
       let target_job_skills := find_target_job_skills self target_job in
       match target_job_skills with
       | None | Some [] =>
           Return
             (Text ("Job role '" +:+ target_job +:+ "' not found in database. Try: "
                    +:+ join ", " (firstn 5 (List.map fst (job_database self)))),
              None)
       | Some target_job_skills =>
           (* Calculate gaps *)
           let matching_skills : gset string :=
             list_to_set current_skills_list ∩ list_to_set target_job_skills in
           let missing_skills : gset string :=
             list_to_set target_job_skills ∖ list_to_set current_skills_list in
           (* Generate learning roadmap *)
           let roadmap := create_learning_roadmap self (iterate missing_skills) in
           (* Create skill gap report *)
           report <- create_skill_gap_report target_job matching_skills missing_skills
                       roadmap current_skills_list target_job_skills;;
           Return (Report report, None)
       end)
      (fun e => Return (Text ("Error finding skill gaps: " +:+ str_exn e), None)).

End Toolkit.

End JobMatching.

(* ================================================================== *)
(** * production_career_toolkit.py: scores and advice *)
(* ================================================================== *)

Module ProductionScores.

Import Py PyMore.
Local Open Scope Q_scope.

Abbreviation Analysis := ProductionCareerToolkit.Analysis.

Definition calculate_comprehensive_score (analysis : Analysis) : Z :=
  let score := 0 in
  (* Sections (30 points) *)
  let required_sections := 5 in
  let found_sections := len (ProductionCareerToolkit.sections_found analysis) in
  let score := score + min 30 ((found_sections / required_sections) * 30) in
  (* Content quality (25 points) *)
  let score :=
    if (300 <=? ProductionCareerToolkit.word_count analysis)%nat
       && (ProductionCareerToolkit.word_count analysis <=? 700)%nat
    then score + 15 else score in
  let score :=
    if (5 <=? ProductionCareerToolkit.action_verbs analysis)%nat
    then score + 5 else score in
  let score :=
    if (3 <=? ProductionCareerToolkit.quantified_achievements analysis)%nat
    then score + 5 else score in
  (* Skills (20 points) *)
  let score := score + min 20 (len (ProductionCareerToolkit.skills_found analysis) * 2) in
  (* Technical elements (15 points) *)
  let score :=
    if ProductionCareerToolkit.contact_info analysis then score + 5 else score in
  let score :=
    if ge (ProductionCareerToolkit.readability_score analysis) 50
    then score + 5 else score in
  let score :=
    if (200 <=? ProductionCareerToolkit.word_count analysis)%nat
    then score + 5 else score in
  (* Keywords (10 points) *)
  let score :=
    if (5 <=? length (ProductionCareerToolkit.keywords_density analysis))%nat
    then score + 10 else score in
  int (min 100 score).

(** The key of [get_optimization_priority]: the score of the item, 100
    for 'overall'. *)
Definition priority_key (item : string * Q) : Q :=
  if negb (String.eqb (fst item) "overall") then snd item else 100.

Definition priorities : list (string * string) :=
  [("structure", "Focus on adding missing resume sections");
   ("content", "Improve content with more action verbs and quantified achievements");
   ("keywords", "Add more relevant industry keywords and technical skills");
   ("formatting", "Optimize formatting and length for better readability");
   ("professionalism", "Ensure professional presentation and contact information")].

Definition get_optimization_priority (scores : dict) : result string :=
  match scores with
  | [] => Raise (Exception "ValueError" "min() arg is an empty sequence")
  | item :: items =>
      let lowest_score := min_by priority_key item items in
      Return
        (match dict_get priorities (fst lowest_score) with
         | Some advice => advice
         | None => "Continue optimizing all areas"
         end)
  end.

(** [build_chat_context] *)
Definition build_chat_context (history : list (string * string)) : string :=
  match history with
  | [] => "No previous context."
  | _ :: _ =>
      (* Get last 3 exchanges for context *)
      let recent_history :=
        if (3 <? length history)%nat then skipn (length history - 3) history else history in
      let context_parts :=
        fold_left
          (fun context_parts '(user_msg, bot_msg) =>
             context_parts ++ ["User: " +:+ user_msg] ++ ["Assistant: " +:+ bot_msg])
          recent_history [] in
      join (String "010" "") context_parts
  end.

End ProductionScores.

(* ================================================================== *)
(** * More sample runs *)
(* ================================================================== *)

Module MoreSamples.

Import Py PyMore.
Local Open Scope Q_scope.

(** Sets iterated in the order of [elements]. *)
Definition elements_order : SetOrder :=
  {| iterate := elements;
     iterate_perm := fun X => Permutation_refl (elements X) |}.

(** A regular-expression engine that finds nothing. *)
Definition no_match : Regex :=
  {| re_search := fun _ _ => false;
     re_findall := fun _ _ => [] |}.

(** A run of the regular expressions on a resume with an e-mail address,
    two figures and, for every action verb, one occurrence. *)
Definition rich_match : Regex :=
  {| re_search := fun pattern _ => String.eqb pattern CareerAnalysis.email_pattern;
     re_findall := fun pattern _ =>
       if String.eqb pattern CareerAnalysis.number_pattern then ["2019"; "35%"]
       else ["verb"] |}.

(** A resume text of more than fifty characters. *)
Definition short_resume : string :=
  "Summary. Experience: managed a team of 5, built tools. Education: BSc. Skills: Python, SQL.".

(** A dictionary of scores of the production toolkit. *)
Definition sample_scores : dict :=
  [("structure", 20); ("content", 12); ("keywords", 12); ("formatting", 15);
   ("professionalism", 15); ("overall", 74)].

End MoreSamples.

(* ================================================================== *)
(** * More vocabulary of the statements *)
(* ================================================================== *)

Module Advice.

Import Py PyMore.
Local Open Scope Q_scope.

(** A production analysis record that earns every point. *)
Definition full_production_analysis : ProductionCareerToolkit.Analysis :=
  {| ProductionCareerToolkit.sections_found :=
       ["Experience"; "Education"; "Skills"; "Summary"; "Objective"];
     ProductionCareerToolkit.sections_missing := [];
     ProductionCareerToolkit.word_count := 450;
     ProductionCareerToolkit.skills_found :=
       ["Python"; "Sql"; "Docker"; "Aws"; "Git"; "React"; "Testing"; "Linux"; "Agile";
        "Scrum"];
     ProductionCareerToolkit.contact_info := true;
     ProductionCareerToolkit.action_verbs := 6;
     ProductionCareerToolkit.quantified_achievements := 4;
     ProductionCareerToolkit.keywords_density :=
       [("python", 9%nat); ("team", 7%nat); ("data", 6%nat); ("built", 5%nat);
        ("led", 4%nat)];
     ProductionCareerToolkit.readability_score := 60 |}.

(** The five recommendations of [generate_detailed_recommendations]. *)
Definition structure_advice : string :=
  "Improve resume structure by adding missing sections".
Definition content_advice : string :=
  "Enhance content with more action verbs and quantified achievements".
Definition keywords_advice : string :=
  "Include more relevant industry keywords and technical skills".
Definition formatting_advice : string :=
  "Improve formatting and ensure consistent styling".
Definition grammar_advice : string :=
  "Review grammar and sentence structure".

(** How many of the five content criteria of [calculate_detailed_scores]
    an analysis record meets. *)
Definition criteria_met (a : CareerToolkit.Analysis) : nat :=
  ((if (300 <=? CareerToolkit.word_count a) then 1 else 0)
   + (if (5 <=? CareerToolkit.action_verbs a) then 1 else 0)
   + (if (3 <=? CareerToolkit.quantified_achievements a) then 1 else 0)
   + (if (5 <=? length (CareerToolkit.skills_found a)) then 1 else 0)
   + (if CareerToolkit.contact_info a then 1 else 0))%nat.

(** An analysis record to which no suggestion is made. *)
Definition nothing_to_improve (a : CareerToolkit.Analysis) : Prop :=
  CareerToolkit.sections_missing a = []
  /\ (200 <= CareerToolkit.word_count a <= 800)%nat
  /\ CareerToolkit.contact_info a = true
  /\ (5 <= length (CareerToolkit.skills_found a))%nat
  /\ (5 <= CareerToolkit.action_verbs a)%nat
  /\ (3 <= CareerToolkit.quantified_achievements a)%nat
  /\ CareerToolkit.grammar_issues a = [].

(** The titles of the five sections that the analysis looks for. *)
Definition section_titles : list string :=
  ["Experience"; "Education"; "Skills"; "Summary"; "Objective"].

End Advice.

Module Matches.

Import Py PyMore.
Local Open Scope Q_scope.

(** The skills of the user that a job asks for, and the skills of the
    job that the user lacks, in lower case. *)
Definition shared_skills (user_skills_list job_skills : list string) : gset string :=
  list_to_set user_skills_list ∩ list_to_set (List.map lower job_skills).

Definition lacking_skills (user_skills_list job_skills : list string) : gset string :=
  list_to_set (List.map lower job_skills) ∖ list_to_set user_skills_list.

(** A job without any skill. *)
Definition skillless (item : string * list string) : Prop := snd item = [].

(** [entry] is the entry of the job [item] for the skills of the user. *)
Definition entry_of (user_skills_list : list string) (item : string * list string)
    (entry : JobMatching.JobMatch) : Prop :=
  JobMatching.job_title entry = fst item
  /\ JobMatching.match_percentage entry
     == num (size (shared_skills user_skills_list (snd item))) / len (snd item) * 100
  /\ Permutation (JobMatching.matching_skills entry)
       (elements (shared_skills user_skills_list (snd item)))
  /\ Permutation (JobMatching.missing_skills entry)
       (elements (lacking_skills user_skills_list (snd item))).

(** The entries are in descending order of match percentage. *)
Definition descending (entries : list JobMatching.JobMatch) : Prop :=
  StronglySorted
    (fun m m' => JobMatching.match_percentage m' <= JobMatching.match_percentage m)
    entries.

Definition division_by_zero : exn := Exception "ZeroDivisionError" "division by zero".

End Matches.

(* ================================================================== *)
(** * production_career_toolkit.py: the skill gap finder *)
(* ================================================================== *)

(** The text generation service behind [generate_ai_content]. *)
Class Advisor := {
  generate_ai_content : string -> nat -> Py.result string
}.

Module ProductionGaps.

Import Py PyMore.
Local Open Scope Q_scope.

(** The data of a job. *)
Record JobData := {
  skills : list string;
  level : string;
  salary_range : string;
  growth_rate : string
}.

(** The attribute of the toolkit that the skill gap finder reads. *)
Record Toolkit := {
  job_database : list (string * JobData)
}.

Definition create_comprehensive_job_database : list (string * JobData) :=
  [("Software Engineer",
    {| skills := ["Python"; "JavaScript"; "React"; "Node.js"; "SQL"; "Git"; "Docker"; "AWS";
                  "API Development"; "Testing"];
       level := "Mid-Senior"; salary_range := "$70,000-$150,000"; growth_rate := "22%" |});
   ("Data Scientist",
    {| skills := ["Python"; "R"; "Machine Learning"; "SQL"; "Statistics"; "Pandas"; "NumPy";
                  "Scikit-learn"; "TensorFlow"; "Data Visualization"];
       level := "Mid-Senior"; salary_range := "$80,000-$160,000"; growth_rate := "31%" |});
   ("Product Manager",
    {| skills := ["Product Strategy"; "Market Research"; "Agile"; "Roadmapping"; "Analytics";
                  "User Research"; "A/B Testing"; "Communication"; "Leadership"];
       level := "Senior"; salary_range := "$90,000-$180,000"; growth_rate := "19%" |});
   ("Digital Marketing Manager",
    {| skills := ["SEO"; "SEM"; "Google Analytics"; "Social Media Marketing";
                  "Content Strategy"; "Email Marketing"; "PPC"; "Marketing Automation"];
       level := "Mid-Senior"; salary_range := "$55,000-$120,000"; growth_rate := "10%" |});
   ("UX/UI Designer",
    {| skills := ["Figma"; "Adobe Creative Suite"; "User Research"; "Wireframing";
                  "Prototyping"; "Design Systems"; "Usability Testing"; "HTML/CSS"];
       level := "Mid-Senior"; salary_range := "$65,000-$130,000"; growth_rate := "13%" |});
   ("DevOps Engineer",
    {| skills := ["Docker"; "Kubernetes"; "AWS"; "CI/CD"; "Linux"; "Terraform"; "Jenkins";
                  "Monitoring"; "Scripting"; "Cloud Infrastructure"];
       level := "Senior"; salary_range := "$85,000-$170,000"; growth_rate := "25%" |});
   ("Financial Analyst",
    {| skills := ["Excel"; "Financial Modeling"; "SQL"; "Python"; "Tableau";
                  "Financial Reporting"; "Valuation"; "Risk Analysis"; "Budgeting"];
       level := "Entry-Mid"; salary_range := "$55,000-$110,000"; growth_rate := "6%" |});
   ("Cybersecurity Analyst",
    {| skills := ["Network Security"; "Penetration Testing"; "SIEM"; "Incident Response";
                  "Risk Assessment"; "Compliance"; "Firewalls"; "Ethical Hacking"];
       level := "Mid-Senior"; salary_range := "$75,000-$145,000"; growth_rate := "33%" |});
   ("Machine Learning Engineer",
    {| skills := ["Python"; "TensorFlow"; "PyTorch"; "MLOps"; "Docker"; "Kubernetes";
                  "Model Deployment"; "Feature Engineering"; "Deep Learning"];
       level := "Senior"; salary_range := "$95,000-$200,000"; growth_rate := "40%" |});
   ("Content Marketing Specialist",
    {| skills := ["SEO Writing"; "Content Strategy"; "Copywriting"; "WordPress";
                  "Social Media"; "Research"; "Grammar"; "Content Management"; "Analytics"];
       level := "Entry-Mid"; salary_range := "$40,000-$80,000"; growth_rate := "12%" |})].

(** The toolkit as [__init__] builds it. *)
Definition init : Toolkit :=
  {| job_database := create_comprehensive_job_database |}.

(** The four answers of [assess_job_readiness]. *)
Inductive Readiness :=
| ReadyToApply
| AlmostReady
| Developing
| EarlyStage.

Definition assess_job_readiness (match_percentage : Q) (skills_count : nat) : Readiness :=
  if ge match_percentage 80 then ReadyToApply
  else if ge match_percentage 60 then AlmostReady
  else if ge match_percentage 40 then Developing
  else EarlyStage.

Section Toolkit.

Context {ai : Advisor} {so : SetOrder}.

Definition generate_learning_recommendations (missing_skills : gset string)
    (target_job : string) : result string :=
  if (size missing_skills =? 0)%nat
  then Return "You have all the required skills!"
  else
    let skills_list := join ", " (iterate missing_skills) in
    let prompt :=
      "Create a learning roadmap for someone targeting a " +:+ target_job
      +:+ " role who needs to develop these skills: " +:+ skills_list
      +:+ join (String "010" "")
            [""; "";
             "Provide:";
             "1. Learning priority order";
             "2. Estimated time to learn each skill";
             "3. Best learning resources and platforms";
             "4. Project ideas to practice each skill";
             "5. Certification recommendations";
             "";
             "Make it practical and actionable."] in
    generate_ai_content prompt 500.

(** The values that the text of the skill gap report shows. *)
Record SkillGapReport := {
  target_role : string;
  role_level : string;
  report_salary_range : string;
  report_growth_rate : string;
  skill_compatibility : Q;
  skills_you_have : gset string;
  skills_to_develop : gset string;
  ai_learning_roadmap : string;
  readiness_assessment : Readiness
}.

Definition create_skill_gap_report (target_job : string)
    (matching_skills missing_skills : gset string) (job_data : JobData)
    (ai_recommendations : string) : result SkillGapReport :=
  ratio <- truediv (num (size matching_skills)) (len (skills job_data));;
  let match_percentage := ratio * 100 in
  Return {| target_role := title target_job;
            role_level := level job_data;
            report_salary_range := salary_range job_data;
            report_growth_rate := growth_rate job_data;
            skill_compatibility := match_percentage;
            skills_you_have := matching_skills;
            skills_to_develop := missing_skills;
            ai_learning_roadmap := ai_recommendations;
            readiness_assessment :=
              assess_job_readiness match_percentage (size matching_skills) |}.

(** The two searches of the job database for the target job. *)
Definition find_target_job_data (self : Toolkit) (target_job : string) : option JobData :=
  (* Find target job requirements *)
  let target_job_data :=
    List.find (fun item => contains (lower target_job) (lower (fst item)))
      (job_database self) in
  match target_job_data with
  | Some (_, job_data) => Some job_data
  | None =>
      (* Find partial matches *)
      match List.find
              (fun item =>
                 any (fun word => contains word (lower (fst item)))
                   (split (lower target_job)))
              (job_database self) with
      | Some (_, job_data) => Some job_data
      | None => None
      end
  end.

Definition find_skill_gaps_advanced (self : Toolkit) (current_skills target_job : string)
    : result (output SkillGapReport * option string) :=
  if negb (truthy (strip current_skills)) || negb (truthy (strip target_job))
  then Return (Text "Please enter your current skills and target job role.", None)
  else
    try_except
      (let current_skills_list := JobMatching.skills_list_of current_skills in
       match find_target_job_data self target_job with
       | None =>
           Return
             (Text ("Job role '" +:+ target_job +:+ "' not found. Available roles: "
                    +:+ join ", " (firstn 5 (List.map fst (job_database self)))),
              None)
       | Some target_job_data =>
           (* Calculate gaps *)
           let target_skills := List.map lower (skills target_job_data) in
           let matching_skills : gset string :=
             list_to_set current_skills_list ∩ list_to_set target_skills in
           let missing_skills : gset string :=
             list_to_set target_skills ∖ list_to_set current_skills_list in
           (* Generate AI learning recommendations *)
           ai_recommendations <- generate_learning_recommendations missing_skills target_job;;
           (* Create comprehensive report *)
           report <- create_skill_gap_report target_job matching_skills missing_skills
                       target_job_data ai_recommendations;;
           Return (Report report, None)
       end)
      (fun e => Return (Text ("Error finding skill gaps: " +:+ str_exn e), None)).

End Toolkit.

End ProductionGaps.

Module Gaps.

Import Py PyMore.
Local Open Scope Q_scope.

(** The job database of the basic toolkit that holds the titles and the
    skills of the jobs of a production toolkit. *)
Definition titles_and_skills (self : ProductionGaps.Toolkit) : list (string * list string) :=
  List.map (fun item => (fst item, ProductionGaps.skills (snd item)))
    (ProductionGaps.job_database self).

(** Every job of the production toolkit has a skill. *)
Definition all_skilled (self : ProductionGaps.Toolkit) : Prop :=
  Forall (fun item => ProductionGaps.skills (snd item) <> [])
    (ProductionGaps.job_database self).

(** The skills of a job that the user lacks, as a set. *)
Definition to_develop (current_skills : string) (job_data : ProductionGaps.JobData)
    : gset string :=
  list_to_set (List.map lower (ProductionGaps.skills job_data))
  ∖ list_to_set (JobMatching.skills_list_of current_skills).

(** A basic toolkit over the jobs of the production toolkit. *)
Definition basic_sample : CareerAnalysis.Toolkit :=
  {| CareerAnalysis.job_database := titles_and_skills ProductionGaps.init;
     CareerAnalysis.skills_database := CareerAnalysis.create_skills_database |}.

(** A text generation service that answers with a fixed text. *)
Definition canned : Advisor :=
  {| generate_ai_content := fun _ _ => Return "Start with SQL." |}.

End Gaps.

(* ================================================================== *)
(** * production_career_toolkit.py: the analysis of a resume *)
(* ================================================================== *)

Module ProductionAnalysis.

Import Py PyMore.
Local Open Scope Q_scope.

Abbreviation Analysis := ProductionCareerToolkit.Analysis.

(** [counter[word] += 1] on a [Counter]: a dictionary in the order of
    the first occurrences. *)
Fixpoint increment (counter : list (string * nat)) (word : string) : list (string * nat) :=
  match counter with
  | [] => [(word, 1%nat)]
  | (w, n) :: counter' =>
      if String.eqb word w then (w, S n) :: counter' else (w, n) :: increment counter' word
  end.

(** [Counter(words)] *)
Definition Counter (words : list string) : list (string * nat) :=
  fold_left increment words [].

(** [counter.most_common(n)]: the [n] first of the items sorted by
    count, descending and stable. *)
Definition most_common (n : nat) (counter : list (string * nat)) : list (string * nat) :=
  firstn n (sort_by_desc (fun item => num (snd item)) counter).

(** The class [[.!?]] of the regular expression of the sentences. *)
Definition is_stop (c : ascii) : bool :=
  Ascii.eqb c "." || Ascii.eqb c "!" || Ascii.eqb c "?".

(** [re.split(r'[.!?]+', text)]: the pieces between the maximal runs of
    stops; [cur] holds the piece being read, last character first, and
    [in_run] tells whether the last character was a stop. *)
Fixpoint split_stops (cur : list ascii) (in_run : bool) (l : list ascii) : list (list ascii) :=
  match l with
  | [] => [rev cur]
  | c :: l' =>
      if is_stop c
      then (if in_run then split_stops [] true l' else rev cur :: split_stops [] true l')
      else split_stops (c :: cur) false l'
  end.

Definition re_split_stops (text : string) : list string :=
  List.map join_chars (split_stops [] false (chars text)).

(** [text[:n]] *)
Definition slice_to (n : nat) (text : string) : string := join_chars (firstn n (chars text)).

Definition action_verb_list : list string :=
  ["managed"; "developed"; "created"; "implemented"; "designed"; "led"; "improved";
   "increased"; "reduced"; "achieved"; "delivered"; "built"; "established";
   "coordinated"; "analyzed"; "optimized"; "executed"; "launched"; "collaborated"].

Section Toolkit.

Context {sv : Services} {re : Regex} {so : SetOrder} {ai : Advisor}.

(** [all_skills]: the skills of every job, in lower case. *)
Definition all_skills (self : ProductionGaps.Toolkit) : gset string :=
  fold_left
    (fun (all_skills : gset string) job_data =>
       all_skills ∪ list_to_set (List.map lower (ProductionGaps.skills job_data)))
    (List.map snd (ProductionGaps.job_database self)) ∅.

Definition perform_comprehensive_analysis (self : ProductionGaps.Toolkit)
    (resume_text : string) : result Analysis :=
  let word_count := length (split resume_text) in
  (* Check for required sections *)
  let required_sections := ["experience"; "education"; "skills"; "summary"; "objective"] in
  let text_lower := lower resume_text in
  let '(sections_found, sections_missing) :=
    CareerAnalysis.check_sections required_sections text_lower in
  (* Contact information analysis *)
  let contact_info :=
    re_search CareerAnalysis.email_pattern resume_text
    || re_search CareerAnalysis.phone_pattern resume_text in
  (* Skills analysis *)
  let skills_found :=
    List.map title
      (List.filter (fun skill => contains (lower skill) text_lower)
         (iterate (all_skills self))) in
  (* Action verbs analysis *)
  let action_verbs :=
    fold_left
      (fun count verb =>
         (count + length (re_findall ("\b" +:+ verb +:+ "\w*\b") text_lower))%nat)
      action_verb_list 0%nat in
  (* Quantified achievements *)
  let quantified_achievements :=
    length (re_findall CareerAnalysis.number_pattern resume_text) in
  (* Keywords density *)
  let words := split (lower resume_text) in
  let word_freq := Counter words in
  let keywords_density := most_common 10 word_freq in
  (* Simple readability score *)
  let sentences := length (re_split_stops resume_text) in
  readability_score <-
    (if (0 <? sentences)%nat
     then ratio <- truediv (num word_count) (num sentences);;
          Return (min 100 (ratio * 2))
     else Return 0);;
  Return
    {| ProductionCareerToolkit.sections_found := sections_found;
       ProductionCareerToolkit.sections_missing := sections_missing;
       ProductionCareerToolkit.word_count := word_count;
       ProductionCareerToolkit.skills_found := skills_found;
       ProductionCareerToolkit.contact_info := contact_info;
       ProductionCareerToolkit.action_verbs := action_verbs;
       ProductionCareerToolkit.quantified_achievements := quantified_achievements;
       ProductionCareerToolkit.keywords_density := keywords_density;
       ProductionCareerToolkit.readability_score := readability_score |}.

Definition generate_ai_insights (resume_text : string) : result string :=
  let prompt :=
    "Analyze this resume and provide professional insights:"
    +:+ join (String "010" "") [""; ""; slice_to 1000 resume_text +:+ "..."]
    +:+ join (String "010" "")
          [""; "";
           "Provide insights on:";
           "1. Overall impression and strengths";
           "2. Areas for improvement";
           "3. Missing elements";
           "4. Suggestions for better formatting";
           "5. Keyword optimization recommendations";
           "";
           "Be specific and actionable in your feedback."] in
  generate_ai_content prompt 400.

(** The recommendations of [generate_improvement_recommendations], which
    the code joins into one text, one line for each after a bullet. *)
Definition generate_improvement_recommendations (analysis : Analysis) (score : Z)
    : list string :=
  let recommendations := [] in
  let recommendations :=
    if (0 <? length (ProductionCareerToolkit.sections_missing analysis))%nat
    then recommendations
         ++ ["Add missing sections: "
             +:+ join ", " (ProductionCareerToolkit.sections_missing analysis)]
    else recommendations in
  let recommendations :=
    if (ProductionCareerToolkit.word_count analysis <? 300)%nat
    then recommendations
         ++ ["Expand content - aim for 300-500 words with more detailed descriptions"]
    else recommendations in
  let recommendations :=
    if (ProductionCareerToolkit.action_verbs analysis <? 5)%nat
    then recommendations ++ ["Use more action verbs to describe achievements"]
    else recommendations in
  let recommendations :=
    if (ProductionCareerToolkit.quantified_achievements analysis <? 3)%nat
    then recommendations
         ++ ["Add more quantified achievements with specific numbers and percentages"]
    else recommendations in
  let recommendations :=
    if (length (ProductionCareerToolkit.skills_found analysis) <? 5)%nat
    then recommendations ++ ["Include more relevant technical and soft skills"]
    else recommendations in
  let recommendations :=
    if negb (ProductionCareerToolkit.contact_info analysis)
    then recommendations ++ ["Ensure contact information is clearly visible"]
    else recommendations in
  recommendations.

(** The values that the text of the comprehensive report shows. *)
Record ComprehensiveReport := {
  overall_score : Z;
  report_analysis : Analysis;
  top_keywords : list (string * nat);
  ai_powered_insights : string;
  improvement_recommendations : list string
}.

Definition create_comprehensive_report (analysis : Analysis) (ai_insights : string)
    : ComprehensiveReport :=
  let score := ProductionScores.calculate_comprehensive_score analysis in
  {| overall_score := score;
     report_analysis := analysis;
     top_keywords := firstn 5 (ProductionCareerToolkit.keywords_density analysis);
     ai_powered_insights := ai_insights;
     improvement_recommendations := generate_improvement_recommendations analysis score |}.

Definition analyze_resume_advanced (self : ProductionGaps.Toolkit) (resume_file : option File)
    : result (output ComprehensiveReport * option string) :=
  match resume_file with
  | None => Return (Text "Please upload a resume file to analyze.", None)
  | Some resume_file =>
      try_except
        ((* Extract text from PDF *)
         let resume_text := ProductionCareerToolkit.extract_text_from_pdf (name resume_file) in
         if negb (truthy resume_text) || (strlen (strip resume_text) <? 50)%nat
         then Return
                (Text "Could not extract sufficient text from the resume. Please ensure the PDF contains readable text.",
                 None)
         else
           (* Perform comprehensive analysis *)
           analysis <- perform_comprehensive_analysis self resume_text;;
           (* Generate AI-powered insights *)
           ai_insights <- generate_ai_insights resume_text;;
           (* Create detailed report *)
           let report := create_comprehensive_report analysis ai_insights in
           Return (Report report, None))
        (fun e => Return (Text ("Error analyzing resume: " +:+ str_exn e), None))
  end.

End Toolkit.

End ProductionAnalysis.

Module Keywords.

Import Py PyMore.

(** How often a word occurs in a list of words. *)
Definition occurrences (words : list string) (word : string) : nat :=
  count_occ string_dec words word.

(** A production analysis record to which nothing is recommended. *)
Definition nothing_to_recommend (a : ProductionCareerToolkit.Analysis) : Prop :=
  ProductionCareerToolkit.sections_missing a = []
  /\ (300 <= ProductionCareerToolkit.word_count a)%nat
  /\ (5 <= ProductionCareerToolkit.action_verbs a)%nat
  /\ (3 <= ProductionCareerToolkit.quantified_achievements a)%nat
  /\ (5 <= length (ProductionCareerToolkit.skills_found a))%nat
  /\ ProductionCareerToolkit.contact_info a = true.

(** The counts are in descending order. *)
Definition by_count (items : list (string * nat)) : Prop :=
  StronglySorted (fun item item' => (snd item' <= snd item)%nat) items.

End Keywords.

(* ================================================================== *)
(** * production_career_toolkit.py: the perfection score and the chat *)
(* ================================================================== *)

Module ProductionPerfection.

Import Py PyMore.
Local Open Scope Q_scope.

(** The five answers of [get_performance_level]. *)
Inductive PerformanceLevel :=
| Exceptional
| Excellent
| Good
| Fair
| NeedsWork.

Definition get_performance_level (score : Q) : PerformanceLevel :=
  if ge score 90 then Exceptional
  else if ge score 80 then Excellent
  else if ge score 70 then Good
  else if ge score 60 then Fair
  else NeedsWork.

Section Toolkit.

Context {sk : Sklearn} {sv : Services} {re : Regex} {so : SetOrder} {ai : Advisor}.

Definition generate_ai_evaluation (resume_text : string) : result string :=
  let prompt :=
    "Evaluate this resume comprehensively:"
    +:+ join (String "010" "")
          [""; ""; ProductionAnalysis.slice_to 800 resume_text +:+ "..."]
    +:+ join (String "010" "")
          [""; "";
           "Rate the resume (1-100) on:";
           "1. Professional presentation";
           "2. Content quality and relevance";
           "3. Achievement quantification";
           "4. Keyword optimization";
           "5. Overall impact";
           "";
           "Provide specific improvement recommendations and highlight strengths."] in
  generate_ai_content prompt 400.

(** The values that the text of the perfection report shows. *)
Record PerfectionReport := {
  overall_score : Q;
  grade : string;
  structure : Q;
  content : Q;
  keywords : Q;
  formatting : Q;
  professionalism : Q;
  ai_expert_evaluation : string;
  performance_level : PerformanceLevel;
  optimization_priority : string
}.

Definition create_perfection_report (scores : dict) (ai_evaluation : string)
    : result PerfectionReport :=
  overall_score <- lookup scores "overall";;
  let grade :=
    if ge overall_score 90 then "A+"
    else if ge overall_score 80 then "A"
    else if ge overall_score 70 then "B+"
    else if ge overall_score 60 then "B"
    else "C" in
  structure <- lookup scores "structure";;
  content <- lookup scores "content";;
  keywords <- lookup scores "keywords";;
  formatting <- lookup scores "formatting";;
  professionalism <- lookup scores "professionalism";;
  let performance_level := get_performance_level overall_score in
  optimization_priority <- ProductionScores.get_optimization_priority scores;;
  Return {| overall_score := overall_score;
            grade := grade;
            structure := structure;
            content := content;
            keywords := keywords;
            formatting := formatting;
            professionalism := professionalism;
            ai_expert_evaluation := ai_evaluation;
            performance_level := performance_level;
            optimization_priority := optimization_priority |}.

Definition calculate_perfection_score_ai (self : ProductionGaps.Toolkit)
    (resume_file : option File) : result (output PerfectionReport * option string) :=
  match resume_file with
  | None =>
      Return (Text "Please upload a resume file to calculate the perfection score.", None)
  | Some resume_file =>
      try_except
        (let resume_text := ProductionCareerToolkit.extract_text_from_pdf (name resume_file) in
         if negb (truthy resume_text)
         then Return (Text "Could not extract text from resume file.", None)
         else
           (* Perform analysis *)
           analysis <- ProductionAnalysis.perform_comprehensive_analysis self resume_text;;
           (* Get AI evaluation *)
           ai_evaluation <- generate_ai_evaluation resume_text;;
           (* Calculate detailed scores *)
           scores <- ProductionCareerToolkit.calculate_detailed_perfection_scores
                       analysis resume_text;;
           (* Create comprehensive report *)
           report <- create_perfection_report scores ai_evaluation;;
           Return (Report report, None))
        (fun e =>
           Return (Text ("Error calculating perfection score: " +:+ str_exn e), None))
  end.

End Toolkit.

End ProductionPerfection.

Module ProductionChat.

Import Py PyMore.

Definition get_fallback_career_response (message : string) : string :=
  let message_lower := lower message in
  if any (fun word => contains word message_lower) ["resume"; "cv"]
  then "For resume advice, I recommend focusing on quantified achievements, relevant keywords, and clear formatting. Would you like specific tips for your industry?"
  else if any (fun word => contains word message_lower) ["interview"; "job search"]
  then "Job search success comes from tailored applications, networking, and interview preparation. What specific aspect would you like guidance on?"
  else if any (fun word => contains word message_lower) ["skills"; "learning"]
  then "Skill development should align with your career goals. Consider both technical skills and soft skills. What role are you targeting?"
  else "I'm here to help with career advice! Feel free to ask about resumes, job searching, interviews, skill development, or career planning.".

Section Toolkit.

Context {ai : Advisor}.

Definition create_career_chatbot_response (message : string)
    (history : list (string * string)) : result string :=
  try_except
    ((* Context-aware prompt based on conversation history *)
     let context := ProductionScores.build_chat_context history in
     let prompt :=
       "You are an expert career advisor AI. Help users with career questions, resume advice, job search strategies, and professional development."
       +:+ join (String "010" "")
             [""; "";
              "Previous conversation context:";
              context;
              "";
              "Current question: " +:+ message;
              "";
              "Provide helpful, specific, and actionable career advice. Be encouraging and professional."] in
     response <- generate_ai_content prompt 300;;
     let response :=
       if negb (truthy response) || contains "error" (lower response)
       then get_fallback_career_response message
       else response in
     Return response)
    (fun e =>
       Return "I'm here to help with your career questions! Could you please rephrase your question?").

End Toolkit.

End ProductionChat.

(* ================================================================== *)
(** * Facts about the runtime *)
(* ================================================================== *)

Section Runtime.

Import Py.
Local Open Scope Q_scope.

Lemma min_spec (a b : Q) : (a <= b /\ min a b = a) \/ (b < a /\ min a b = b).
Proof.
  unfold min. destruct (Qle_bool a b) eqn:E.
  - left. split; [now apply Qle_bool_iff | reflexivity].
  - right. split; [| reflexivity].
    apply Qnot_le_lt. intros H. apply Qle_bool_iff in H. congruence.
Qed.

Lemma max_spec (a b : Q) : (b <= a /\ max a b = a) \/ (a < b /\ max a b = b).
Proof.
  unfold max. destruct (Qle_bool b a) eqn:E.
  - left. split; [now apply Qle_bool_iff | reflexivity].
  - right. split; [| reflexivity].
    apply Qnot_le_lt. intros H. apply Qle_bool_iff in H. congruence.
Qed.

Lemma min_le_l (a b : Q) : min a b <= a.
Proof. destruct (min_spec a b) as [[H ->] | [H ->]]; lra. Qed.

Lemma min_le_r (a b : Q) : min a b <= b.
Proof. destruct (min_spec a b) as [[H ->] | [H ->]]; lra. Qed.

Lemma min_glb (a b c : Q) : c <= a -> c <= b -> c <= min a b.
Proof. intros. destruct (min_spec a b) as [[H1 ->] | [H1 ->]]; lra. Qed.

Lemma min_mono_r (a b b' : Q) : b <= b' -> min a b <= min a b'.
Proof.
  intros Hb. apply min_glb; [apply min_le_l |].
  pose proof (min_le_r a b). lra.
Qed.

Lemma num_nonneg (n : nat) : 0 <= num n.
Proof. unfold num, Qle. simpl. lia. Qed.

Lemma num_mono (n m : nat) : (n <= m)%nat -> num n <= num m.
Proof. intros H. unfold num. rewrite <- Zle_Qle. lia. Qed.

Lemma num_pos (n : nat) : (0 < n)%nat -> 0 < num n.
Proof. intros H. unfold num, Qlt. simpl. lia. Qed.

(** On a number that is not negative, [int] is the floor. *)
Lemma int_floor (x : Q) : 0 <= x -> int x = Qfloor x.
Proof.
  destruct x as [n d]. unfold Qle, int, Qfloor. simpl. intros H.
  apply Z.quot_div_nonneg; lia.
Qed.

Lemma int_mono (x y : Q) : 0 <= x -> x <= y -> (int x <= int y)%Z.
Proof.
  intros Hx Hxy. rewrite !int_floor by lra. now apply Qfloor_resp_le.
Qed.

Lemma int_opp (x : Q) : int (- x) = (- int x)%Z.
Proof.
  destruct x as [n d]. unfold int. simpl. now apply Z.quot_opp_l.
Qed.

#[global] Instance int_proper : Proper (Qeq ==> eq) int.
Proof.
  intros x y Hxy. destruct (Qlt_le_dec x 0) as [Hneg | Hpos].
  - assert (Hx : 0 <= - x) by lra. assert (Hy : 0 <= - y) by lra.
    apply int_floor in Hx, Hy.
    rewrite int_opp in Hx, Hy.
    assert (Hf : Qfloor (- x) = Qfloor (- y)) by (apply Qfloor_comp; lra).
    lia.
  - rewrite !int_floor by lra. now apply Qfloor_comp.
Qed.

#[global] Instance min_proper : Proper (Qeq ==> Qeq ==> Qeq) min.
Proof.
  intros a a' Ha b b' Hb.
  destruct (min_spec a b) as [[? ->] | [? ->]],
           (min_spec a' b') as [[? ->] | [? ->]]; lra.
Qed.

Lemma int_inject (z : Z) : (0 <= z)%Z -> int (inject_Z z) = z.
Proof.
  intros H. rewrite int_floor; [apply Qfloor_Z |].
  unfold Qle. simpl. lia.
Qed.

End Runtime.

(* ================================================================== *)
(** * The composite resume score *)
(* ================================================================== *)

Section ResumeScoreFacts.

Import Py CareerToolkit ResumeScore.
Local Open Scope Q_scope.

Lemma word_count_points_range (wc : nat) :
  10 <= word_count_points wc /\ word_count_points wc <= 20.
Proof.
  unfold word_count_points.
  destruct (_ && _); [lra |]. destruct (_ && _); lra.
Qed.

(** The score is the truncated, clamped sum of the six contributions. *)
Lemma calculate_resume_score_points (a : Analysis) :
  calculate_resume_score a
  = int (min 100 (0 + section_points a + band_points a + skill_points a
                  + verb_points a + achievement_points a + contact_points a)).
Proof.
  unfold calculate_resume_score, section_points, band_points, skill_points,
    verb_points, achievement_points, contact_points.
  destruct (contact_info a); [reflexivity |].
  apply int_proper, min_proper; [reflexivity | ring].
Qed.

Lemma len_nonneg {A} (l : list A) : 0 <= len l.
Proof. apply num_nonneg. Qed.

Lemma section_points_range (a : Analysis) : 0 <= section_points a /\ section_points a <= 40.
Proof.
  unfold section_points. split; [| apply min_le_l].
  apply min_glb; [lra |]. pose proof (len_nonneg (sections_found a)).
  assert (len (sections_found a) / 5 * 40 == 8 * len (sections_found a)) as -> by field.
  lra.
Qed.

Lemma skill_points_range (a : Analysis) : 0 <= skill_points a /\ skill_points a <= 15.
Proof.
  unfold skill_points. split; [| apply min_le_l].
  apply min_glb; [lra |]. pose proof (len_nonneg (skills_found a)). lra.
Qed.

Lemma verb_points_range (a : Analysis) : 0 <= verb_points a /\ verb_points a <= 10.
Proof.
  unfold verb_points. split; [| apply min_le_l].
  apply min_glb; [lra |]. pose proof (num_nonneg (action_verbs a)). lra.
Qed.

Lemma achievement_points_range (a : Analysis) :
  0 <= achievement_points a /\ achievement_points a <= 10.
Proof.
  unfold achievement_points. split; [| apply min_le_l].
  apply min_glb; [lra |]. pose proof (num_nonneg (quantified_achievements a)). lra.
Qed.

Lemma contact_points_range (a : Analysis) : 0 <= contact_points a /\ contact_points a <= 5.
Proof. unfold contact_points. destruct (contact_info a); lra. Qed.

Lemma verb_points_mono (a a' : Analysis) :
  (action_verbs a <= action_verbs a')%nat -> verb_points a <= verb_points a'.
Proof.
  intros H. apply min_mono_r. apply num_mono in H. lra.
Qed.

Lemma achievement_points_mono (a a' : Analysis) :
  (quantified_achievements a <= quantified_achievements a')%nat ->
  achievement_points a <= achievement_points a'.
Proof.
  intros H. apply min_mono_r. apply num_mono in H. lra.
Qed.

(** C7. When the count of action verbs or of quantified achievements of
    an analysis record grows and every other field stays as it is, the
    composite resume score does not decrease; the score is the truncated
    sum, clamped at 100, of six contributions, and those of the two counts
    never exceed their budget of 10. *)
Theorem calculate_resume_score_monotone (a a' : Analysis) :
  same_other_fields a a' ->
  (action_verbs a <= action_verbs a')%nat ->
  (quantified_achievements a <= quantified_achievements a')%nat ->
  (calculate_resume_score a <= calculate_resume_score a')%Z
  /\ calculate_resume_score a'
     = int (min 100 (0 + section_points a' + band_points a' + skill_points a'
                     + verb_points a' + achievement_points a' + contact_points a'))
  /\ verb_points a' <= 10
  /\ achievement_points a' <= 10.
Proof.
  intros (Hsec & _ & Hwc & Hsk & Hci & _) Hv Hq.
  split; [| split; [apply calculate_resume_score_points |
                    split; [apply verb_points_range | apply achievement_points_range]]].
  rewrite !calculate_resume_score_points.
  assert (Hs : section_points a = section_points a')
    by (unfold section_points; now rewrite Hsec).
  assert (Hb : band_points a = band_points a')
    by (unfold band_points; now rewrite Hwc).
  assert (Hk : skill_points a = skill_points a')
    by (unfold skill_points; now rewrite Hsk).
  assert (Hc : contact_points a = contact_points a')
    by (unfold contact_points; now rewrite Hci).
  rewrite Hs, Hb, Hk, Hc.
  pose proof (verb_points_mono a a' Hv).
  pose proof (achievement_points_mono a a' Hq).
  pose proof (section_points_range a').
  pose proof (word_count_points_range (word_count a')).
  pose proof (skill_points_range a').
  pose proof (verb_points_range a).
  pose proof (achievement_points_range a).
  pose proof (contact_points_range a').
  unfold band_points in *.
  apply int_mono.
  - apply min_glb; lra.
  - apply min_mono_r. lra.
Qed.

Lemma calculate_resume_score_monotone_witness :
  (calculate_resume_score Samples.empty_analysis
   <= calculate_resume_score Samples.busy_analysis)%Z
  /\ calculate_resume_score Samples.busy_analysis
     = int (min 100 (0 + section_points Samples.busy_analysis
                     + band_points Samples.busy_analysis
                     + skill_points Samples.busy_analysis
                     + verb_points Samples.busy_analysis
                     + achievement_points Samples.busy_analysis
                     + contact_points Samples.busy_analysis))
  /\ verb_points Samples.busy_analysis <= 10
  /\ achievement_points Samples.busy_analysis <= 10.
Proof.
  apply (calculate_resume_score_monotone Samples.empty_analysis Samples.busy_analysis).
  - repeat split; reflexivity.
  - simpl. lia.
  - simpl. lia.
Defined.

(** C10. The composite resume score is an integer between 10 and 100:
    the word-count band gives at least 10 points on every branch, and the
    score 10 is attained, by the empty analysis record. *)
Theorem calculate_resume_score_range :
  (forall a : Analysis,
      10 <= band_points a
      /\ (10 <= calculate_resume_score a <= 100)%Z)
  /\ calculate_resume_score Samples.empty_analysis = 10%Z.
Proof.
  split; [| reflexivity].
  intros a.
  pose proof (section_points_range a).
  pose proof (word_count_points_range (word_count a)).
  pose proof (skill_points_range a).
  pose proof (verb_points_range a).
  pose proof (achievement_points_range a).
  pose proof (contact_points_range a).
  unfold band_points in *.
  split; [lra |].
  rewrite calculate_resume_score_points. unfold band_points.
  set (s := 0 + _ + _ + _ + _ + _ + _).
  assert (Hlo : 10 <= min 100 s) by (apply min_glb; subst s; lra).
  assert (Hhi : min 100 s <= 100) by apply min_le_l.
  pose proof (int_mono 10 (min 100 s)) as Hlo'.
  pose proof (int_mono (min 100 s) 100) as Hhi'.
  assert (E10 : int 10 = 10%Z) by reflexivity.
  assert (E100 : int 100 = 100%Z) by reflexivity.
  rewrite E10 in Hlo'. rewrite E100 in Hhi'.
  split; [apply Hlo' | apply Hhi']; lra.
Qed.

End ResumeScoreFacts.

(* ================================================================== *)
(** * The detailed scores *)
(* ================================================================== *)

Section DetailedScores.

Import Py.
Local Open Scope Q_scope.

Ltac run_scores :=
  cbv [CareerToolkit.calculate_detailed_scores
       ProductionCareerToolkit.calculate_detailed_perfection_scores
       Spec.sum_of_subscores setitem lookup bind values sum
       List.map List.filter fold_left fst snd negb
       String.eqb Ascii.eqb Bool.eqb].

(** C8. In both toolkits the 'overall' entry of the detailed scores,
    computed as the sum of all entries minus the 'overall' entry itself,
    is the sum of the five sub-scores: the computation returns, keeps the
    six keys, and its 'overall' equals the direct sum of the others. *)
Theorem overall_is_sum_of_subscores
    (a : CareerToolkit.Analysis) (a' : ProductionCareerToolkit.Analysis)
    (resume_text : string) :
  (exists scores overall,
      CareerToolkit.calculate_detailed_scores a resume_text = Return scores
      /\ List.map fst scores
         = ["structure"; "content"; "keywords"; "formatting"; "grammar"; "overall"]
      /\ lookup scores "overall" = Return overall
      /\ overall == Spec.sum_of_subscores scores)
  /\ (exists scores overall,
      ProductionCareerToolkit.calculate_detailed_perfection_scores a' resume_text
      = Return scores
      /\ List.map fst scores
         = ["structure"; "content"; "keywords"; "formatting"; "professionalism"; "overall"]
      /\ lookup scores "overall" = Return overall
      /\ overall == Spec.sum_of_subscores scores).
Proof.
  split.
  - run_scores. eexists. eexists.
    split; [reflexivity |]. split; [reflexivity |]. split; [reflexivity |].
    ring.
  - run_scores. eexists. eexists.
    split; [reflexivity |]. split; [reflexivity |]. split; [reflexivity |].
    ring.
Qed.

(** On the empty analysis record and a text of three words: 10 points
    of formatting and 15 of grammar, 25 overall; in the production
    toolkit 10 of formatting and 10 of professionalism, 20 overall. *)
Example detailed_scores_sample :
  (exists scores overall,
      CareerToolkit.calculate_detailed_scores Samples.empty_analysis "a b c" = Return scores
      /\ lookup scores "overall" = Return overall
      /\ overall == 25)
  /\ (exists scores overall,
         ProductionCareerToolkit.calculate_detailed_perfection_scores
           Samples.empty_production_analysis "a b c"
         = Return scores
         /\ lookup scores "overall" = Return overall
         /\ overall == 20).
Proof.
  split; eexists; eexists; (split; [vm_compute; reflexivity |]);
    (split; [vm_compute; reflexivity | reflexivity]).
Qed.

End DetailedScores.

(* ================================================================== *)
(** * Matching and missing keywords *)
(* ================================================================== *)

Section KeywordSets.

Import Py.

Lemma inter_diff_partition (J R : gset string) :
  (J ∩ R) ∪ (J ∖ R) = J /\ (J ∩ R) ∩ (J ∖ R) = ∅.
Proof.
  split.
  - apply set_eq. intros x. rewrite elem_of_union, elem_of_intersection, elem_of_difference.
    destruct (decide (x ∈ R)); tauto.
  - apply set_eq. intros x.
    rewrite elem_of_intersection, elem_of_intersection, elem_of_difference, elem_of_empty.
    tauto.
Qed.

(** C9. The matching and the missing keywords of [calculate_ats_score]
    partition the set of the job keywords: their union is that set and
    they share no element. The same holds for the matching and missing
    skills of [find_skill_gaps_advanced] and the skills of the target job. *)
Theorem matching_missing_partition
    (job_keywords resume_keywords current_skills target_skills : list string) :
  let matching_keywords := fst (CareerToolkit.keyword_sets job_keywords resume_keywords) in
  let missing_keywords := snd (CareerToolkit.keyword_sets job_keywords resume_keywords) in
  let matching_skills := fst (ProductionCareerToolkit.skill_gaps current_skills target_skills) in
  let missing_skills := snd (ProductionCareerToolkit.skill_gaps current_skills target_skills) in
  matching_keywords ∪ missing_keywords = list_to_set job_keywords
  /\ matching_keywords ∩ missing_keywords = ∅
  /\ matching_skills ∪ missing_skills = list_to_set (List.map lower target_skills)
  /\ matching_skills ∩ missing_skills = ∅.
Proof.
  cbn.
  destruct (inter_diff_partition (list_to_set job_keywords) (list_to_set resume_keywords))
    as [Hu Hd].
  destruct (inter_diff_partition (list_to_set (List.map lower target_skills))
              (list_to_set current_skills)) as [Hu' Hd'].
  split; [exact Hu |]. split; [exact Hd |].
  split; [| rewrite (comm_L (∩) (list_to_set current_skills)); exact Hd'].
  rewrite (comm_L (∩) (list_to_set current_skills)). exact Hu'.
Qed.

End KeywordSets.

(* ================================================================== *)
(** * The ATS entry points: guards and recovery *)
(* ================================================================== *)

Section AtsGuards.

Import Py Messages.
Local Open Scope Q_scope.

Context {sk : Sklearn} {sv : Services}.

Ltac step_bind :=
  match goal with
  | |- context [bind ?c _] => destruct c eqn:?; cbn [bind try_except]
  end.

Lemma truthy_empty (s : string) : truthy s = false <-> s = "".
Proof. destruct s; simpl; split; congruence. Qed.

(** [calculate_ats_score] raises nothing: it always returns a pair whose
    second component is [None]. *)
Lemma calculate_ats_score_returns (resume_file : option File) (job_description : string) :
  exists out, CareerToolkit.calculate_ats_score resume_file job_description
              = Return (out, None).
Proof.
  unfold CareerToolkit.calculate_ats_score.
  destruct resume_file as [f |]; [| eauto].
  destruct (negb (truthy (strip job_description))); [eauto |].
  destruct (negb (truthy (CareerToolkit.extract_text_from_pdf (name f)))); [cbn; eauto |].
  repeat (step_bind; [| eauto]).
  destruct (CareerToolkit.keyword_sets _ _).
  repeat (step_bind; [| eauto]).
  eauto.
Qed.

Lemma calculate_ats_score_advanced_returns (resume_file : option File)
    (job_description : string) :
  exists out, ProductionCareerToolkit.calculate_ats_score_advanced resume_file job_description
              = Return (out, None).
Proof.
  unfold ProductionCareerToolkit.calculate_ats_score_advanced.
  destruct resume_file as [f |]; [| eauto].
  destruct (negb (truthy (strip job_description))); [eauto |].
  destruct (negb (truthy (ProductionCareerToolkit.extract_text_from_pdf (name f))));
    [cbn; eauto |].
  repeat (step_bind; [| eauto]).
  eauto.
Qed.

(** C1, as the code has it. When the resume file is missing, or the job
    description is empty or all whitespace, or no text comes from the
    file, both ATS entry points return a fallback message, whatever the
    vectorizer would do, and raise nothing. *)
Theorem guard_returns_message (resume_file : option File) (job_description : string) :
  stopped_by_guard resume_file job_description ->
  exists msg,
    (msg = please_upload \/ msg = could_not_extract)
    /\ CareerToolkit.calculate_ats_score resume_file job_description
       = Return (Text msg, None)
    /\ ProductionCareerToolkit.calculate_ats_score_advanced resume_file job_description
       = Return (Text msg, None).
Proof.
  unfold CareerToolkit.calculate_ats_score,
    ProductionCareerToolkit.calculate_ats_score_advanced,
    ProductionCareerToolkit.extract_text_from_pdf.
  intros [-> | [Hjob | (f & -> & Htext)]].
  - exists please_upload. auto.
  - exists please_upload. rewrite Hjob. cbn. destruct resume_file; auto.
  - destruct (truthy (strip job_description)); cbn.
    + exists could_not_extract. rewrite Htext. cbn. auto.
    + exists please_upload. auto.
Qed.

End AtsGuards.

Section AtsGuardSamples.

Import Py Messages Samples.

Lemma guard_returns_message_witness :
  exists msg,
    (msg = please_upload \/ msg = could_not_extract)
    /\ CareerToolkit.calculate_ats_score (sk := stop_words_only) (sv := one_resume "")
         (Some resume_pdf) "Python developer"
       = Return (Text msg, None)
    /\ ProductionCareerToolkit.calculate_ats_score_advanced
         (sk := stop_words_only) (sv := one_resume "")
         (Some resume_pdf) "Python developer"
       = Return (Text msg, None).
Proof.
  apply (guard_returns_message (sk := stop_words_only) (sv := one_resume "")).
  right. right. exists resume_pdf. split; reflexivity.
Defined.

(** Against C1 as stated: on an empty resume text and the job description
    "Python developer", and on a job description of spaces only, the code
    returns a message and no InsufficientTextError is raised; the
    similarity function itself, which has no guard, returns the 0 that the
    vectorizer's null row gives. *)
Lemma insufficient_text_error_is_not_raised :
  CareerToolkit.calculate_ats_score (sk := stop_words_only) (sv := one_resume "")
    (Some resume_pdf) "Python developer"
  = Return (Text could_not_extract, None)
  /\ CareerToolkit.calculate_ats_score (sk := stop_words_only) (sv := one_resume "python")
       (Some resume_pdf) "   "
     = Return (Text please_upload, None)
  /\ ~ (exists m,
          CareerToolkit.calculate_ats_score (sk := stop_words_only) (sv := one_resume "")
            (Some resume_pdf) "Python developer"
          = Raise (Exception "InsufficientTextError" m))
  /\ (exists v,
        ProductionCareerToolkit.calculate_tfidf_similarity (sk := python_run)
          "" "Python developer"
        = Return v
        /\ (v == 0)%Q).
Proof.
  split; [reflexivity |]. split; [reflexivity |]. split.
  - intros [m H]. discriminate H.
  - eexists. split; [vm_compute; reflexivity | reflexivity].
Qed.

(** A resume text of spaces only is not stopped by the guard: it goes
    to the vectorizer, whose exception the message carries. *)
Example whitespace_resume_passes_the_guard :
  CareerToolkit.calculate_ats_score (sk := stop_words_only) (sv := one_resume " ")
    (Some resume_pdf) "Python developer"
  = Return (Text (error_calculating empty_vocabulary), None).
Proof. reflexivity. Qed.

End AtsGuardSamples.

Section AtsRecovery.

Import Py Messages.
Local Open Scope Q_scope.

Context {sk : Sklearn} {sv : Services}.

Ltac step_bind :=
  match goal with
  | |- context [bind ?c _] => destruct c eqn:?; cbn [bind try_except]
  end.

(** On its own, [extract_keywords] lets the exception of the vectorizer
    through. *)
Lemma extract_keywords_propagates (text : string) (e : exn) :
  fit_transform CareerToolkit.keyword_vectorizer [text] = Raise e ->
  CareerToolkit.extract_keywords text = Raise e.
Proof. intros H. unfold CareerToolkit.extract_keywords. now rewrite H. Qed.

Lemma extract_keywords_fitted (text : string) (kws : list string) :
  CareerToolkit.extract_keywords text = Return kws ->
  exists t, fit_transform CareerToolkit.keyword_vectorizer [text] = Return t.
Proof.
  unfold CareerToolkit.extract_keywords.
  destruct (fit_transform _ _); cbn; [eauto | discriminate].
Qed.

(** C2, as the code has it. When a vectorization inside
    [calculate_ats_score] raises (the one of the pair of documents, or the
    one of either document alone), the call raises nothing: it returns the
    message "Error calculating ATS score: " followed by the text of an
    exception, the vectorizer's own when the pair fails, and no report. *)
Theorem vectorizer_error_becomes_message (f : File) (job_description : string) (e : exn) :
  let resume_text := CareerToolkit.extract_text_from_pdf (name f) in
  truthy (strip job_description) = true ->
  truthy resume_text = true ->
  fit_transform CareerToolkit.ats_vectorizer [resume_text; job_description] = Raise e
  \/ fit_transform CareerToolkit.keyword_vectorizer [job_description] = Raise e
  \/ fit_transform CareerToolkit.keyword_vectorizer [resume_text] = Raise e ->
  exists e',
    CareerToolkit.calculate_ats_score (Some f) job_description
    = Return (Text (error_calculating e'), None)
    /\ (fit_transform CareerToolkit.ats_vectorizer [resume_text; job_description] = Raise e ->
        e' = e).
Proof.
  intros resume_text Hjob Htext Hfail.
  unfold CareerToolkit.calculate_ats_score. fold resume_text.
  rewrite Hjob, Htext. cbn [negb].
  destruct (fit_transform CareerToolkit.ats_vectorizer _) as [t | e0] eqn:Hpair;
    cbn [bind try_except].
  2:{ exists e0. split; [reflexivity | congruence]. }
  step_bind; [| eexists; split; [reflexivity | congruence]].
  step_bind; [| eexists; split; [reflexivity | congruence]].
  destruct (CareerToolkit.extract_keywords job_description) as [jk | e1] eqn:Hjk;
    cbn [bind try_except]; [| eexists; split; [reflexivity | congruence]].
  destruct (CareerToolkit.extract_keywords resume_text) as [rk | e2] eqn:Hrk;
    cbn [bind try_except]; [| eexists; split; [reflexivity | congruence]].
  exfalso.
  apply extract_keywords_fitted in Hjk as [tj Hjk].
  apply extract_keywords_fitted in Hrk as [tr Hrk].
  destruct Hfail as [H | [H | H]]; congruence.
Qed.

End AtsRecovery.

Section AtsRecoverySamples.

Import Py Messages Samples.
Local Open Scope Q_scope.

Lemma vectorizer_error_becomes_message_witness :
  exists e',
    CareerToolkit.calculate_ats_score (sk := stop_words_only) (sv := one_resume "the and of")
      (Some resume_pdf) "the"
    = Return (Text (error_calculating e'), None)
    /\ (fit_transform (Sklearn := stop_words_only) CareerToolkit.ats_vectorizer
          [CareerToolkit.extract_text_from_pdf (sv := one_resume "the and of")
             (name resume_pdf); "the"]
        = Raise empty_vocabulary ->
        e' = empty_vocabulary).
Proof.
  apply (vectorizer_error_becomes_message (sk := stop_words_only)
           (sv := one_resume "the and of") resume_pdf "the" empty_vocabulary).
  - reflexivity.
  - reflexivity.
  - left. reflexivity.
Defined.

(** Against C2 as stated: on a resume and a job description of stop
    words only, the vectorizer raises and the code returns an error
    message, not a report with score 0 and empty keyword sets;
    [extract_keywords] alone raises. *)
Lemma empty_vocabulary_gives_no_zero_report :
  CareerToolkit.calculate_ats_score (sk := stop_words_only) (sv := one_resume "the and of")
    (Some resume_pdf) "the"
  = Return
      (Text "Error calculating ATS score: empty vocabulary; perhaps the documents only contain stop words",
       None)
  /\ ~ (exists r,
          CareerToolkit.calculate_ats_score (sk := stop_words_only)
            (sv := one_resume "the and of") (Some resume_pdf) "the"
          = Return (Report r, None)
          /\ CareerToolkit.ats_score r == 0
          /\ CareerToolkit.matching_keywords r = ∅
          /\ CareerToolkit.missing_keywords r = ∅)
  /\ CareerToolkit.extract_keywords (sk := stop_words_only) "the" = Raise empty_vocabulary.
Proof.
  split; [reflexivity |]. split; [| reflexivity].
  intros (r & H & _). discriminate H.
Qed.

End AtsRecoverySamples.

(* ================================================================== *)
(** * The ATS report: bounds and the match rate *)
(* ================================================================== *)

Section AtsReport.

Import Py Messages.
Local Open Scope Q_scope.

Context {sk : Sklearn} {sv : Services}.

Ltac step_bind :=
  match goal with
  | |- context [bind ?c _] => destruct c eqn:?; cbn [bind try_except]
  end.

Lemma truediv_returns (a b q : Q) :
  truediv a b = Return q -> ~ b == 0 /\ q = a / b.
Proof.
  unfold truediv. destruct (Qeq_bool b 0) eqn:E; [discriminate |].
  intros [= <-]. split; [| reflexivity].
  intros H. apply Qeq_bool_iff in H. congruence.
Qed.

Lemma truediv_zero (a : Q) :
  truediv a 0 = Raise (Exception "ZeroDivisionError" "division by zero").
Proof. reflexivity. Qed.

Lemma ratio_unit (a b : Q) : 0 <= a -> a <= b -> 0 < b -> 0 <= a / b /\ a / b <= 1.
Proof.
  intros Ha Hab Hb. split.
  - apply Qle_shift_div_l; [assumption | lra].
  - apply Qle_shift_div_r; [assumption | lra].
Qed.

Lemma size_list_to_set_le (l : list string) :
  (size (list_to_set l : gset string) <= length l)%nat.
Proof.
  induction l as [| x l IH]; [reflexivity |].
  cbn [list_to_set length]. rewrite size_union_alt, size_singleton.
  assert (size (list_to_set l ∖ {[x]} : gset string) <= size (list_to_set l : gset string))%nat.
  { apply subseteq_size. intros y. rewrite elem_of_difference. tauto. }
  lia.
Qed.

Lemma sq_nonneg (a : Q) : 0 <= a * a.
Proof. destruct a as [n d]. unfold Qle. simpl. nia. Qed.

Lemma sq_le (a b : Q) : 0 <= b -> a * a <= b * b -> a <= b.
Proof. intros. nra. Qed.

Lemma dot_self_nonneg (u : list Q) : 0 <= dot u u.
Proof.
  induction u as [| x u IH]; cbn [dot]; [lra |].
  pose proof (sq_nonneg x). lra.
Qed.

Lemma dot_nonneg (u v : list Q) : nonneg_row u -> nonneg_row v -> 0 <= dot u v.
Proof.
  intros Hu. revert v. induction Hu as [| x u Hx Hu IH]; intros v Hv; cbn [dot]; [lra |].
  destruct Hv as [| y v Hy Hv]; [lra |].
  specialize (IH v Hv). pose proof (Qmult_le_0_compat x y Hx Hy). lra.
Qed.

Lemma cauchy_schwarz_step (x y D A B : Q) :
  0 <= A -> 0 <= B -> D * D <= A * B ->
  (x * y + D) * (x * y + D) <= (x * x + A) * (y * y + B).
Proof.
  intros HA HB HD.
  assert (H2 : 2 * (x * y) * D <= x * x * B + y * y * A).
  { apply sq_le.
    - pose proof (Qmult_le_0_compat _ _ (sq_nonneg x) HB).
      pose proof (Qmult_le_0_compat _ _ (sq_nonneg y) HA). lra.
    - pose proof (sq_nonneg (x * x * B - y * y * A)).
      assert (0 <= (x * y) * (x * y) * (A * B - D * D))
        by (apply Qmult_le_0_compat; [apply sq_nonneg | lra]).
      assert (E : (x * x * B + y * y * A) * (x * x * B + y * y * A)
                  - 2 * (x * y) * D * (2 * (x * y) * D)
                  == (x * x * B - y * y * A) * (x * x * B - y * y * A)
                     + 4 * ((x * y) * (x * y) * (A * B - D * D))) by ring.
      lra. }
  assert (E : (x * x + A) * (y * y + B) - (x * y + D) * (x * y + D)
              == (x * x * B + y * y * A - 2 * (x * y) * D) + (A * B - D * D)) by ring.
  lra.
Qed.

(** The inequality of Cauchy and Schwarz. *)
Lemma cauchy_schwarz (u v : list Q) : dot u v * dot u v <= dot u u * dot v v.
Proof.
  revert v. induction u as [| x u IH]; intros [| y v]; cbn [dot].
  - lra.
  - rewrite !Qmult_0_l. lra.
  - rewrite Qmult_0_l, Qmult_0_r. lra.
  - apply cauchy_schwarz_step; [apply dot_self_nonneg | apply dot_self_nonneg | apply IH].
Qed.

(** The cosine of two rows without negative entries lies between 0
    and 1. *)
Lemma cosine_bounds (x : Q) (u v : list Q) :
  nonneg_row u -> nonneg_row v -> is_cosine x u v -> 0 <= x /\ x <= 1.
Proof.
  intros Hu Hv (Heq & Hpos & Hneg).
  pose proof (dot_nonneg u v Hu Hv) as Hd.
  pose proof (cauchy_schwarz u v) as Hcs.
  pose proof (dot_self_nonneg u) as Huu. pose proof (dot_self_nonneg v) as Hvv.
  split; [auto |].
  set (N := dot u u * dot v v) in *. set (d := dot u v) in *.
  assert (HN : 0 <= N) by (subst N; now apply Qmult_le_0_compat).
  destruct (Qlt_le_dec 0 N) as [Hlt | Hle].
  - destruct (Qlt_le_dec 1 x) as [Hx | Hx]; [| exact Hx].
    exfalso.
    assert (H1 : 0 < (x - 1) * (x + 1)) by (apply Qmult_lt_0_compat; lra).
    assert (H2 : 0 < (x - 1) * (x + 1) * N) by (now apply Qmult_lt_0_compat).
    assert (E : (x - 1) * (x + 1) * N == x * x * N - N) by ring.
    lra.
  - assert (Hd0 : d <= 0).
    { destruct (Qlt_le_dec 0 d) as [Hpd | Hnd]; [| exact Hnd].
      exfalso. assert (0 < d * d) by (now apply Qmult_lt_0_compat). lra. }
    assert (x <= 0) by (now apply Hneg). lra.
Qed.

(** Under the contract, an entry of the similarity matrix of a TF-IDF
    matrix is not negative; and the exact cosine of two of its rows is at
    most 1. *)
Lemma similarity_entry_nonneg (contract : SklearnContract sk)
    (v : TfidfVectorizer) (docs : list string) (t : Tfidf) (sim : matrix)
    (i j : nat) (x : Q) :
  fit_transform v docs = Return t ->
  cosine_similarity (toarray t) = Return sim ->
  getitem2 sim i j = Return x ->
  0 <= x.
Proof. apply cosine_nonneg. Qed.

Lemma exact_cosine_unit (contract : SklearnContract sk)
    (v : TfidfVectorizer) (docs : list string) (t : Tfidf) (i j : nat)
    (u w : list Q) (x : Q) :
  fit_transform v docs = Return t ->
  nth_error (toarray t) i = Some u ->
  nth_error (toarray t) j = Some w ->
  is_cosine x u w ->
  0 <= x /\ x <= 1.
Proof.
  intros Ht Hu Hw Hcos.
  pose proof (tfidf_nonneg _ _ _ Ht) as Hnonneg.
  unfold nonneg_matrix in Hnonneg. rewrite List.Forall_forall in Hnonneg.
  apply nth_error_In in Hu, Hw.
  exact (cosine_bounds x u w (Hnonneg u Hu) (Hnonneg w Hw) Hcos).
Qed.

(** What stands behind a report of [calculate_ats_score]. *)
Lemma calculate_ats_score_report (resume_file : option File) (job_description : string)
    (r : CareerToolkit.AtsReport) (o : option string) :
  CareerToolkit.calculate_ats_score resume_file job_description = Return (Report r, o) ->
  exists f t sim s job_keywords resume_keywords,
    let resume_text := CareerToolkit.extract_text_from_pdf (name f) in
    resume_file = Some f
    /\ fit_transform CareerToolkit.ats_vectorizer [resume_text; job_description] = Return t
    /\ cosine_similarity (toarray t) = Return sim
    /\ getitem2 sim 0 1 = Return s
    /\ CareerToolkit.extract_keywords job_description = Return job_keywords
    /\ CareerToolkit.extract_keywords resume_text = Return resume_keywords
    /\ CareerToolkit.create_ats_report (s * 100)
         (fst (CareerToolkit.keyword_sets job_keywords resume_keywords))
         (snd (CareerToolkit.keyword_sets job_keywords resume_keywords))
         job_keywords resume_keywords
       = Return r.
Proof.
  unfold CareerToolkit.calculate_ats_score.
  destruct resume_file as [f |]; [| discriminate].
  destruct (negb (truthy (strip job_description))); [discriminate |].
  destruct (negb (truthy (CareerToolkit.extract_text_from_pdf (name f))));
    [cbn; discriminate |].
  destruct (fit_transform _ _) as [t |] eqn:Ht; cbn [bind try_except]; [| discriminate].
  destruct (cosine_similarity _) as [sim |] eqn:Hsim; cbn [bind try_except]; [| discriminate].
  destruct (getitem2 _ _ _) as [s |] eqn:Hs; cbn [bind try_except];
    [| discriminate].
  destruct (CareerToolkit.extract_keywords job_description) as [jk |] eqn:Hjk;
    cbn [bind try_except]; [| discriminate].
  destruct (CareerToolkit.extract_keywords
              (CareerToolkit.extract_text_from_pdf (name f))) as [rk |] eqn:Hrk;
    cbn [bind try_except]; [| discriminate].
  destruct (CareerToolkit.keyword_sets jk rk) as [matching missing] eqn:Hsets.
  destruct (CareerToolkit.create_ats_report _ _ _ _ _) as [r' |] eqn:Hr;
    cbn [bind try_except]; [| discriminate].
  intros [= -> _].
  exists f, t, sim, s, jk, rk. cbn zeta. rewrite Hsets. cbn [fst snd].
  repeat split; assumption.
Qed.

(** The report keeps the sets it is given, and its match rate is the
    share of the job keywords, as a percentage. *)
Lemma create_ats_report_returns (score : Q) (matching missing : gset string)
    (job_keywords resume_keywords : list string) (r : CareerToolkit.AtsReport) :
  CareerToolkit.create_ats_report score matching missing job_keywords resume_keywords
  = Return r ->
  job_keywords <> []
  /\ CareerToolkit.ats_score r = score
  /\ CareerToolkit.matching_keywords r = matching
  /\ CareerToolkit.missing_keywords r = missing
  /\ CareerToolkit.match_rate r = num (size matching) / len job_keywords * 100.
Proof.
  unfold CareerToolkit.create_ats_report.
  destruct (truediv _ _) as [q |] eqn:Hq; cbn [bind]; [| discriminate].
  apply truediv_returns in Hq as [Hnz ->].
  intros [= <-]. cbn. repeat split.
  intros ->. apply Hnz. reflexivity.
Qed.

Lemma keyword_match_rate_unit (job_keywords resume_keywords : list string) :
  job_keywords <> [] ->
  let matching := fst (CareerToolkit.keyword_sets job_keywords resume_keywords) in
  0 <= num (size matching) / len job_keywords
  /\ num (size matching) / len job_keywords <= 1.
Proof.
  intros Hne matching. apply ratio_unit.
  - apply num_nonneg.
  - apply num_mono. subst matching. cbn [fst CareerToolkit.keyword_sets].
    etransitivity; [| apply size_list_to_set_le].
    apply subseteq_size. intros x. rewrite elem_of_intersection. tauto.
  - apply num_pos. destruct job_keywords; [congruence | cbn; lia].
Qed.

(** [calculate_keyword_match] raises nothing, and its result is a
    percentage. *)
Lemma calculate_keyword_match_returns (resume_text job_description : string) :
  exists m,
    ProductionCareerToolkit.calculate_keyword_match resume_text job_description = Return m
    /\ 0 <= m /\ m <= 100.
Proof.
  unfold ProductionCareerToolkit.calculate_keyword_match.
  set (J := list_to_set (findall_alpha3 (lower job_description))
            ∖ ProductionCareerToolkit.common_words).
  set (R := list_to_set (findall_alpha3 (lower resume_text)) : gset string).
  destruct (size J =? 0)%nat eqn:E.
  - exists 0. split; [reflexivity | lra].
  - apply Nat.eqb_neq in E.
    assert (Hpos : 0 < num (size J)) by (apply num_pos; lia).
    unfold truediv.
    destruct (Qeq_bool (num (size J)) 0) eqn:Ez.
    + apply Qeq_bool_iff in Ez. lra.
    + cbn [bind]. eexists. split; [reflexivity |].
      assert (Hle : num (size (J ∩ R)) <= num (size J)).
      { apply num_mono, subseteq_size. intros x. rewrite elem_of_intersection. tauto. }
      destruct (ratio_unit (num (size (J ∩ R))) (num (size J))
                  (num_nonneg _) Hle Hpos).
      lra.
Qed.

(** C6, as the code has it. Under the contract of scikit-learn, the
    similarity that [calculate_tfidf_similarity] returns, and the score
    of every report of [calculate_ats_score], is 100 times the entry
    (0, 1) of the similarity matrix of the library: it is at least 0, and
    it is at most 100 exactly when that entry is at most 1, as the exact
    cosine of the two rows is. The keyword match of
    [calculate_keyword_match] is always returned and lies between 0 and
    100, as does the match rate of every report. *)
Theorem scores_within_bounds :
  SklearnContract sk ->
  (forall resume_text job_description v,
      ProductionCareerToolkit.calculate_tfidf_similarity resume_text job_description
      = Return v ->
      exists t sim c,
        fit_transform CareerToolkit.ats_vectorizer [resume_text; job_description] = Return t
        /\ cosine_similarity (toarray t) = Return sim
        /\ getitem2 sim 0 1 = Return c
        /\ v = c * 100
        /\ 0 <= v
        /\ (v <= 100 <-> c <= 1)
        /\ (forall u w,
              nth_error (toarray t) 0 = Some u ->
              nth_error (toarray t) 1 = Some w ->
              is_cosine c u w -> v <= 100))
  /\ (forall resume_text job_description,
         exists m,
           ProductionCareerToolkit.calculate_keyword_match resume_text job_description
           = Return m
           /\ 0 <= m /\ m <= 100)
  /\ (forall resume_file job_description r o,
         CareerToolkit.calculate_ats_score resume_file job_description
         = Return (Report r, o) ->
         (exists f t sim c,
            resume_file = Some f
            /\ fit_transform CareerToolkit.ats_vectorizer
                 [CareerToolkit.extract_text_from_pdf (name f); job_description]
               = Return t
            /\ cosine_similarity (toarray t) = Return sim
            /\ getitem2 sim 0 1 = Return c
            /\ CareerToolkit.ats_score r = c * 100
            /\ 0 <= CareerToolkit.ats_score r
            /\ (CareerToolkit.ats_score r <= 100 <-> c <= 1)
            /\ (forall u w,
                  nth_error (toarray t) 0 = Some u ->
                  nth_error (toarray t) 1 = Some w ->
                  is_cosine c u w -> CareerToolkit.ats_score r <= 100))
         /\ (0 <= CareerToolkit.match_rate r /\ CareerToolkit.match_rate r <= 100)).
Proof.
  intros contract. split; [| split].
  - intros resume_text job_description v.
    unfold ProductionCareerToolkit.calculate_tfidf_similarity.
    destruct (fit_transform _ _) as [t |] eqn:Ht; cbn [bind]; [| discriminate].
    destruct (cosine_similarity _) as [sim |] eqn:Hsim; cbn [bind]; [| discriminate].
    destruct (getitem2 _ _ _) as [c |] eqn:Hc; cbn [bind]; [| discriminate].
    intros [= <-]. exists t, sim, c.
    pose proof (similarity_entry_nonneg contract _ _ _ _ _ _ _ Ht Hsim Hc) as Hnonneg.
    repeat (split; [first [assumption | reflexivity | lra] |]).
    intros u w Hu Hw Hcos.
    destruct (exact_cosine_unit contract _ _ _ _ _ _ _ _ Ht Hu Hw Hcos). lra.
  - apply calculate_keyword_match_returns.
  - intros resume_file job_description r o Hr.
    apply calculate_ats_score_report in Hr
      as (f & t & sim & c & jk & rk & Hf & Ht & Hsim & Hc & _ & _ & Hr).
    apply create_ats_report_returns in Hr as (Hne & -> & _ & _ & ->).
    pose proof (similarity_entry_nonneg contract _ _ _ _ _ _ _ Ht Hsim Hc) as Hnonneg.
    destruct (keyword_match_rate_unit jk rk Hne).
    split; [| split; lra].
    exists f, t, sim, c.
    repeat (split; [first [assumption | reflexivity | lra] |]).
    intros u w Hu Hw Hcos.
    destruct (exact_cosine_unit contract _ _ _ _ _ _ _ _ Ht Hu Hw Hcos). lra.
Qed.

(** The sets of a report partition the job keywords. *)
Lemma report_keywords_partition (resume_file : option File) (job_description : string)
    (r : CareerToolkit.AtsReport) (o : option string) :
  CareerToolkit.calculate_ats_score resume_file job_description = Return (Report r, o) ->
  exists job_keywords,
    CareerToolkit.extract_keywords job_description = Return job_keywords
    /\ CareerToolkit.matching_keywords r ∪ CareerToolkit.missing_keywords r
       = list_to_set job_keywords
    /\ CareerToolkit.matching_keywords r ∩ CareerToolkit.missing_keywords r = ∅.
Proof.
  intros Hr.
  apply calculate_ats_score_report in Hr
    as (f & t & sim & s & jk & rk & _ & _ & _ & _ & Hjk & _ & Hr).
  apply create_ats_report_returns in Hr as (_ & _ & -> & -> & _).
  exists jk. split; [exact Hjk |]. cbn [fst snd CareerToolkit.keyword_sets].
  apply inter_diff_partition.
Qed.

(** At its own interface [create_ats_report] has no guard: with an empty
    list of job keywords the division raises. *)
Remark create_ats_report_divides_by_zero (score : Q) (matching missing : gset string)
    (resume_keywords : list string) :
  CareerToolkit.create_ats_report score matching missing [] resume_keywords
  = Raise (Exception "ZeroDivisionError" "division by zero").
Proof. reflexivity. Qed.

(** With a job keyword the report is built, from the sets and the rate
    that the specification names. *)
Lemma keyword_overlap_when_defined (score : Q) (job_keywords resume_keywords : list string) :
  job_keywords <> [] ->
  let matching : gset string := list_to_set job_keywords ∩ list_to_set resume_keywords in
  let missing : gset string := list_to_set job_keywords ∖ list_to_set resume_keywords in
  exists r,
    CareerToolkit.create_ats_report score
      (fst (CareerToolkit.keyword_sets job_keywords resume_keywords))
      (snd (CareerToolkit.keyword_sets job_keywords resume_keywords))
      job_keywords resume_keywords
    = Return r
    /\ CareerToolkit.matching_keywords r = matching
    /\ CareerToolkit.missing_keywords r = missing
    /\ CareerToolkit.match_rate r = num (size matching) / len job_keywords * 100.
Proof.
  intros Hne matching missing.
  unfold CareerToolkit.create_ats_report, truediv.
  destruct (Qeq_bool (len job_keywords) 0) eqn:E.
  - apply Qeq_bool_iff in E.
    assert (0 < len job_keywords)
      by (apply num_pos; destruct job_keywords; [congruence | cbn; lia]).
    lra.
  - cbn [bind]. eexists. split; [reflexivity |]. cbn. auto.
Qed.

(** A report is built when the library calls return and there is a job
    keyword. *)
Lemma calculate_ats_score_builds_report (f : File) (job_description : string)
    (t : Tfidf) (sim : matrix) (c : Q) (job_keywords resume_keywords : list string) :
  let resume_text := CareerToolkit.extract_text_from_pdf (name f) in
  truthy (strip job_description) = true ->
  truthy resume_text = true ->
  fit_transform CareerToolkit.ats_vectorizer [resume_text; job_description] = Return t ->
  cosine_similarity (toarray t) = Return sim ->
  getitem2 sim 0 1 = Return c ->
  CareerToolkit.extract_keywords job_description = Return job_keywords ->
  CareerToolkit.extract_keywords resume_text = Return resume_keywords ->
  job_keywords <> [] ->
  exists r,
    CareerToolkit.calculate_ats_score (Some f) job_description = Return (Report r, None).
Proof.
  intros resume_text Hjob Htext Ht Hsim Hc Hjk Hrk Hne.
  unfold CareerToolkit.calculate_ats_score. fold resume_text.
  rewrite Hjob, Htext. cbn [negb]. rewrite Ht. cbn [bind]. rewrite Hsim. cbn [bind].
  rewrite Hc. cbn [bind]. rewrite Hjk. cbn [bind]. rewrite Hrk. cbn [bind].
  destruct (keyword_overlap_when_defined (c * 100) job_keywords resume_keywords Hne)
    as (r & Hr & _).
  destruct (CareerToolkit.keyword_sets job_keywords resume_keywords) as [matching missing].
  cbn [fst snd] in Hr. rewrite Hr. cbn [bind try_except]. exists r. reflexivity.
Qed.

(** C4, as the code has it. The report of [calculate_ats_score] holds the
    job keywords that the resume has, those that it lacks, and as match
    rate the share of the former in the list of job keywords, as a
    percentage; the list is not empty, and its length is the number of
    job keywords when they are distinct. A report is built whenever the
    library calls return and there is a job keyword. When the extraction
    of the job keywords raises, as on a job description without any
    keyword, there is no match rate of 0: the call returns the message
    "Error calculating ATS score: " followed by the text of an
    exception. *)
Theorem keyword_overlap_of_reports (resume_file : option File) (job_description : string) :
  (forall r o,
      CareerToolkit.calculate_ats_score resume_file job_description = Return (Report r, o) ->
      exists f job_keywords resume_keywords,
        resume_file = Some f
        /\ CareerToolkit.extract_keywords job_description = Return job_keywords
        /\ CareerToolkit.extract_keywords (CareerToolkit.extract_text_from_pdf (name f))
           = Return resume_keywords
        /\ job_keywords <> []
        /\ CareerToolkit.matching_keywords r
           = list_to_set job_keywords ∩ list_to_set resume_keywords
        /\ CareerToolkit.missing_keywords r
           = list_to_set job_keywords ∖ list_to_set resume_keywords
        /\ CareerToolkit.match_rate r
           = num (size (CareerToolkit.matching_keywords r)) / len job_keywords * 100
        /\ (NoDup job_keywords ->
            len job_keywords = num (size (list_to_set job_keywords : gset string))))
  /\ (forall f t sim c job_keywords resume_keywords,
        resume_file = Some f ->
        truthy (strip job_description) = true ->
        truthy (CareerToolkit.extract_text_from_pdf (name f)) = true ->
        fit_transform CareerToolkit.ats_vectorizer
          [CareerToolkit.extract_text_from_pdf (name f); job_description] = Return t ->
        cosine_similarity (toarray t) = Return sim ->
        getitem2 sim 0 1 = Return c ->
        CareerToolkit.extract_keywords job_description = Return job_keywords ->
        CareerToolkit.extract_keywords (CareerToolkit.extract_text_from_pdf (name f))
        = Return resume_keywords ->
        job_keywords <> [] ->
        exists r,
          CareerToolkit.calculate_ats_score resume_file job_description
          = Return (Report r, None))
  /\ (forall f e,
        resume_file = Some f ->
        truthy (strip job_description) = true ->
        truthy (CareerToolkit.extract_text_from_pdf (name f)) = true ->
        CareerToolkit.extract_keywords job_description = Raise e ->
        exists e',
          CareerToolkit.calculate_ats_score resume_file job_description
          = Return (Text (error_calculating e'), None)).
Proof.
  split; [| split].
  - intros r o Hr.
    apply calculate_ats_score_report in Hr
      as (f & t & sim & c & jk & rk & Hf & _ & _ & _ & Hjk & Hrk & Hr).
    apply create_ats_report_returns in Hr as (Hne & _ & Hmatching & Hmissing & Hrate).
    exists f, jk, rk. rewrite Hmatching, Hmissing, Hrate.
    cbn [fst snd CareerToolkit.keyword_sets].
    repeat (split; [first [assumption | reflexivity] |]).
    intros Hnodup. unfold len. rewrite size_list_to_set by exact Hnodup. reflexivity.
  - intros f t sim c jk rk -> Hjob Htext Ht Hsim Hc Hjk Hrk Hne.
    exact (calculate_ats_score_builds_report f job_description t sim c jk rk
             Hjob Htext Ht Hsim Hc Hjk Hrk Hne).
  - intros f e -> Hjob Htext Hraise.
    unfold CareerToolkit.calculate_ats_score. rewrite Hjob, Htext. cbn [negb].
    step_bind; [| eexists; reflexivity].
    step_bind; [| eexists; reflexivity].
    step_bind; [| eexists; reflexivity].
    rewrite Hraise. cbn [bind try_except]. eexists. reflexivity.
Qed.

End AtsReport.

Section AtsReportSamples.

Import Py Samples.
Local Open Scope Q_scope.

Lemma python_run_contract : SklearnContract python_run.
Proof.
  assert (Hcase : forall v docs t,
             fit_transform (Sklearn := python_run) v docs = Return t ->
             toarray t = [[2 # 3; 1 # 3; 2 # 3]]
             \/ toarray t = [[0; 0; 0]; [2 # 3; 1 # 3; 2 # 3]]
             \/ toarray t = [[2 # 3; 1 # 3; 2 # 3; 0; 0]; [0; 1 # 3; 0; 2 # 3; 2 # 3]]).
  { intros v docs t Ht.
    destruct docs as [| d1 [| d2 [| d3 docs]]]; cbn [fit_transform python_run] in Ht;
      try discriminate.
    - destruct (String.eqb d1 "python sql"); injection Ht as <-; auto.
    - destruct (String.eqb d1 ""); injection Ht as <-; auto. }
  split.
  - intros v docs t Ht.
    destruct (Hcase v docs t Ht) as [E | [E | E]]; rewrite E;
      repeat constructor; unfold Qle; simpl; lia.
  - intros v docs t s i j x Ht Hs Hx.
    cbn [cosine_similarity python_run] in Hs. injection Hs as <-.
    destruct (Hcase v docs t Ht) as [E | [E | E]]; rewrite E in Hx;
      destruct i as [| [| [| i]]]; destruct j as [| [| [| j]]];
      vm_compute in Hx; try discriminate Hx; injection Hx as <-;
      vm_compute; discriminate.
Qed.

(** The run in float64 satisfies the contract too. *)
Lemma float64_run_contract : SklearnContract Runs.float64_run.
Proof.
  assert (Hcase : forall v docs t,
             fit_transform (Sklearn := Runs.float64_run) v docs = Return t ->
             toarray t = [Float64.three_equal_weights]
             \/ toarray t
                = [Float64.tfidf_row
                     [Runs.idf_one_of_two; Runs.idf_one_of_two; Runs.idf_one_of_two];
                   [0; 0; 0]]
             \/ toarray t = [Float64.three_equal_weights; Float64.three_equal_weights]).
  { intros v docs t Ht.
    destruct docs as [| d1 [| d2 [| d3 docs]]]; cbn [fit_transform Runs.float64_run] in Ht;
      try discriminate.
    - destruct (String.eqb d1 "the and of"); [discriminate |]. injection Ht as <-. auto.
    - destruct (String.eqb d2 "the and of"); injection Ht as <-; auto. }
  split.
  - intros v docs t Ht.
    destruct (Hcase v docs t Ht) as [E | [E | E]]; rewrite E;
      repeat constructor; vm_compute; discriminate.
  - intros v docs t s i j x Ht Hs Hx.
    cbn [cosine_similarity Runs.float64_run] in Hs. injection Hs as <-.
    destruct (Hcase v docs t Ht) as [E | [E | E]]; rewrite E in Hx;
      destruct i as [| [| [| i]]]; destruct j as [| [| [| j]]];
      vm_compute in Hx; try discriminate Hx; injection Hx as <-;
      vm_compute; discriminate.
Qed.

Lemma scores_within_bounds_witness :
  (forall resume_text job_description v,
      ProductionCareerToolkit.calculate_tfidf_similarity (sk := Runs.float64_run)
        resume_text job_description
      = Return v ->
      exists t sim c,
        fit_transform (Sklearn := Runs.float64_run) CareerToolkit.ats_vectorizer
          [resume_text; job_description] = Return t
        /\ cosine_similarity (Sklearn := Runs.float64_run) (toarray t) = Return sim
        /\ getitem2 sim 0 1 = Return c
        /\ v = c * 100
        /\ 0 <= v
        /\ (v <= 100 <-> c <= 1)
        /\ (forall u w,
              nth_error (toarray t) 0 = Some u ->
              nth_error (toarray t) 1 = Some w ->
              is_cosine c u w -> v <= 100))
  /\ (forall resume_text job_description,
         exists m,
           ProductionCareerToolkit.calculate_keyword_match resume_text job_description
           = Return m
           /\ 0 <= m /\ m <= 100)
  /\ (forall resume_file job_description r o,
         CareerToolkit.calculate_ats_score (sk := Runs.float64_run)
           (sv := one_resume "python docker") resume_file job_description
         = Return (Report r, o) ->
         (exists f t sim c,
            resume_file = Some f
            /\ fit_transform (Sklearn := Runs.float64_run) CareerToolkit.ats_vectorizer
                 [CareerToolkit.extract_text_from_pdf (sv := one_resume "python docker")
                    (name f);
                  job_description]
               = Return t
            /\ cosine_similarity (Sklearn := Runs.float64_run) (toarray t) = Return sim
            /\ getitem2 sim 0 1 = Return c
            /\ CareerToolkit.ats_score r = c * 100
            /\ 0 <= CareerToolkit.ats_score r
            /\ (CareerToolkit.ats_score r <= 100 <-> c <= 1)
            /\ (forall u w,
                  nth_error (toarray t) 0 = Some u ->
                  nth_error (toarray t) 1 = Some w ->
                  is_cosine c u w -> CareerToolkit.ats_score r <= 100))
         /\ (0 <= CareerToolkit.match_rate r /\ CareerToolkit.match_rate r <= 100)).
Proof.
  apply (scores_within_bounds (sk := Runs.float64_run) (sv := one_resume "python docker")).
  exact float64_run_contract.
Defined.

(** The weights and the cosine of the run in float64: each weight is
    0.5773502691896258 (0.5773502691896257 beside the job description
    without vocabulary), the sum of their squares and the cosine of the
    two equal rows are 1.0000000000000002, that is 1 + 2^-52, and 100
    times the cosine is 100.00000000000003 in float64, that is
    100 + 2^-45. *)
Example float64_run_values :
  Float64.three_equal_weights
  = [5200308914369309 # 9007199254740992; 5200308914369309 # 9007199254740992;
     5200308914369309 # 9007199254740992]
  /\ Float64.tfidf_row [Runs.idf_one_of_two; Runs.idf_one_of_two; Runs.idf_one_of_two]
     = [5200308914369308 # 9007199254740992; 5200308914369308 # 9007199254740992;
        5200308914369308 # 9007199254740992]
  /\ Float64.cosine_similarity [Float64.three_equal_weights; Float64.three_equal_weights]
     = [[4503599627370497 # 4503599627370496; 4503599627370497 # 4503599627370496];
        [4503599627370497 # 4503599627370496; 4503599627370497 # 4503599627370496]]
  /\ Float64.to_Q
       (PrimFloat.mul (Float64.of_Q (4503599627370497 # 4503599627370496))
          (Float64.of_Z 100))
     = 7036874417766402 # 70368744177664.
Proof. vm_compute. repeat split; reflexivity. Qed.

(** Against C6 as stated: on a resume and a job description that are
    both "python docker", the similarity that the library computes in
    float64 is 1 + 2^-52, above 1, and the score is above 100, in
    [calculate_tfidf_similarity] and in the report of
    [calculate_ats_score]: 100 + 100 * 2^-52, which float64 rounds to
    100 + 2^-45, that is 100.00000000000003. *)
Lemma identical_documents_score_above_100 :
  (exists v,
      ProductionCareerToolkit.calculate_tfidf_similarity (sk := Runs.float64_run)
        ("python docker" +:+ String "010" "") "python docker"
      = Return v
      /\ v == 100 + (100 # 4503599627370496)
      /\ 100 < v
      /\ ~ (0 <= v /\ v <= 100))
  /\ (exists r,
        CareerToolkit.calculate_ats_score (sk := Runs.float64_run)
          (sv := one_resume "python docker") (Some resume_pdf) "python docker"
        = Return (Report r, None)
        /\ CareerToolkit.ats_score r == 100 + (100 # 4503599627370496)
        /\ 100 < CareerToolkit.ats_score r
        /\ ~ (0 <= CareerToolkit.ats_score r /\ CareerToolkit.ats_score r <= 100)).
Proof.
  split.
  - eexists. split; [vm_compute; reflexivity |].
    split; [vm_compute; reflexivity |]. split; [vm_compute; reflexivity |].
    intros [_ H]. vm_compute in H. apply H. reflexivity.
  - eexists. split; [vm_compute; reflexivity |].
    split; [vm_compute; reflexivity |]. split; [vm_compute; reflexivity |].
    intros [_ H]. vm_compute in H. apply H. reflexivity.
Qed.

(** Against C4 as stated: on the job description "the and of", which has
    no keyword, the match rate is not defined as 0. The pair of documents
    is vectorized, with a similarity of 0, and the extraction of the job
    keywords raises: the call returns the error message, and no
    report. Nor has [create_ats_report] a rate of 0 for an empty list of
    job keywords, which [calculate_ats_score] never hands it: there the
    division raises. *)
Lemma job_without_keywords_gets_no_zero_rate :
  CareerToolkit.calculate_ats_score (sk := Runs.float64_run)
    (sv := one_resume "python docker") (Some resume_pdf) "the and of"
  = Return
      (Text "Error calculating ATS score: empty vocabulary; perhaps the documents only contain stop words",
       None)
  /\ ProductionCareerToolkit.calculate_tfidf_similarity (sk := Runs.float64_run)
       ("python docker" +:+ String "010" "") "the and of"
     = Return (0 * 100)
  /\ CareerToolkit.extract_keywords (sk := Runs.float64_run) "the and of"
     = Raise empty_vocabulary
  /\ ~ (exists r o,
          CareerToolkit.calculate_ats_score (sk := Runs.float64_run)
            (sv := one_resume "python docker") (Some resume_pdf) "the and of"
          = Return (Report r, o)
          /\ CareerToolkit.match_rate r == 0)
  /\ CareerToolkit.create_ats_report 0 ∅ ∅ [] ["docker"; "python"; "python docker"]
     = Raise (Exception "ZeroDivisionError" "division by zero").
Proof.
  split; [vm_compute; reflexivity |].
  split; [vm_compute; reflexivity |].
  split; [reflexivity |].
  split; [| reflexivity].
  intros (r & o & H & _). vm_compute in H. discriminate H.
Qed.

(** On the job description "python docker" the same run gives a report,
    with the three job keywords matched and a match rate of 100. *)
Example float64_run_report :
  exists r,
    CareerToolkit.calculate_ats_score (sk := Runs.float64_run)
      (sv := one_resume "python docker") (Some resume_pdf) "python docker"
    = Return (Report r, None)
    /\ CareerToolkit.matching_keywords r = {["docker"; "python"; "python docker"]}
    /\ CareerToolkit.missing_keywords r = ∅
    /\ CareerToolkit.match_rate r == 100.
Proof.
  eexists. split; [vm_compute; reflexivity |].
  split; [vm_compute; reflexivity |]. split; vm_compute; reflexivity.
Qed.

(** The run on "python docker" and "python sql" does give a report, with
    a score of 100/9 and a match rate of a third. *)
Example python_run_report :
  exists r,
    CareerToolkit.calculate_ats_score (sk := python_run) (sv := one_resume "python docker")
      (Some resume_pdf) "python sql"
    = Return (Report r, None)
    /\ CareerToolkit.ats_score r == 100 / 9
    /\ CareerToolkit.match_rate r == 100 / 3
    /\ CareerToolkit.matching_keywords r = {["python"]}
    /\ CareerToolkit.missing_keywords r = {["sql"; "python sql"]}.
Proof.
  eexists. split; [vm_compute; reflexivity |].
  split; [reflexivity |]. split; [reflexivity |].
  split; vm_compute; reflexivity.
Qed.

End AtsReportSamples.

(* ================================================================== *)
(** * The ranking of [extract_keywords] *)
(* ================================================================== *)

Section KeywordRanking.

Import Py Ranking.
Local Open Scope Q_scope.

Context {sk : Sklearn}.

Lemma insert_desc_perm (x : string * Q) (l : list (string * Q)) :
  Permutation (insert_desc x l) (x :: l).
Proof.
  induction l as [| y l IH]; cbn [insert_desc]; [reflexivity |].
  destruct (Qle_bool (snd y) (snd x)); [reflexivity |].
  rewrite IH. apply perm_swap.
Qed.

Lemma sort_desc_perm (l : list (string * Q)) : Permutation (sort_desc l) l.
Proof.
  induction l as [| x l IH]; cbn [sort_desc fold_right]; [reflexivity |].
  fold (sort_desc l). rewrite insert_desc_perm. now constructor.
Qed.

Lemma heavier_trans (p q r : string * Q) : heavier p q -> heavier q r -> heavier p r.
Proof. unfold heavier. intros. lra. Qed.

Lemma insert_desc_sorted (x : string * Q) (l : list (string * Q)) :
  StronglySorted heavier l -> StronglySorted heavier (insert_desc x l).
Proof.
  induction 1 as [| y l Hl IH Hy]; cbn [insert_desc].
  - repeat constructor.
  - destruct (Qle_bool (snd y) (snd x)) eqn:E.
    + apply Qle_bool_iff in E.
      constructor; [now constructor |].
      constructor; [exact E |].
      eapply List.Forall_impl; [| exact Hy].
      intros z Hz. eapply heavier_trans; [exact E | exact Hz].
    + assert (Hxy : heavier y x).
      { unfold heavier. apply Qlt_le_weak, Qnot_le_lt.
        intros H. apply Qle_bool_iff in H. congruence. }
      constructor; [exact IH |].
      eapply Permutation_Forall; [symmetry; apply insert_desc_perm |].
      now constructor.
Qed.

Lemma sort_desc_sorted (l : list (string * Q)) : StronglySorted heavier (sort_desc l).
Proof.
  induction l as [| x l IH]; cbn [sort_desc fold_right]; [constructor |].
  now apply insert_desc_sorted.
Qed.

Lemma above_threshold_spec (ks : string * Q) :
  CareerToolkit.above_threshold ks = true <-> 0.1 < snd ks.
Proof.
  unfold CareerToolkit.above_threshold. rewrite negb_true_iff. split.
  - intros E. apply Qnot_le_lt. intros H. apply Qle_bool_iff in H. congruence.
  - intros H. destruct (Qle_bool (snd ks) 0.1) eqn:E; [| reflexivity].
    apply Qle_bool_iff in E. lra.
Qed.

Lemma below_threshold_all (x : string * Q) (l : list (string * Q)) :
  CareerToolkit.above_threshold x = false ->
  Forall (heavier x) l ->
  List.filter CareerToolkit.above_threshold l = [].
Proof.
  intros Hx Hl. induction Hl as [| y l Hy _ IH]; [reflexivity |].
  cbn [List.filter].
  destruct (CareerToolkit.above_threshold y) eqn:Ey; [| exact IH].
  apply above_threshold_spec in Ey. unfold heavier in Hy.
  assert (CareerToolkit.above_threshold x = true) by (apply above_threshold_spec; lra).
  congruence.
Qed.

Lemma In_firstn {A} (x : A) (n : nat) (l : list A) : In x (firstn n l) -> In x l.
Proof.
  revert n. induction l as [| y l IH]; intros [| n]; cbn [firstn In]; try tauto.
  intros [-> | H]; [now left | right; now apply (IH n)].
Qed.

Lemma filter_nil_firstn {A} (P : A -> bool) (n : nat) (l : list A) :
  List.filter P l = [] -> List.filter P (firstn n l) = [].
Proof.
  revert n. induction l as [| x l IH]; intros [| n]; cbn [firstn List.filter]; try reflexivity.
  destruct (P x); [discriminate |]. intros H. now apply IH.
Qed.

(** In a ranking, taking the first [n] terms and then those above the
    threshold, as the code does, is taking the terms above the threshold
    and then the first [n] of them. *)
Lemma filter_firstn_ranked (n : nat) (l : list (string * Q)) :
  StronglySorted heavier l ->
  List.filter CareerToolkit.above_threshold (firstn n l)
  = firstn n (List.filter CareerToolkit.above_threshold l).
Proof.
  intros Hl. revert n. induction Hl as [| x l Hl IH Hx]; intros [| n];
    cbn [firstn List.filter]; try reflexivity.
  destruct (CareerToolkit.above_threshold x) eqn:Ex.
  - cbn [firstn]. now rewrite IH.
  - pose proof (below_threshold_all x l Ex Hx) as Hnil.
    rewrite Hnil. rewrite (filter_nil_firstn _ n l Hnil). reflexivity.
Qed.

(** C5. [extract_keywords] fits the vectorizer on the corpus of the one
    document; what it returns are the terms of a ranking of the
    (term, weight) pairs by weight, descending, from which every term of
    weight 0.1 or less is left out and of which at most 20 are kept. *)
Theorem extract_keywords_ranked (text : string) (keywords : list string) :
  CareerToolkit.extract_keywords text = Return keywords ->
  exists t scores ranked,
    fit_transform CareerToolkit.keyword_vectorizer [text] = Return t
    /\ getitem (toarray t) 0 = Return scores
    /\ Permutation ranked (combine (get_feature_names_out t) scores)
    /\ StronglySorted heavier ranked
    /\ keywords = List.map fst (firstn 20 (List.filter CareerToolkit.above_threshold ranked))
    /\ Forall (fun ks => 0.1 < snd ks)
         (firstn 20 (List.filter CareerToolkit.above_threshold ranked))
    /\ (forall ks, In ks ranked -> snd ks <= 0.1 -> 
                   ~ In ks (firstn 20 (List.filter CareerToolkit.above_threshold ranked)))
    /\ (length keywords <= 20)%nat.
Proof.
  unfold CareerToolkit.extract_keywords.
  destruct (fit_transform _ _) as [t |] eqn:Ht; cbn [bind]; [| discriminate].
  destruct (getitem _ _) as [scores |] eqn:Hs; cbn [bind]; [| discriminate].
  intros [= <-].
  set (ranked := sort_desc (combine (get_feature_names_out t) scores)).
  assert (Hsel : Forall (fun ks => 0.1 < snd ks)
                   (firstn 20 (List.filter CareerToolkit.above_threshold ranked))).
  { apply List.Forall_forall. intros ks Hks.
    apply In_firstn in Hks.
    apply List.filter_In in Hks as [_ Hks]. now apply above_threshold_spec. }
  exists t, scores, ranked.
  split; [reflexivity |]. split; [exact Hs |].
  split; [apply sort_desc_perm |].
  split; [apply sort_desc_sorted |].
  split; [now rewrite filter_firstn_ranked by apply sort_desc_sorted |].
  split; [exact Hsel |].
  split.
  - intros ks _ Hlow Hin. rewrite List.Forall_forall in Hsel.
    specialize (Hsel ks Hin). cbn beta in Hsel. lra.
  - rewrite length_map, filter_firstn_ranked by apply sort_desc_sorted.
    apply firstn_le_length.
Qed.

(** ** When the list of keywords is empty

    The vectorizer of [extract_keywords] normalises its row to norm 1
    (the default [norm='l2']), up to the rounding of float64, over at most
    50 features ([max_features=50]); a row whose squared norm is above
    1/2 has a weight above 0.1, which the ranking puts first. *)

Lemma num_succ (n : nat) : num (S n) == num n + 1.
Proof.
  unfold num. rewrite Nat2Z.inj_succ. unfold Z.succ. rewrite inject_Z_plus. reflexivity.
Qed.

Lemma light_row_norm (row : list Q) :
  Forall (fun w => 0 <= w /\ w <= 0.1) row ->
  dot row row <= 0.01 * num (length row).
Proof.
  induction 1 as [| w row [Hw0 Hw1] _ IH]; cbn [dot length].
  - unfold Qle. simpl. lia.
  - rewrite num_succ.
    assert (w * w <= 0.1 * 0.1) by (apply Qmult_le_compat_nonneg; split; assumption).
    lra.
Qed.

Lemma light_or_heavy (row : list Q) :
  nonneg_row row ->
  Forall (fun w => 0 <= w /\ w <= 0.1) row \/ Exists (fun w => 0.1 < w) row.
Proof.
  induction 1 as [| w row Hw _ [IH | IH]].
  - left. constructor.
  - destruct (Qlt_le_dec 0.1 w) as [Hh | Hl].
    + right. now constructor.
    + left. now constructor.
  - right. now constructor 2.
Qed.

Lemma unit_row_has_heavy_term (row : list Q) :
  nonneg_row row -> (length row <= 50)%nat -> 1 # 2 < dot row row ->
  Exists (fun w => 0.1 < w) row.
Proof.
  intros Hrow Hlen Hnorm.
  destruct (light_or_heavy row Hrow) as [Hlight | Hheavy]; [exfalso | exact Hheavy].
  apply light_row_norm in Hlight.
  apply num_mono in Hlen.
  assert (num 50 == 50) by reflexivity.
  lra.
Qed.

Lemma Exists_combine (P : Q -> Prop) (names : list string) (row : list Q) :
  (length row <= length names)%nat ->
  Exists P row ->
  Exists (fun ks : string * Q => P (snd ks)) (combine names row).
Proof.
  intros Hlen Hex. revert names Hlen.
  induction Hex as [w row Hw | w row _ IH]; intros [| n names] Hlen;
    cbn [length] in Hlen; try lia; cbn [combine].
  - now constructor.
  - constructor 2. apply IH. lia.
Qed.

Lemma ranked_head_is_heaviest (l : list (string * Q)) :
  StronglySorted heavier l ->
  Exists (fun ks => 0.1 < snd ks) l ->
  exists h rest, l = h :: rest /\ 0.1 < snd h.
Proof.
  intros Hsorted Hex. destruct Hsorted as [| h rest _ Hh].
  - inversion Hex.
  - exists h, rest. split; [reflexivity |].
    apply List.Exists_cons in Hex as [Hhead | Hrest]; [exact Hhead |].
    apply List.Exists_exists in Hrest as (ks & Hin & Hks).
    rewrite List.Forall_forall in Hh. specialize (Hh ks Hin). unfold heavier in Hh. lra.
Qed.

Lemma extract_keywords_nonempty (text : string) (keywords : list string)
    (t : Tfidf) (scores : list Q) :
  CareerToolkit.extract_keywords text = Return keywords ->
  fit_transform CareerToolkit.keyword_vectorizer [text] = Return t ->
  getitem (toarray t) 0 = Return scores ->
  nonneg_row scores ->
  (length scores <= 50)%nat ->
  (length scores <= length (get_feature_names_out t))%nat ->
  1 # 2 < dot scores scores ->
  keywords <> [].
Proof.
  unfold CareerToolkit.extract_keywords.
  intros Hk Ht Hs Hrow Hlen Hnames Hnorm.
  rewrite Ht in Hk. cbn [bind] in Hk. rewrite Hs in Hk. cbn [bind] in Hk.
  injection Hk as <-.
  pose proof (unit_row_has_heavy_term scores Hrow Hlen Hnorm) as Hheavy.
  apply (Exists_combine _ (get_feature_names_out t)) in Hheavy; [| exact Hnames].
  assert (Hranked : Exists (fun ks => 0.1 < snd ks)
                      (sort_desc (combine (get_feature_names_out t) scores))).
  { apply List.Exists_exists in Hheavy as (ks & Hin & Hks).
    apply List.Exists_exists. exists ks. split; [| exact Hks].
    eapply Permutation_in; [symmetry; apply sort_desc_perm | exact Hin]. }
  destruct (ranked_head_is_heaviest _ (sort_desc_sorted _) Hranked) as (h & rest & -> & Hh).
  cbn [firstn List.filter].
  apply above_threshold_spec in Hh. rewrite Hh. discriminate.
Qed.

End KeywordRanking.

Section KeywordRankingSamples.

Import Py Ranking Samples.
Local Open Scope Q_scope.

Lemma extract_keywords_ranked_witness :
  exists t scores ranked,
    fit_transform (Sklearn := skewed_run) CareerToolkit.keyword_vectorizer [skewed_text]
    = Return t
    /\ getitem (toarray t) 0 = Return scores
    /\ Permutation ranked (combine (get_feature_names_out t) scores)
    /\ StronglySorted heavier ranked
    /\ ["python"; "python python"]
       = List.map fst (firstn 20 (List.filter CareerToolkit.above_threshold ranked))
    /\ Forall (fun ks => 0.1 < snd ks)
         (firstn 20 (List.filter CareerToolkit.above_threshold ranked))
    /\ (forall ks, In ks ranked -> snd ks <= 0.1 ->
                   ~ In ks (firstn 20 (List.filter CareerToolkit.above_threshold ranked)))
    /\ (length ["python"; "python python"] <= 20)%nat.
Proof.
  apply (extract_keywords_ranked (sk := skewed_run) skewed_text ["python"; "python python"]).
  reflexivity.
Defined.

(** A row of norm 1 over three features: the keywords are not empty. *)
Example python_run_keywords_nonempty :
  exists keywords,
    CareerToolkit.extract_keywords (sk := python_run) "python sql" = Return keywords
    /\ keywords = ["python"; "sql"; "python sql"]
    /\ dot [2 # 3; 1 # 3; 2 # 3] [2 # 3; 1 # 3; 2 # 3] == 1.
Proof. eexists. split; [reflexivity |]. split; reflexivity. Qed.

(** Equal weights keep the order of the vocabulary. *)
Example sort_desc_is_stable :
  sort_desc [("docker", 0.5); ("python", 0.7); ("sql", 0.5); ("aws", 0.7)]
  = [("python", 0.7); ("aws", 0.7); ("docker", 0.5); ("sql", 0.5)].
Proof. reflexivity. Qed.

End KeywordRankingSamples.

(* ================================================================== *)
(** * The composite ATS score *)
(* ================================================================== *)

Section CompositeScore.

Import Py Messages.
Local Open Scope Q_scope.

Context {sk : Sklearn} {sv : Services}.

Lemma letter_run_letters (l : list ascii) :
  Forall (fun c => is_ascii_letter c = true /\ In c l) (letter_run l).
Proof.
  induction l as [| a l IH]; cbn [letter_run]; [constructor |].
  destruct (is_ascii_letter a) eqn:E; [| constructor].
  constructor; [split; [exact E | now left] |].
  eapply List.Forall_impl; [| exact IH].
  intros c [Hc Hin]. split; [exact Hc | now right].
Qed.

Lemma match_alpha3_spec (prev : option ascii) (l w : list ascii) :
  match_alpha3 prev l = Some w -> w = letter_run l /\ (3 <= length w)%nat.
Proof.
  unfold match_alpha3.
  destruct (_ && _ && _) eqn:E; [| discriminate].
  intros [= <-]. split; [reflexivity |].
  apply andb_prop in E as [E _]. apply andb_prop in E as [_ E].
  now apply Nat.leb_le in E.
Qed.

(** Every match is a run of three letters or more of the text. *)
Lemma findall_from_spec (prev : option ascii) (skip : nat) (l : list ascii) :
  Forall (fun w => (3 <= length w)%nat
                   /\ Forall (fun c => is_ascii_letter c = true /\ In c l) w)
    (findall_from prev skip l).
Proof.
  revert prev skip.
  induction l as [| a l IH]; intros prev skip; cbn [findall_from]; [constructor |].
  assert (Htail : forall p k,
             Forall (fun w => (3 <= length w)%nat
                              /\ Forall (fun c => is_ascii_letter c = true /\ In c (a :: l)) w)
               (findall_from p k l)).
  { intros p k. eapply List.Forall_impl; [| apply (IH p k)].
    intros w [Hlen Hw]. split; [exact Hlen |].
    eapply List.Forall_impl; [| exact Hw].
    intros c [Hc Hin]. split; [exact Hc | now right]. }
  destruct skip as [| k]; [| apply Htail].
  destruct (match_alpha3 prev (a :: l)) as [w |] eqn:M; [| apply Htail].
  constructor; [| apply Htail].
  apply match_alpha3_spec in M as [-> Hlen].
  split; [exact Hlen | apply letter_run_letters].
Qed.

Lemma lower_char_letter (c : ascii) :
  is_ascii_letter (lower_char c) = true -> Spec.is_lower_letter (lower_char c) = true.
Proof.
  destruct c as [[] [] [] [] [] [] [] []]; vm_compute; intros H; exact H || reflexivity.
Qed.

Lemma chars_lower (s : string) : chars (lower s) = List.map lower_char (chars s).
Proof. unfold lower, chars, join_chars. apply list_ascii_of_string_of_list_ascii. Qed.

(** The tokens are lowercase alphabetic, of length 3 at least, and none
    is a common word. *)
Lemma tokens_are_lowercase_words (doc w : string) :
  w ∈ Spec.tokens doc ->
  Spec.lowercase_word w /\ w ∉ ProductionCareerToolkit.common_words.
Proof.
  unfold Spec.tokens. rewrite elem_of_difference, elem_of_list_to_set.
  intros [Hw Hcommon]. split; [| exact Hcommon].
  apply list_elem_of_In in Hw. unfold findall_alpha3 in Hw.
  apply List.in_map_iff in Hw as (run & <- & Hrun).
  pose proof (findall_from_spec None 0 (chars (lower doc))) as Hall.
  rewrite List.Forall_forall in Hall. destruct (Hall run Hrun) as [Hlen Hletters].
  unfold Spec.lowercase_word, chars at 1 2, join_chars.
  rewrite list_ascii_of_string_of_list_ascii. split; [exact Hlen |].
  eapply List.Forall_impl; [| exact Hletters].
  intros c [Hc Hin]. rewrite chars_lower in Hin.
  apply List.in_map_iff in Hin as (c0 & <- & _).
  now apply lower_char_letter.
Qed.

(** Taking the common words out of the resume tokens too changes
    nothing: the job tokens hold none of them. *)
Lemma overlap_without_common (J R C : gset string) :
  (J ∖ C) ∩ R = (J ∖ C) ∩ (R ∖ C).
Proof.
  apply set_eq. intros x.
  rewrite !elem_of_intersection, !elem_of_difference. tauto.
Qed.

(** The keyword match of the code is the raw overlap ratio of the
    specification, as a percentage. *)
Lemma calculate_keyword_match_spec (resume_text job_description : string) :
  exists k,
    ProductionCareerToolkit.calculate_keyword_match resume_text job_description = Return k
    /\ k == 100 * Spec.raw_overlap_ratio resume_text job_description.
Proof.
  unfold ProductionCareerToolkit.calculate_keyword_match, Spec.raw_overlap_ratio, Spec.tokens.
  rewrite <- overlap_without_common.
  set (J := list_to_set (findall_alpha3 (lower job_description))
            ∖ ProductionCareerToolkit.common_words).
  set (R := list_to_set (findall_alpha3 (lower resume_text)) : gset string).
  destruct (size J =? 0)%nat eqn:E.
  - exists 0. split; [reflexivity | ring].
  - apply Nat.eqb_neq in E.
    assert (Hpos : 0 < num (size J)) by (apply num_pos; lia).
    unfold truediv.
    destruct (Qeq_bool (num (size J)) 0) eqn:Ez.
    + apply Qeq_bool_iff in Ez. lra.
    + cbn [bind]. eexists. split; [reflexivity | ring].
Qed.

(** C3, as the code has it. The ATS score of a report of
    [calculate_ats_score_advanced] is 0.6 times the TF-IDF similarity
    percentage plus 0.4 times the keyword match, and the keyword match is
    100 times the raw overlap ratio [|job ∩ resume| / |job|] (0 without
    job tokens) of the token sets: lowercase alphabetic tokens of length 3
    at least, the common words left out. *)
Theorem composite_ats_score (resume_file : option File) (job_description : string)
    (r : ProductionCareerToolkit.AtsReport) (o : option string) :
  ProductionCareerToolkit.calculate_ats_score_advanced resume_file job_description
  = Return (Report r, o) ->
  exists f,
    let resume_text := ProductionCareerToolkit.extract_text_from_pdf (name f) in
    let overlap := Spec.raw_overlap_ratio resume_text job_description in
    resume_file = Some f
    /\ ProductionCareerToolkit.calculate_tfidf_similarity resume_text job_description
       = Return (ProductionCareerToolkit.tfidf_score r)
    /\ ProductionCareerToolkit.keyword_score r == 100 * overlap
    /\ ProductionCareerToolkit.ats_score r
       == 0.6 * ProductionCareerToolkit.tfidf_score r + 0.4 * (100 * overlap)
    /\ (forall doc w, w ∈ Spec.tokens doc ->
                      Spec.lowercase_word w
                      /\ w ∉ ProductionCareerToolkit.common_words).
Proof.
  unfold ProductionCareerToolkit.calculate_ats_score_advanced.
  destruct resume_file as [f |]; [| discriminate].
  destruct (negb (truthy (strip job_description))); [discriminate |].
  set (resume_text := ProductionCareerToolkit.extract_text_from_pdf (name f)).
  destruct (negb (truthy resume_text)); [cbn; discriminate |].
  destruct (ProductionCareerToolkit.calculate_tfidf_similarity resume_text job_description)
    as [tfidf |] eqn:Ht; cbn [bind try_except]; [| discriminate].
  destruct (calculate_keyword_match_spec resume_text job_description) as (k & Hk & Hratio).
  rewrite Hk. cbn [bind try_except].
  destruct (generate_ats_ai_analysis _ _ _) as [ai |]; cbn [bind try_except];
    [| discriminate].
  intros [= <- _]. exists f. cbv zeta.
  unfold ProductionCareerToolkit.create_ats_report.
  cbn [ProductionCareerToolkit.ats_score ProductionCareerToolkit.tfidf_score
       ProductionCareerToolkit.keyword_score].
  split; [reflexivity |]. split; [exact Ht |]. split; [exact Hratio |].
  split; [rewrite Hratio; subst resume_text; ring | apply tokens_are_lowercase_words].
Qed.

End CompositeScore.

Section CompositeScoreSamples.

Import Py Samples.
Local Open Scope Q_scope.

Lemma composite_ats_score_witness :
  exists r,
    ProductionCareerToolkit.calculate_ats_score_advanced
      (sk := python_run) (sv := one_resume "python docker") (Some resume_pdf) "python sql"
    = Return (Report r, None)
    /\ exists f,
      let resume_text :=
        ProductionCareerToolkit.extract_text_from_pdf (sv := one_resume "python docker")
          (name f) in
      let overlap := Spec.raw_overlap_ratio resume_text "python sql" in
      Some resume_pdf = Some f
      /\ ProductionCareerToolkit.calculate_tfidf_similarity (sk := python_run)
           resume_text "python sql"
         = Return (ProductionCareerToolkit.tfidf_score r)
      /\ ProductionCareerToolkit.keyword_score r == 100 * overlap
      /\ ProductionCareerToolkit.ats_score r
         == 0.6 * ProductionCareerToolkit.tfidf_score r + 0.4 * (100 * overlap)
      /\ (forall doc w, w ∈ Spec.tokens doc ->
                        Spec.lowercase_word w
                        /\ w ∉ ProductionCareerToolkit.common_words).
Proof.
  eexists. split; [vm_compute; reflexivity |].
  apply (composite_ats_score (sk := python_run) (sv := one_resume "python docker")
           (Some resume_pdf) "python sql" _ None).
  vm_compute. reflexivity.
Defined.

(** Against C3 as stated: on the resume "python docker" and the job
    description "python sql", with a similarity of 100/9, the raw overlap
    ratio is one half and the code scores 0.6 * 100/9 + 0.4 * 50 = 80/3,
    not 0.6 * 100/9 + 0.4 * 0.5. *)
Lemma composite_weighs_the_percentage :
  exists r,
    ProductionCareerToolkit.calculate_ats_score_advanced
      (sk := python_run) (sv := one_resume "python docker") (Some resume_pdf) "python sql"
    = Return (Report r, None)
    /\ ProductionCareerToolkit.tfidf_score r == 100 / 9
    /\ Spec.raw_overlap_ratio "python docker" "python sql" == 0.5
    /\ ProductionCareerToolkit.ats_score r == 80 / 3
    /\ ~ ProductionCareerToolkit.ats_score r
         == 0.6 * ProductionCareerToolkit.tfidf_score r
            + 0.4 * Spec.raw_overlap_ratio "python docker" "python sql".
Proof.
  eexists. split; [vm_compute; reflexivity |].
  split; [reflexivity |]. split; [vm_compute; reflexivity |]. split; [reflexivity |].
  intros H. vm_compute in H. discriminate H.
Qed.

(** The tokens are whole words: a run of letters that touches a digit or
    an underscore is no token. *)
Example findall_alpha3_whole_words :
  findall_alpha3 (lower "SQL2019 and Python3, aws_s3 Docker go") = ["and"; "docker"].
Proof. reflexivity. Qed.

End CompositeScoreSamples.

(* ================================================================== *)
(** * The scores of the other reports *)
(* ================================================================== *)

Section OtherScores.

Import Py PyMore.
Local Open Scope Q_scope.

Lemma max_range (b : Q) : b <= 15 -> 0 <= max 0 b /\ max 0 b <= 15.
Proof. intros Hb. destruct (max_spec 0 b) as [[H ->] | [H ->]]; lra. Qed.

Lemma min_range (cap x : Q) : 0 <= cap -> 0 <= x -> 0 <= min cap x /\ min cap x <= cap.
Proof. intros Hc Hx. split; [now apply min_glb | apply min_le_l]. Qed.

Lemma int_clamped (x : Q) : 0 <= x -> (0 <= int (min 100 x) <= 100)%Z.
Proof.
  intros Hx.
  destruct (min_range 100 x ltac:(lra) Hx) as [Hlo Hhi].
  pose proof (int_mono 0 (min 100 x) ltac:(lra) Hlo) as H0.
  pose proof (int_mono (min 100 x) 100 Hlo Hhi) as H100.
  assert (E0 : int 0 = 0%Z) by reflexivity.
  assert (E100 : int 100 = 100%Z) by reflexivity.
  lia.
Qed.

Lemma scaled_len_nonneg {A} (l : list A) (k : Q) : 0 <= k -> 0 <= len l * k.
Proof. intros Hk. apply Qmult_le_0_compat; [apply num_nonneg | exact Hk]. Qed.

Lemma fraction_of_len_nonneg {A} (l : list A) (d k : Q) :
  0 < d -> 0 <= k -> 0 <= len l / d * k.
Proof.
  intros Hd Hk. apply Qmult_le_0_compat; [| exact Hk].
  apply Qle_shift_div_l; [exact Hd |]. pose proof (num_nonneg (length l)). unfold len. lra.
Qed.

Ltac split_ifs :=
  repeat match goal with
    | |- context [if ?b then _ else _] => destruct b
    end.

(** X1. The comprehensive score of the production toolkit is an integer
    between 0 and 100; the empty analysis record scores 0 and a record
    that meets every criterion scores 100. *)
Theorem calculate_comprehensive_score_range :
  (forall a : ProductionCareerToolkit.Analysis,
      (0 <= ProductionScores.calculate_comprehensive_score a <= 100)%Z)
  /\ ProductionScores.calculate_comprehensive_score Samples.empty_production_analysis = 0%Z
  /\ ProductionScores.calculate_comprehensive_score Advice.full_production_analysis = 100%Z.
Proof.
  split; [| split; reflexivity].
  intros a. unfold ProductionScores.calculate_comprehensive_score.
  pose proof (fraction_of_len_nonneg (ProductionCareerToolkit.sections_found a) 5 30
                ltac:(lra) ltac:(lra)) as Hs.
  pose proof (scaled_len_nonneg (ProductionCareerToolkit.skills_found a) 2 ltac:(lra)) as Hk.
  apply (min_range 30) in Hs; [| lra]. apply (min_range 20) in Hk; [| lra].
  apply int_clamped.
  unfold ge. split_ifs; lra.
Qed.

End OtherScores.

Section ScoreBudgets.

Import Py PyMore.
Local Open Scope Q_scope.

Ltac run_scores :=
  cbv [CareerToolkit.calculate_detailed_scores
       ProductionCareerToolkit.calculate_detailed_perfection_scores
       setitem lookup bind values sum
       List.map fold_left fst snd
       String.eqb Ascii.eqb Bool.eqb].

Ltac split_ifs :=
  repeat match goal with
    | |- context [if ?b then _ else _] => destruct b
    end.

(** X2. The detailed scores of [calculate_detailed_scores] stay within
    their budgets: structure and content at most 25, keywords at most 20,
    formatting 10 or 15, grammar between 0 and 15; the overall score lies
    between 10 and 100. *)
Theorem detailed_scores_within_budgets (a : CareerToolkit.Analysis) (resume_text : string) :
  exists structure content keywords formatting grammar overall,
    CareerToolkit.calculate_detailed_scores a resume_text
    = Return [("structure", structure); ("content", content); ("keywords", keywords);
              ("formatting", formatting); ("grammar", grammar); ("overall", overall)]
    /\ (0 <= structure /\ structure <= 25)
    /\ (0 <= content /\ content <= 25)
    /\ (0 <= keywords /\ keywords <= 20)
    /\ (formatting == 10 \/ formatting == 15)
    /\ (0 <= grammar /\ grammar <= 15)
    /\ (10 <= overall /\ overall <= 100).
Proof.
  run_scores. do 6 eexists. split; [reflexivity |].
  pose proof (fraction_of_len_nonneg (CareerToolkit.sections_found a)
                (len ["experience"; "education"; "skills"; "summary"]) 25
                ltac:(reflexivity) ltac:(lra)) as Hs.
  pose proof (scaled_len_nonneg (CareerToolkit.skills_found a) 2 ltac:(lra)) as Hk.
  pose proof (scaled_len_nonneg (CareerToolkit.grammar_issues a) 3 ltac:(lra)) as Hg.
  apply (min_range 25) in Hs; [| lra]. apply (min_range 20) in Hk; [| lra].
  assert (Hg' : 15 - len (CareerToolkit.grammar_issues a) * 3 <= 15) by lra.
  apply max_range in Hg'.
  split; [exact Hs |].
  split; [split_ifs; lra |].
  split; [exact Hk |].
  split; [split_ifs; [left | right]; ring |].
  split; [exact Hg' |].
  split_ifs; lra.
Qed.

(** X3. The perfection scores of the production toolkit stay within
    their budgets: structure and content at most 25, keywords at most 20,
    formatting and professionalism 10 or 15; the overall score lies
    between 20 and 100. *)
Theorem perfection_scores_within_budgets
    (a : ProductionCareerToolkit.Analysis) (resume_text : string) :
  exists structure content keywords formatting professionalism overall,
    ProductionCareerToolkit.calculate_detailed_perfection_scores a resume_text
    = Return [("structure", structure); ("content", content); ("keywords", keywords);
              ("formatting", formatting); ("professionalism", professionalism);
              ("overall", overall)]
    /\ (0 <= structure /\ structure <= 25)
    /\ (0 <= content /\ content <= 25)
    /\ (0 <= keywords /\ keywords <= 20)
    /\ (formatting == 10 \/ formatting == 15)
    /\ (professionalism == 10 \/ professionalism == 15)
    /\ (20 <= overall /\ overall <= 100).
Proof.
  run_scores. do 6 eexists. split; [reflexivity |].
  pose proof (scaled_len_nonneg (ProductionCareerToolkit.sections_found a) 5 ltac:(lra)) as Hs.
  pose proof (scaled_len_nonneg (ProductionCareerToolkit.skills_found a) 2 ltac:(lra)) as Hk.
  pose proof (num_nonneg (ProductionCareerToolkit.action_verbs a)) as Hv.
  pose proof (num_nonneg (ProductionCareerToolkit.quantified_achievements a)) as Hq.
  assert (Hc : 0 <= num (ProductionCareerToolkit.action_verbs a) * 2
                    + num (ProductionCareerToolkit.quantified_achievements a) * 3) by lra.
  apply (min_range 25) in Hs; [| lra]. apply (min_range 20) in Hk; [| lra].
  apply (min_range 25) in Hc; [| lra].
  assert (H10 : min 15 10 == 10) by reflexivity.
  assert (H15 : min 15 15 == 15) by reflexivity.
  split; [exact Hs |]. split; [exact Hc |]. split; [exact Hk |].
  split; [split_ifs; [right | left]; assumption |].
  split; [split_ifs; [right | left]; assumption |].
  split_ifs; lra.
Qed.

End ScoreBudgets.

Section OptimizationPriority.

Import Py PyMore.
Local Open Scope Q_scope.

Lemma lt_spec (a b : Q) : lt a b = true <-> a < b.
Proof.
  unfold lt. rewrite Bool.negb_true_iff. split.
  - intros H. apply Qnot_le_lt. intros Hle. apply Qle_bool_iff in Hle. congruence.
  - intros H. destruct (Qle_bool b a) eqn:E; [| reflexivity].
    apply Qle_bool_iff in E. lra.
Qed.

Lemma min_by_in {A} (key : A -> Q) (l : list A) (x : A) :
  In (min_by key x l) (x :: l).
Proof.
  revert x. induction l as [| y l IH]; intros x; simpl.
  - left. reflexivity.
  - destruct (lt (key y) (key x)).
    + right. apply IH.
    + destruct (IH x) as [H | H]; [left; exact H | right; right; exact H].
Qed.

Lemma min_by_le {A} (key : A -> Q) (l : list A) (x y : A) :
  In y (x :: l) -> key (min_by key x l) <= key y.
Proof.
  revert x y. induction l as [| z l IH]; intros x y Hy; simpl.
  - destruct Hy as [-> | []]. lra.
  - destruct (lt (key z) (key x)) eqn:E.
    + apply lt_spec in E.
      pose proof (IH z z (or_introl eq_refl)) as Hz.
      destruct Hy as [-> | [-> | Hy]].
      * lra.
      * exact Hz.
      * apply IH. right. exact Hy.
    + assert (Hxz : key x <= key z).
      { destruct (Qlt_le_dec (key z) (key x)) as [H | H]; [| exact H].
        apply lt_spec in H. congruence. }
      pose proof (IH x x (or_introl eq_refl)) as Hx.
      destruct Hy as [-> | [-> | Hy]].
      * exact Hx.
      * lra.
      * apply IH. right. exact Hy.
Qed.

(** X4. On the scores of [calculate_detailed_perfection_scores],
    [get_optimization_priority] returns the advice of a sub-score that no
    other sub-score is below; 'overall' is never chosen, so the default
    advice 'Continue optimizing all areas' is never given. *)
Theorem optimization_priority_is_lowest
    (a : ProductionCareerToolkit.Analysis) (resume_text : string) :
  exists scores key value advice,
    ProductionCareerToolkit.calculate_detailed_perfection_scores a resume_text
    = Return scores
    /\ ProductionScores.get_optimization_priority scores = Return advice
    /\ In (key, value) scores
    /\ key <> "overall"
    /\ dict_get ProductionScores.priorities key = Some advice
    /\ (forall k v, In (k, v) scores -> k <> "overall" -> value <= v)
    /\ advice <> "Continue optimizing all areas".
Proof.
  cbv [ProductionCareerToolkit.calculate_detailed_perfection_scores
       setitem lookup bind values sum List.map fold_left fst snd
       String.eqb Ascii.eqb Bool.eqb].
  pose proof (scaled_len_nonneg (ProductionCareerToolkit.sections_found a) 5 ltac:(lra)) as Hs.
  apply (min_range 25) in Hs; [| lra].
  match goal with
  | |- exists scores key value advice, Return (?first :: ?rest) = Return scores /\ _ =>
      set (item := first); set (items := rest)
  end.
  pose proof (min_by_in ProductionScores.priority_key items item) as Hin.
  pose proof (min_by_le ProductionScores.priority_key items item) as Hle.
  exists (item :: items).
  unfold ProductionScores.get_optimization_priority.
  remember (min_by ProductionScores.priority_key _ _) as m eqn:Em. clear Em.
  assert (Hover : forall k v, k <> "overall" -> ProductionScores.priority_key (k, v) = v).
  { intros k v Hk. unfold ProductionScores.priority_key. cbn [fst snd].
    destruct (String.eqb_spec k "overall"); [contradiction | reflexivity]. }
  assert (Hall : forall k v, In (k, v) (item :: items) -> k <> "overall" ->
                             ProductionScores.priority_key m <= v).
  { intros k v Hkv Hk. rewrite <- (Hover k v Hk). apply Hle. exact Hkv. }
  subst item items.
  clear Hle.
  destruct Hin as [<- | [<- | [<- | [<- | [<- | [<- | []]]]]]].
  6: { exfalso.
       specialize (Hall "structure" _ (or_introl eq_refl) ltac:(discriminate)).
       change (ProductionScores.priority_key ("overall", _)) with 100 in Hall.
       lra. }
  all: match type of Hall with
       | context [ProductionScores.priority_key (?k, ?v)] => exists k, v
       end;
    eexists; cbn [fst];
    (split; [reflexivity |]);
    (split; [reflexivity |]);
    (split; [simpl; tauto |]);
    (split; [discriminate |]);
    (split; [reflexivity |]);
    (split; [| discriminate]);
    intros k v Hkv Hk; specialize (Hall k v Hkv Hk);
    rewrite Hover in Hall by discriminate; exact Hall.
Qed.

End OptimizationPriority.

(* ================================================================== *)
(** * Suggestions and recommendations *)
(* ================================================================== *)

Section Recommendations.

Import Py PyMore.
Local Open Scope Q_scope.

(** Without a suggestion, nothing is to improve. *)
Lemma no_suggestion_sound (a : CareerToolkit.Analysis) :
  CareerAnalysis.generate_improvement_suggestions a = [] -> Advice.nothing_to_improve a.
Proof.
  unfold CareerAnalysis.generate_improvement_suggestions, Advice.nothing_to_improve.
  intros H. cbv zeta in H.
  destruct (CareerToolkit.grammar_issues a) as [| issue issues];
    [| apply List.app_eq_nil in H; destruct H as [_ H]; discriminate H].
  repeat match type of H with
    | (if ?c then _ else _) = [] =>
        destruct c eqn:?;
        [apply List.app_eq_nil in H; destruct H as [_ H]; discriminate H |]
    end.
  repeat match goal with
    | E : (_ <? _)%nat = false |- _ => apply Nat.ltb_ge in E
    | E : negb _ = false |- _ => apply Bool.negb_false_iff in E
    end.
  destruct (CareerToolkit.sections_missing a); cbn [length] in *;
    repeat split; solve [lia | reflexivity | assumption].
Qed.

(** X5. [generate_improvement_suggestions] makes no suggestion exactly
    for an analysis record with no missing section, 200 to 800 words,
    contact information, at least five skills, at least five action
    verbs, at least three quantified achievements and no grammar issue. *)
Theorem no_suggestion_iff_nothing_to_improve (a : CareerToolkit.Analysis) :
  CareerAnalysis.generate_improvement_suggestions a = []
  <-> Advice.nothing_to_improve a.
Proof.
  split; [apply no_suggestion_sound |].
  intros (H1 & [H2 H2'] & H3 & H4 & H5 & H6 & H7).
  unfold CareerAnalysis.generate_improvement_suggestions.
  rewrite H1, H3, H7. change (0 <? length (@nil string))%nat with false. cbn [negb].
  rewrite (proj2 (Nat.ltb_ge _ _) H2), (proj2 (Nat.ltb_ge _ _) H4),
    (proj2 (Nat.ltb_ge _ _) H5), (proj2 (Nat.ltb_ge _ _) H6).
  assert (E : (800 <? CareerToolkit.word_count a)%nat = false) by (apply Nat.ltb_ge; lia).
  rewrite E. reflexivity.
Qed.

Lemma test_false (b : bool) (P : Prop) : (b = true <-> P) -> b = false -> ~ P.
Proof. intros H E HP. apply H in HP. congruence. Qed.

Lemma structure_low (n : nat) :
  lt (min 25 (num n / len ["experience"; "education"; "skills"; "summary"] * 25)) 20 = true
  <-> (n <= 3)%nat.
Proof.
  rewrite lt_spec.
  assert (E : num n / len ["experience"; "education"; "skills"; "summary"] * 25
              == num n * (25 # 4)).
  { change (len ["experience"; "education"; "skills"; "summary"]) with 4. field. }
  rewrite E. clear E.
  destruct (Nat.le_gt_cases n 3) as [H | H].
  - pose proof (num_mono _ _ H) as Hq. change (num 3) with 3 in Hq.
    pose proof (min_le_r 25 (num n * (25 # 4))). split; [lia | lra].
  - split; [| lia]. intros Hlt. exfalso.
    pose proof (num_mono 4 n H) as Hq. change (num 4) with 4 in Hq.
    destruct (min_spec 25 (num n * (25 # 4))) as [[_ E] | [_ E]]; rewrite E in Hlt; lra.
Qed.

Lemma content_low (a : CareerToolkit.Analysis) :
  lt (let content_score := 0 in
      let content_score :=
        if (300 <=? CareerToolkit.word_count a)%nat
        then content_score + 5 else content_score in
      let content_score :=
        if (5 <=? CareerToolkit.action_verbs a)%nat
        then content_score + 5 else content_score in
      let content_score :=
        if (3 <=? CareerToolkit.quantified_achievements a)%nat
        then content_score + 5 else content_score in
      let content_score :=
        if (5 <=? length (CareerToolkit.skills_found a))%nat
        then content_score + 5 else content_score in
      if CareerToolkit.contact_info a then content_score + 5 else content_score) 20 = true
  <-> (Advice.criteria_met a < 4)%nat.
Proof.
  unfold Advice.criteria_met.
  destruct (300 <=? CareerToolkit.word_count a)%nat,
           (5 <=? CareerToolkit.action_verbs a)%nat,
           (3 <=? CareerToolkit.quantified_achievements a)%nat,
           (5 <=? length (CareerToolkit.skills_found a))%nat,
           (CareerToolkit.contact_info a);
    vm_compute; split; intros H; first [reflexivity | discriminate H | lia | exact H | idtac].
  all: try (exfalso; revert H; clear; intros H; repeat (apply le_S_n in H); inversion H).
Qed.

Lemma keywords_low (n : nat) : lt (min 20 (num n * 2)) 15 = true <-> (n <= 7)%nat.
Proof.
  rewrite lt_spec.
  destruct (Nat.le_gt_cases n 7) as [H | H].
  - pose proof (num_mono _ _ H) as Hq. change (num 7) with 7 in Hq.
    pose proof (min_le_r 20 (num n * 2)). split; [lia | lra].
  - split; [| lia]. intros Hlt. exfalso.
    pose proof (num_mono 8 n H) as Hq. change (num 8) with 8 in Hq.
    destruct (min_spec 20 (num n * 2)) as [[_ E] | [_ E]]; rewrite E in Hlt; lra.
Qed.

Lemma formatting_low (n : nat) :
  lt (if (n <? 200)%nat then 15 - 5 else 15) 12 = true <-> (n < 200)%nat.
Proof.
  rewrite <- Nat.ltb_lt. destruct (n <? 200)%nat; vm_compute; split; congruence.
Qed.

Lemma grammar_low (n : nat) : lt (max 0 (15 - num n * 3)) 12 = true <-> (2 <= n)%nat.
Proof.
  rewrite lt_spec.
  destruct (Nat.le_gt_cases 2 n) as [H | H].
  - pose proof (num_mono _ _ H) as Hq. change (num 2) with 2 in Hq. split; [lia |]. intros _.
    destruct (max_spec 0 (15 - num n * 3)) as [[_ E] | [_ E]]; rewrite E; lra.
  - split; [| lia]. intros Hlt. exfalso.
    assert (Hn : (n <= 1)%nat) by lia.
    apply num_mono in Hn. change (num 1) with 1 in Hn.
    destruct (max_spec 0 (15 - num n * 3)) as [[? E] | [? E]]; rewrite E in Hlt; lra.
Qed.

(** X6. The recommendations made on the detailed scores of an analysis
    record: the structure advice is given when at most three sections
    were found, the content advice when fewer than four of the five
    content criteria are met, the keywords advice for at most seven
    skills, the formatting advice for a text of fewer than 200 words, the
    grammar advice for two or more grammar issues; nothing else is
    recommended and no lookup fails. *)
Theorem detailed_recommendations_criteria (a : CareerToolkit.Analysis) (resume_text : string) :
  exists scores recommendations,
    CareerToolkit.calculate_detailed_scores a resume_text = Return scores
    /\ CareerAnalysis.generate_detailed_recommendations scores a = Return recommendations
    /\ (In Advice.structure_advice recommendations
        <-> (length (CareerToolkit.sections_found a) <= 3)%nat)
    /\ (In Advice.content_advice recommendations <-> (Advice.criteria_met a < 4)%nat)
    /\ (In Advice.keywords_advice recommendations
        <-> (length (CareerToolkit.skills_found a) <= 7)%nat)
    /\ (In Advice.formatting_advice recommendations
        <-> (length (split resume_text) < 200)%nat)
    /\ (In Advice.grammar_advice recommendations
        <-> (2 <= length (CareerToolkit.grammar_issues a))%nat)
    /\ (forall r, In r recommendations ->
          In r [Advice.structure_advice; Advice.content_advice; Advice.keywords_advice;
                Advice.formatting_advice; Advice.grammar_advice]).
Proof.
  cbv [CareerToolkit.calculate_detailed_scores
       CareerAnalysis.generate_detailed_recommendations
       setitem lookup bind values sum List.map fold_left fst snd
       String.eqb Ascii.eqb Bool.eqb
       Advice.structure_advice Advice.content_advice Advice.keywords_advice
       Advice.formatting_advice Advice.grammar_advice].
  do 2 eexists. split; [reflexivity |]. split; [reflexivity |].
  destruct (lt (min 25 _) 20) eqn:E1;
    [apply structure_low in E1 | apply (test_false _ _ (structure_low _)) in E1].
  all: destruct (lt (if CareerToolkit.contact_info a then _ else _) 20) eqn:E2;
    [apply (content_low a) in E2 | apply (test_false _ _ (content_low a)) in E2].
  all: destruct (lt (min 20 _) 15) eqn:E3;
    [apply keywords_low in E3 | apply (test_false _ _ (keywords_low _)) in E3].
  all: destruct (lt (if (_ <? 200)%nat then _ else _) 12) eqn:E4;
    [apply formatting_low in E4 | apply (test_false _ _ (formatting_low _)) in E4].
  all: destruct (lt (max 0 _) 12) eqn:E5;
    [apply grammar_low in E5 | apply (test_false _ _ (grammar_low _)) in E5].
  all: cbn [app In].
  all: repeat split; intros; try assumption; try contradiction;
    try solve [intuition (try discriminate; try tauto)].
Qed.

End Recommendations.

(* ================================================================== *)
(** * The text of the resume and the perfection score *)
(* ================================================================== *)

Section PdfText.

Import Py PyMore.
Local Open Scope Q_scope.

Context {sv : Services}.

Lemma truthy_false (s : string) : truthy s = false <-> s = "".
Proof. destruct s; simpl; split; congruence. Qed.

Lemma append_nil (s t : string) : s +:+ t = "" -> s = "" /\ t = "".
Proof. destruct s; simpl; [tauto | discriminate]. Qed.

(** The loop over the pages leaves the text empty just when it was empty
    and no page has text. *)
Lemma pages_loop_empty (pages : list (option string)) (text : string) :
  fold_left
    (fun text page_text =>
       match page_text with
       | Some page_text =>
           if truthy page_text then text +:+ page_text +:+ String "010" ""
           else text
       | None => text
       end)
    pages text = ""
  <-> text = "" /\ (forall page_text, In (Some page_text) pages -> page_text = "").
Proof.
  revert text. induction pages as [| page pages IH]; intros text; cbn [fold_left].
  - split; [intros H; split; [exact H | intros ? []] | tauto].
  - rewrite IH. destruct page as [page_text |].
    + destruct (truthy page_text) eqn:E.
      * split.
        -- intros [H _]. apply append_nil in H. destruct H as [_ H].
           apply append_nil in H. destruct H as [-> _]. discriminate E.
        -- intros [_ H]. rewrite (H page_text (or_introl eq_refl)) in E. discriminate E.
      * apply truthy_false in E. subst page_text.
        split; intros [H1 H2]; (split; [exact H1 |]).
        -- intros p [Hp | Hp]; [congruence | exact (H2 p Hp)].
        -- intros p Hp. apply H2. right. exact Hp.
    + split; intros [H1 H2]; (split; [exact H1 |]).
      * intros p [Hp | Hp]; [discriminate | exact (H2 p Hp)].
      * intros p Hp. apply H2. right. exact Hp.
Qed.

(** X7. [extract_text_from_pdf] returns the empty text exactly when the
    file cannot be read or none of its pages has text; an exception of
    the read is never passed on. *)
Theorem extract_text_empty_iff (pdf_path : string) :
  CareerToolkit.extract_text_from_pdf pdf_path = ""
  <-> match pdf_pages pdf_path with
      | Raise _ => True
      | Return pages => forall page_text, In (Some page_text) pages -> page_text = ""
      end.
Proof.
  unfold CareerToolkit.extract_text_from_pdf.
  destruct (pdf_pages pdf_path) as [pages | e]; [| tauto].
  rewrite pages_loop_empty. tauto.
Qed.

End PdfText.

Section PerfectionScore.

Import Py PyMore.
Local Open Scope Q_scope.

Context {sv : Services} {re : Regex} {so : SetOrder}.

(** The dictionary of [calculate_detailed_scores] has the six keys, and
    an overall score between 10 and 100. *)
Lemma detailed_scores_lookups (a : CareerToolkit.Analysis) (resume_text : string) :
  exists scores overall,
    CareerToolkit.calculate_detailed_scores a resume_text = Return scores
    /\ lookup scores "overall" = Return overall
    /\ (10 <= overall /\ overall <= 100)
    /\ (forall key, In key ["structure"; "content"; "keywords"; "formatting"; "grammar"] ->
          exists value, lookup scores key = Return value).
Proof.
  cbv [CareerToolkit.calculate_detailed_scores
       setitem lookup bind values sum List.map fold_left fst snd
       String.eqb Ascii.eqb Bool.eqb].
  do 2 eexists. split; [reflexivity |]. split; [reflexivity |].
  pose proof (fraction_of_len_nonneg (CareerToolkit.sections_found a)
                (len ["experience"; "education"; "skills"; "summary"]) 25
                ltac:(reflexivity) ltac:(lra)) as Hs.
  pose proof (scaled_len_nonneg (CareerToolkit.skills_found a) 2 ltac:(lra)) as Hk.
  assert (Hg : 15 - len (CareerToolkit.grammar_issues a) * 3 <= 15)
    by (pose proof (scaled_len_nonneg (CareerToolkit.grammar_issues a) 3 ltac:(lra)); lra).
  apply (min_range 25) in Hs; [| lra]. apply (min_range 20) in Hk; [| lra].
  apply max_range in Hg.
  split.
  - repeat match goal with
      | |- context [if ?b then _ else _] => destruct b
      end; lra.
  - intros key Hkey. cbn [In] in Hkey.
    destruct Hkey as [<- | [<- | [<- | [<- | [<- | []]]]]]; eexists; reflexivity.
Qed.

(** On a dictionary with the five sub-scores, the recommendations are
    returned, five at most. *)
Lemma generate_detailed_recommendations_returns (scores : dict) (a : CareerToolkit.Analysis) :
  (forall key, In key ["structure"; "content"; "keywords"; "formatting"; "grammar"] ->
     exists value, lookup scores key = Return value) ->
  exists recommendations,
    CareerAnalysis.generate_detailed_recommendations scores a = Return recommendations
    /\ (length recommendations <= 5)%nat.
Proof.
  intros Hkeys. unfold CareerAnalysis.generate_detailed_recommendations.
  destruct (Hkeys "structure") as [v1 ->]; [cbn; tauto |].
  destruct (Hkeys "content") as [v2 ->]; [cbn; tauto |].
  destruct (Hkeys "keywords") as [v3 ->]; [cbn; tauto |].
  destruct (Hkeys "formatting") as [v4 ->]; [cbn; tauto |].
  destruct (Hkeys "grammar") as [v5 ->]; [cbn; tauto |].
  cbn [bind]. eexists. split; [reflexivity |].
  destruct (lt v1 20), (lt v2 20), (lt v3 15), (lt v4 12), (lt v5 12);
    cbn [app length]; lia.
Qed.

(** X8. [calculate_perfection_score] never raises and never reports an
    error: it returns the request to upload a file, the message that no
    text could be extracted, or a report whose overall score lies between
    10 and 100, with the grade of that score and at most five
    recommendations. *)
Theorem calculate_perfection_score_outcome
    (self : CareerAnalysis.Toolkit) (resume_file : option File) :
  exists out,
    CareerAnalysis.calculate_perfection_score self resume_file = Return (out, None)
    /\ match resume_file with
       | None =>
           out = Text "Please upload a resume file to calculate the perfection score."
       | Some file =>
           if truthy (CareerToolkit.extract_text_from_pdf (name file))
           then exists report overall,
                  out = Report report
                  /\ lookup (CareerAnalysis.perfection_scores report) "overall"
                     = Return overall
                  /\ (10 <= overall /\ overall <= 100)
                  /\ CareerAnalysis.grade report = CareerAnalysis.grade_of overall
                  /\ (length (CareerAnalysis.recommendations report) <= 5)%nat
           else out = Text "Could not extract text from resume file."
       end.
Proof.
  unfold CareerAnalysis.calculate_perfection_score.
  destruct resume_file as [file |]; [| eexists; split; reflexivity].
  destruct (truthy (CareerToolkit.extract_text_from_pdf (name file))) eqn:Etext;
    cbn [negb]; [| eexists; split; reflexivity].
  destruct (detailed_scores_lookups
              (CareerAnalysis.perform_resume_analysis self
                 (CareerToolkit.extract_text_from_pdf (name file)))
              (CareerToolkit.extract_text_from_pdf (name file)))
    as (scores & overall & -> & Hoverall & Hrange & Hkeys).
  cbn [bind].
  destruct (generate_detailed_recommendations_returns scores
              (CareerAnalysis.perform_resume_analysis self
                 (CareerToolkit.extract_text_from_pdf (name file))) Hkeys)
    as (recommendations & -> & Hlen).
  cbn [bind].
  unfold CareerAnalysis.create_perfection_score_report.
  rewrite Hoverall.
  destruct (Hkeys "structure") as [v1 ->]; [cbn; tauto |].
  destruct (Hkeys "content") as [v2 ->]; [cbn; tauto |].
  destruct (Hkeys "keywords") as [v3 ->]; [cbn; tauto |].
  destruct (Hkeys "formatting") as [v4 ->]; [cbn; tauto |].
  destruct (Hkeys "grammar") as [v5 ->]; [cbn; tauto |].
  cbn [bind try_except]. eexists. split; [reflexivity |].
  eexists _, overall. split; [reflexivity |]. cbn [CareerAnalysis.perfection_scores
    CareerAnalysis.grade CareerAnalysis.recommendations].
  split; [exact Hoverall |]. split; [exact Hrange |]. split; [reflexivity | exact Hlen].
Qed.

End PerfectionScore.

(* ================================================================== *)
(** * The extremes of the keyword match *)
(* ================================================================== *)

Section KeywordMatch.

Import Py PyMore.
Local Open Scope Q_scope.

Lemma num_inj (n m : nat) : num n == num m -> n = m.
Proof. unfold num, Qeq. simpl. lia. Qed.

Lemma percentage_full (a b : Q) : 0 < b -> (a / b * 100 == 100 <-> a == b).
Proof.
  intros Hb. split; intros H.
  - assert (E : a == a / b * 100 * (b * (1 # 100))) by (field; lra).
    rewrite E, H. ring.
  - rewrite H. field. lra.
Qed.

Lemma percentage_null (a b : Q) : 0 < b -> (a / b * 100 == 0 <-> a == 0).
Proof.
  intros Hb. split; intros H.
  - assert (E : a == a / b * 100 * (b * (1 # 100))) by (field; lra).
    rewrite E, H. ring.
  - rewrite H. field. lra.
Qed.

(** X9. The keyword match of the production toolkit is 100 exactly when
    the job description has a keyword outside the common words and the
    resume has all of them; it is 0 exactly when the resume has none of
    them. *)
Theorem keyword_match_extremes (resume_text job_description : string) :
  let job_keywords : gset string :=
    list_to_set (findall_alpha3 (lower job_description))
    ∖ ProductionCareerToolkit.common_words in
  let resume_keywords : gset string :=
    list_to_set (findall_alpha3 (lower resume_text)) in
  exists m,
    ProductionCareerToolkit.calculate_keyword_match resume_text job_description = Return m
    /\ (m == 100 <-> job_keywords <> ∅ /\ job_keywords ⊆ resume_keywords)
    /\ (m == 0 <-> job_keywords ∩ resume_keywords = ∅).
Proof.
  intros J R. unfold ProductionCareerToolkit.calculate_keyword_match.
  fold J. fold R.
  destruct (size J =? 0)%nat eqn:E.
  - apply Nat.eqb_eq, size_empty_iff in E. apply leibniz_equiv in E.
    exists 0. split; [reflexivity |]. split.
    + split; [intros H; exfalso; revert H; apply Qlt_not_eq; reflexivity | tauto].
    + split; [| reflexivity]. intros _. rewrite E. apply set_eq. intros x.
      rewrite elem_of_intersection, elem_of_empty. tauto.
  - apply Nat.eqb_neq in E.
    assert (Hpos : 0 < num (size J)) by (apply num_pos; lia).
    unfold truediv.
    destruct (Qeq_bool (num (size J)) 0) eqn:Ez;
      [apply Qeq_bool_iff in Ez; lra |].
    cbn [bind]. eexists. split; [reflexivity |].
    rewrite (percentage_full _ _ Hpos), (percentage_null _ _ Hpos).
    assert (Hsub : J ∩ R ⊆ J) by (intros x; rewrite elem_of_intersection; tauto).
    split; split.
    + intros H. apply num_inj in H. split.
      * intros ->. apply E. apply size_empty.
      * assert (Heq : J ∩ R = J).
        { apply leibniz_equiv. apply set_subseteq_size_equiv; [exact Hsub | lia]. }
        intros x Hx. rewrite <- Heq in Hx. apply elem_of_intersection in Hx. tauto.
    + intros [_ H]. assert (Heq : J ∩ R = J).
      { apply set_eq. intros x. rewrite elem_of_intersection. specialize (H x). tauto. }
      rewrite Heq. reflexivity.
    + intros H. change 0 with (num 0) in H. apply num_inj in H.
      apply leibniz_equiv. apply size_empty_iff. exact H.
    + intros ->. rewrite size_empty. reflexivity.
Qed.

End KeywordMatch.

(* ================================================================== *)
(** * The job matcher *)
(* ================================================================== *)

Section JobMatcher.

Import Py PyMore.
Local Open Scope Q_scope.

Context {so : SetOrder}.

Lemma insert_by_perm {A} (key : A -> Q) (x : A) (l : list A) :
  Permutation (insert_by key x l) (x :: l).
Proof.
  induction l as [| y l IH]; cbn [insert_by]; [reflexivity |].
  destruct (Qle_bool (key y) (key x)); [reflexivity |].
  rewrite IH. apply perm_swap.
Qed.

Lemma sort_by_desc_perm {A} (key : A -> Q) (l : list A) :
  Permutation (sort_by_desc key l) l.
Proof.
  induction l as [| x l IH]; cbn [sort_by_desc fold_right]; [reflexivity |].
  fold (sort_by_desc key l). rewrite insert_by_perm, IH. reflexivity.
Qed.

Lemma insert_by_sorted {A} (key : A -> Q) (x : A) (l : list A) :
  StronglySorted (fun a b => key b <= key a) l ->
  StronglySorted (fun a b => key b <= key a) (insert_by key x l).
Proof.
  induction 1 as [| y l Hl IH Hy]; cbn [insert_by].
  - constructor; constructor.
  - destruct (Qle_bool (key y) (key x)) eqn:E.
    + apply Qle_bool_iff in E. constructor; [constructor; assumption |].
      constructor; [exact E |].
      eapply List.Forall_impl; [| exact Hy]. cbn. intros z Hz. lra.
    + assert (Hxy : key x <= key y).
      { destruct (Qlt_le_dec (key x) (key y)) as [H | H]; [lra |].
        apply Qle_bool_iff in H. congruence. }
      constructor; [exact IH |].
      apply (Permutation_Forall (x := x :: l)); [symmetry; apply insert_by_perm |].
      constructor; assumption.
Qed.

Lemma sort_by_desc_sorted {A} (key : A -> Q) (l : list A) :
  StronglySorted (fun a b => key b <= key a) (sort_by_desc key l).
Proof.
  induction l as [| x l IH]; cbn [sort_by_desc fold_right]; [constructor |].
  apply insert_by_sorted. exact IH.
Qed.

Lemma firstn_sorted {A} (R : A -> A -> Prop) (n : nat) (l : list A) :
  StronglySorted R l -> StronglySorted R (firstn n l).
Proof.
  intros H. revert n. induction H as [| x l Hl IH Hx]; intros [| n]; cbn [firstn];
    try constructor.
  - apply IH.
  - apply List.Forall_forall. intros y Hy.
    rewrite List.Forall_forall in Hx. apply Hx.
    apply (In_firstn _ _ _ Hy).
Qed.

Lemma size_shared_le (user_skills_list job_skills : list string) :
  (size (Matches.shared_skills user_skills_list job_skills) <= length job_skills)%nat.
Proof.
  unfold Matches.shared_skills.
  etransitivity; [| rewrite <- (length_map lower job_skills); apply size_list_to_set_le].
  apply subseteq_size. intros x. rewrite elem_of_intersection. tauto.
Qed.


Lemma skillless_cases (items : list (string * list string)) :
  Exists Matches.skillless items \/ Forall (fun item => ~ Matches.skillless item) items.
Proof.
  induction items as [| [job_title job_skills] items [IH | IH]].
  - right. constructor.
  - left. apply Exists_cons_tl. exact IH.
  - destruct job_skills as [| skill job_skills].
    + left. apply Exists_cons_hd. reflexivity.
    + right. constructor; [discriminate | exact IH].
Qed.

(** The loop stops on the first job without skills. *)
Lemma match_jobs_loop_raises (user_skills_list : list string)
    (items : list (string * list string)) (job_matches : list JobMatching.JobMatch) :
  Exists Matches.skillless items ->
  JobMatching.match_jobs_loop user_skills_list items job_matches
  = Raise Matches.division_by_zero.
Proof.
  revert job_matches.
  induction items as [| [job_title job_skills] items IH]; intros job_matches Hex.
  - inversion Hex.
  - cbn [JobMatching.match_jobs_loop].
    destruct job_skills as [| skill job_skills]; [reflexivity |].
    unfold truediv.
    destruct (Qeq_bool (len (List.map lower (skill :: job_skills))) 0) eqn:Ez.
    { apply Qeq_bool_iff in Ez. unfold len in Ez. change 0 with (num 0) in Ez.
      apply num_inj in Ez. discriminate Ez. }
    cbn [bind]. apply IH.
    inversion Hex as [? ? Hhead | ? ? Htail]; [discriminate Hhead | exact Htail].
Qed.

(** When every job has a skill, the loop adds an entry for each job that
    shares a skill with the user, and for no other. *)
Lemma match_jobs_loop_returns (user_skills_list : list string)
    (items : list (string * list string)) (job_matches : list JobMatching.JobMatch) :
  Forall (fun item => ~ Matches.skillless item) items ->
  exists entries,
    JobMatching.match_jobs_loop user_skills_list items job_matches
    = Return (job_matches ++ entries)
    /\ Forall
         (fun entry =>
            0 < JobMatching.match_percentage entry
            /\ JobMatching.match_percentage entry <= 100
            /\ exists item, In item items /\ Matches.entry_of user_skills_list item entry)
         entries
    /\ (forall item,
          In item items ->
          Matches.shared_skills user_skills_list (snd item) <> ∅ ->
          exists entry, In entry entries /\ Matches.entry_of user_skills_list item entry).
Proof.
  intros H. revert job_matches.
  induction H as [| [job_title job_skills] items Hhead Htail IH]; intros job_matches.
  - exists []. rewrite app_nil_r. split; [reflexivity |].
    split; [constructor | intros ? []].
  - cbn [JobMatching.match_jobs_loop].
    change (list_to_set user_skills_list ∩ list_to_set (List.map lower job_skills))
      with (Matches.shared_skills user_skills_list job_skills).
    change (list_to_set (List.map lower job_skills) ∖ list_to_set user_skills_list)
      with (Matches.lacking_skills user_skills_list job_skills).
    assert (Elen : len (List.map lower job_skills) = len job_skills)
      by (unfold len; rewrite length_map; reflexivity).
    rewrite Elen.
    assert (Hlen : 0 < len job_skills).
    { apply num_pos. destruct job_skills; [exfalso; apply Hhead; reflexivity | cbn; lia]. }
    unfold truediv.
    destruct (Qeq_bool (len job_skills) 0) eqn:Ez; [apply Qeq_bool_iff in Ez; lra |].
    cbn [bind].
    destruct (ratio_unit (num (size (Matches.shared_skills user_skills_list job_skills)))
                (len job_skills) (num_nonneg _)
                (num_mono _ _ (size_shared_le user_skills_list job_skills)) Hlen)
      as [Hlow Hhigh].
    set (ratio := num (size (Matches.shared_skills user_skills_list job_skills))
                  / len job_skills) in *.
    destruct (lt 0 (ratio * 100)) eqn:Elt.
    + apply lt_spec in Elt.
      match goal with
      | |- context [job_matches ++ [?e]] => set (entry := e)
      end.
      assert (Hentry : Matches.entry_of user_skills_list (job_title, job_skills) entry).
      { split; [reflexivity |]. split; [reflexivity |].
        split; apply iterate_perm. }
      destruct (IH (job_matches ++ [entry])) as (entries & -> & Hsound & Hcomplete).
      exists (entry :: entries). rewrite <- app_assoc. split; [reflexivity |]. split.
      * constructor.
        -- split; [exact Elt |]. split; [cbn; lra |].
           exists (job_title, job_skills). split; [left; reflexivity | exact Hentry].
        -- eapply List.Forall_impl; [| exact Hsound].
           intros e (H1 & H2 & item & Hin & He).
           split; [exact H1 |]. split; [exact H2 |].
           exists item. split; [right; exact Hin | exact He].
      * intros item [<- | Hin] Hne.
        -- exists entry. split; [left; reflexivity | exact Hentry].
        -- destruct (Hcomplete item Hin Hne) as (e & He1 & He2).
           exists e. split; [right; exact He1 | exact He2].
    + assert (Hzero : ~ 0 < ratio * 100).
      { intros Hpos. apply lt_spec in Hpos. congruence. }
      destruct (IH job_matches) as (entries & -> & Hsound & Hcomplete).
      exists entries. split; [reflexivity |]. split.
      * eapply List.Forall_impl; [| exact Hsound].
        intros e (H1 & H2 & item & Hin & He).
        split; [exact H1 |]. split; [exact H2 |].
        exists item. split; [right; exact Hin | exact He].
      * intros item [<- | Hin] Hne; [| exact (Hcomplete item Hin Hne)].
        exfalso. apply Hzero. cbn [snd] in Hne.
        assert (Hsz : size (Matches.shared_skills user_skills_list job_skills) <> 0%nat).
        { intros Hs. apply Hne. apply leibniz_equiv. apply size_empty_iff. exact Hs. }
        assert (Hsize : 0 < num (size (Matches.shared_skills user_skills_list job_skills)))
          by (apply num_pos; lia).
        assert (Hratio : 0 < ratio).
        { subst ratio. apply Qlt_shift_div_l; [exact Hlen | lra]. }
        lra.
Qed.


(** X10. On skills that are not blank, [match_jobs] answers 'Error
    matching jobs: division by zero' exactly when a job of the database
    has no skill; it never raises. *)
Theorem match_jobs_fails_iff (self : CareerAnalysis.Toolkit) (user_skills : string) :
  truthy (strip user_skills) = true ->
  (exists out, JobMatching.match_jobs self user_skills = Return (out, None))
  /\ (JobMatching.match_jobs self user_skills
      = Return (Text "Error matching jobs: division by zero", None)
      <-> Exists Matches.skillless (CareerAnalysis.job_database self)).
Proof.
  intros Hskills. unfold JobMatching.match_jobs. rewrite Hskills. cbn [negb].
  destruct (skillless_cases (CareerAnalysis.job_database self)) as [Hex | Hall].
  - rewrite (match_jobs_loop_raises _ _ _ Hex). cbn [bind try_except].
    split; [eexists; reflexivity |]. split; [intros _; exact Hex | reflexivity].
  - destruct (match_jobs_loop_returns (JobMatching.skills_list_of user_skills) _ [] Hall)
      as (entries & -> & _ & _).
    cbn [bind try_except app]. split; [eexists; reflexivity |]. split.
    + unfold JobMatching.create_job_match_report.
      destruct (firstn 5 _); intros H; discriminate H.
    + intros Hex. exfalso. rewrite List.Forall_forall in Hall.
      apply List.Exists_exists in Hex. destruct Hex as (item & Hin & Hitem).
      exact (Hall item Hin Hitem).
Qed.

Lemma firstn_nil_inv {A} (n : nat) (l : list A) : firstn (S n) l = [] -> l = [].
Proof. destruct l; [reflexivity | discriminate]. Qed.

Lemma sorted_tail_below {A} (R : A -> A -> Prop) (n : nat) (l : list A) :
  StronglySorted R l ->
  forall x y, In x (firstn n l) -> In y (skipn n l) -> R x y.
Proof.
  intros H. revert n. induction H as [| z l Hl IH Hz]; intros [| n] x y Hx Hy;
    cbn [firstn skipn] in *; try contradiction.
  destruct Hx as [<- | Hx].
  - rewrite List.Forall_forall in Hz. apply Hz.
    rewrite <- (firstn_skipn n l). apply in_or_app. right. exact Hy.
  - exact (IH n x y Hx Hy).
Qed.

(** X11. When every job of the database has a skill, [match_jobs]
    reports the five best matches: the report has one to five entries in
    descending order of match percentage, each the entry of a job of the
    database with a percentage above 0 and at most 100; a job that
    shares a skill with the user is in the report, or the report is full
    and none of its entries is below that job. No job matches exactly
    when no job shares a skill with the user. *)
Theorem match_jobs_report (self : CareerAnalysis.Toolkit) (user_skills : string) :
  truthy (strip user_skills) = true ->
  Forall (fun item => ~ Matches.skillless item) (CareerAnalysis.job_database self) ->
  let user_skills_list := JobMatching.skills_list_of user_skills in
  exists out,
    JobMatching.match_jobs self user_skills = Return (out, None)
    /\ (out = Text "No matching jobs found. Consider expanding your skillset or trying different skill keywords."
        <-> forall item, In item (CareerAnalysis.job_database self) ->
                         Matches.shared_skills user_skills_list (snd item) = ∅)
    /\ (forall report,
          out = Report report ->
          JobMatching.your_skills report = user_skills_list
          /\ (1 <= length (JobMatching.top_matches report) <= 5)%nat
          /\ Matches.descending (JobMatching.top_matches report)
          /\ Forall
               (fun entry =>
                  0 < JobMatching.match_percentage entry
                  /\ JobMatching.match_percentage entry <= 100
                  /\ exists item,
                       In item (CareerAnalysis.job_database self)
                       /\ Matches.entry_of user_skills_list item entry)
               (JobMatching.top_matches report)
          /\ (forall item,
                In item (CareerAnalysis.job_database self) ->
                Matches.shared_skills user_skills_list (snd item) <> ∅ ->
                (exists entry,
                    In entry (JobMatching.top_matches report)
                    /\ Matches.entry_of user_skills_list item entry)
                \/ (length (JobMatching.top_matches report) = 5%nat
                    /\ Forall
                         (fun entry =>
                            num (size (Matches.shared_skills user_skills_list (snd item)))
                            / len (snd item) * 100
                            <= JobMatching.match_percentage entry)
                         (JobMatching.top_matches report)))).
Proof.
  intros Hskills Hall user_skills_list.
  unfold JobMatching.match_jobs. rewrite Hskills. cbn [negb].
  fold user_skills_list.
  destruct (match_jobs_loop_returns user_skills_list _ [] Hall)
    as (entries & -> & Hsound & Hcomplete).
  cbn [bind try_except app].
  pose proof (sort_by_desc_perm JobMatching.match_percentage entries) as Hperm.
  pose proof (sort_by_desc_sorted JobMatching.match_percentage entries) as Hsorted.
  set (ranked := sort_by_desc JobMatching.match_percentage entries) in *.
  eexists. split; [reflexivity |]. split.
  - unfold JobMatching.create_job_match_report.
    destruct (firstn 5 ranked) as [| top tops] eqn:Etop.
    + split; [| reflexivity]. intros _ item Hin.
      apply firstn_nil_inv in Etop. rewrite Etop in Hperm.
      apply Permutation_nil in Hperm. subst entries.
      destruct (decide (Matches.shared_skills user_skills_list (snd item) = ∅))
        as [He | Hne]; [exact He |].
      destruct (Hcomplete item Hin Hne) as (entry & [] & _).
    + split; [intros H; discriminate H |]. intros Hnone. exfalso.
      assert (Hin : In top entries).
      { apply (Permutation_in _ Hperm). apply (In_firstn _ 5).
        rewrite Etop. left. reflexivity. }
      rewrite List.Forall_forall in Hsound.
      destruct (Hsound top Hin) as (Hpos & _ & item & Hitem & _ & Hpct & _).
      rewrite (Hnone item Hitem), size_empty in Hpct.
      change (num 0) with 0 in Hpct.
      assert (E0 : 0 / len (snd item) * 100 == 0) by (unfold Qdiv; ring).
      rewrite E0 in Hpct. lra.
  - intros report Hout. unfold JobMatching.create_job_match_report in Hout.
    destruct (firstn 5 ranked) as [| top tops] eqn:Etop; [discriminate Hout |].
    injection Hout as <-. cbn [JobMatching.your_skills JobMatching.top_matches].
    rewrite <- Etop.
    split; [reflexivity |]. split.
    { split; [rewrite Etop; cbn; lia | apply firstn_le_length]. }
    split; [apply firstn_sorted; exact Hsorted |]. split.
    + apply List.Forall_forall. intros entry Hentry.
      rewrite List.Forall_forall in Hsound. apply Hsound.
      apply (Permutation_in _ Hperm). apply (In_firstn _ 5). exact Hentry.
    + intros item Hin Hne.
      destruct (Hcomplete item Hin Hne) as (entry & Hentry & Hof).
      apply (Permutation_in _ (Permutation_sym Hperm)) in Hentry.
      rewrite <- (firstn_skipn 5 ranked) in Hentry.
      apply in_app_or in Hentry. destruct Hentry as [Htop | Hrest].
      * left. exists entry. split; [exact Htop | exact Hof].
      * right. split.
        -- apply firstn_length_le.
           destruct (Nat.le_gt_cases 5 (length ranked)) as [Hle | Hgt]; [exact Hle |].
           rewrite skipn_all2 in Hrest by lia. contradiction.
        -- apply List.Forall_forall. intros e He.
           destruct Hof as (_ & Hpct & _). rewrite <- Hpct.
           exact (sorted_tail_below _ 5 ranked Hsorted e entry He Hrest).
Qed.

End JobMatcher.

Section JobMatcherSamples.

Import Py PyMore.
Local Open Scope Q_scope.

Lemma match_jobs_fails_iff_witness :
  truthy (strip "python, sql") = true
  /\ ((exists out,
         JobMatching.match_jobs (so := MoreSamples.elements_order)
           CareerAnalysis.init "python, sql" = Return (out, None))
      /\ (JobMatching.match_jobs (so := MoreSamples.elements_order)
            CareerAnalysis.init "python, sql"
          = Return (Text "Error matching jobs: division by zero", None)
          <-> Exists Matches.skillless (CareerAnalysis.job_database CareerAnalysis.init))).
Proof.
  split; [reflexivity |].
  apply (match_jobs_fails_iff (so := MoreSamples.elements_order)). reflexivity.
Defined.

Lemma match_jobs_report_witness :
  exists out,
    JobMatching.match_jobs (so := MoreSamples.elements_order)
      CareerAnalysis.init "Python, sql , Docker,aws" = Return (out, None)
    /\ (forall report,
          out = Report report ->
          (1 <= length (JobMatching.top_matches report) <= 5)%nat
          /\ Matches.descending (JobMatching.top_matches report)).
Proof.
  destruct (match_jobs_report (so := MoreSamples.elements_order)
              CareerAnalysis.init "Python, sql , Docker,aws")
    as (out & Hout & _ & Hreport).
  - reflexivity.
  - repeat constructor; discriminate.
  - exists out. split; [exact Hout |].
    intros report Hr. destruct (Hreport report Hr) as (_ & Hlen & Hdesc & _).
    split; [exact Hlen | exact Hdesc].
Defined.

End JobMatcherSamples.

(* ================================================================== *)
(** * The skill gap finder *)
(* ================================================================== *)

Section SkillGaps.

Import Py PyMore.
Local Open Scope Q_scope.

Context {so : SetOrder}.

Lemma lower_char_idempotent (c : ascii) : lower_char (lower_char c) = lower_char c.
Proof. destruct c as [[] [] [] [] [] [] [] []]; reflexivity. Qed.

Lemma lower_idempotent (s : string) : lower (lower s) = lower s.
Proof.
  unfold lower at 1. rewrite chars_lower, List.map_map.
  unfold lower. f_equal. apply List.map_ext. intros c. apply lower_char_idempotent.
Qed.

(** A key that is not in lower case is not found under a lower-case
    name. *)
Lemma dict_get_lower {V} (d : list (string * V)) (skill : string) :
  Forall (fun entry => lower (fst entry) <> fst entry) d ->
  dict_get d (lower skill) = None.
Proof.
  induction 1 as [| [k v] d Hk Hd IH]; cbn [dict_get]; [reflexivity |].
  destruct (String.eqb_spec (lower skill) k) as [E | _]; [| exact IH].
  exfalso. apply Hk. cbn [fst]. rewrite <- E. apply lower_idempotent.
Qed.

Lemma dict_set_Forall {V} (P : string * V -> Prop) (d : list (string * V))
    (k : string) (v : V) :
  Forall P d -> P (k, v) -> Forall P (dict_set d k v).
Proof.
  intros Hd Hkv. induction Hd as [| [k' v'] d Hk' Hd IH]; cbn [dict_set].
  - constructor; [exact Hkv | constructor].
  - destruct (String.eqb k k'); constructor; assumption.
Qed.

(** An invariant of the entries of the roadmap holds at the end of the
    loop when each step keeps it. *)
Lemma create_learning_roadmap_Forall (self : CareerAnalysis.Toolkit)
    (P : string * CareerAnalysis.SkillInfo -> Prop) (missing_skills : list string) :
  (forall skill,
     In skill missing_skills ->
     match dict_get (CareerAnalysis.skills_database self) skill with
     | Some info => P (title skill, info)
     | None => P (title skill, JobMatching.default_path)
     end) ->
  Forall P (JobMatching.create_learning_roadmap self missing_skills).
Proof.
  unfold JobMatching.create_learning_roadmap.
  assert (Hgen : forall roadmap,
             Forall P roadmap ->
             (forall skill,
                In skill missing_skills ->
                match dict_get (CareerAnalysis.skills_database self) skill with
                | Some info => P (title skill, info)
                | None => P (title skill, JobMatching.default_path)
                end) ->
             Forall P
               (fold_left
                  (fun roadmap skill =>
                     match dict_get (CareerAnalysis.skills_database self) skill with
                     | Some info => dict_set roadmap (title skill) info
                     | None => dict_set roadmap (title skill) JobMatching.default_path
                     end)
                  missing_skills roadmap)).
  { induction missing_skills as [| skill skills IH]; intros roadmap Hr Hstep;
      cbn [fold_left]; [exact Hr |].
    apply IH; [| intros s Hs; apply Hstep; right; exact Hs].
    specialize (Hstep skill (or_introl eq_refl)).
    destruct (dict_get (CareerAnalysis.skills_database self) skill);
      apply dict_set_Forall; assumption. }
  intros Hstep. apply Hgen; [constructor | exact Hstep].
Qed.

Lemma Forall_firstn {A} (P : A -> Prop) (n : nat) (l : list A) :
  Forall P l -> Forall P (firstn n l).
Proof.
  intros H. apply List.Forall_forall. intros x Hx.
  rewrite List.Forall_forall in H. apply H. exact (In_firstn _ _ _ Hx).
Qed.


(** The skills of a job found in the database are in lower case. *)
Lemma first_job_lower (p : string -> bool) (items : list (string * list string))
    (skills : list string) :
  JobMatching.first_job p items = Some skills -> Forall (fun s => lower s = s) skills.
Proof.
  unfold JobMatching.first_job.
  destruct (List.find _ items) as [[job_title job_skills] |]; [| discriminate].
  intros [= <-]. apply List.Forall_forall. intros s Hs.
  apply List.in_map_iff in Hs. destruct Hs as (s' & <- & _). apply lower_idempotent.
Qed.

Lemma find_target_job_skills_lower (self : CareerAnalysis.Toolkit) (target_job : string)
    (skills : list string) :
  JobMatching.find_target_job_skills self target_job = Some skills ->
  Forall (fun s => lower s = s) skills.
Proof.
  unfold JobMatching.find_target_job_skills.
  set (whole := JobMatching.first_job
                  (fun job_title => contains (lower target_job) (lower job_title))
                  (CareerAnalysis.job_database self)).
  set (part := JobMatching.first_job
                 (fun job_title =>
                    any (fun word => contains word (lower job_title))
                      (split (lower target_job)))
                 (CareerAnalysis.job_database self)).
  pose proof (first_job_lower _ _ : forall skills, whole = Some skills -> _) as Hwhole.
  pose proof (first_job_lower _ _ : forall skills, part = Some skills -> _) as Hpart.
  clearbody whole part.
  destruct whole as [[| skill whole] |], part as [part |];
    cbn [JobMatching.no_skills]; intros [= <-];
    first [apply (Hwhole _ eq_refl) | apply (Hpart _ eq_refl)].
Qed.

(** The three ways in which [find_skill_gaps] ends. *)
Lemma find_skill_gaps_cases (self : CareerAnalysis.Toolkit)
    (current_skills target_job : string) :
  JobMatching.find_skill_gaps self current_skills target_job
  = Return (Text "Please enter your current skills and target job role.", None)
  \/ (JobMatching.no_skills (JobMatching.find_target_job_skills self target_job) = true
      /\ JobMatching.find_skill_gaps self current_skills target_job
         = Return
             (Text ("Job role '" +:+ target_job +:+ "' not found in database. Try: "
                    +:+ join ", "
                          (firstn 5 (List.map fst (CareerAnalysis.job_database self)))),
              None))
  \/ (exists target_skills,
        JobMatching.find_target_job_skills self target_job = Some target_skills
        /\ target_skills <> []
        /\ JobMatching.find_skill_gaps self current_skills target_job
           = Return
               (Report
                  {| JobMatching.target_role := title target_job;
                     JobMatching.skill_match :=
                       num (size (list_to_set (JobMatching.skills_list_of current_skills)
                                  ∩ list_to_set target_skills : gset string))
                       / len target_skills * 100;
                     JobMatching.skills_you_have :=
                       list_to_set (JobMatching.skills_list_of current_skills)
                       ∩ list_to_set target_skills;
                     JobMatching.skills_to_develop :=
                       list_to_set target_skills
                       ∖ list_to_set (JobMatching.skills_list_of current_skills);
                     JobMatching.learning_roadmap :=
                       firstn 5
                         (JobMatching.create_learning_roadmap self
                            (iterate
                               (list_to_set target_skills
                                ∖ list_to_set
                                    (JobMatching.skills_list_of current_skills)))) |},
                None)).
Proof.
  unfold JobMatching.find_skill_gaps.
  destruct (negb (truthy (strip current_skills)) || negb (truthy (strip target_job)));
    [left; reflexivity | right].
  destruct (JobMatching.find_target_job_skills self target_job)
    as [[| skill skills] |] eqn:Et; cbn [try_except JobMatching.no_skills];
    [left; split; reflexivity | | left; split; reflexivity].
  right. exists (skill :: skills). split; [reflexivity |]. split; [discriminate |].
  unfold JobMatching.create_skill_gap_report, truediv.
  destruct (Qeq_bool (len (skill :: skills)) 0) eqn:Ez.
  { apply Qeq_bool_iff in Ez. unfold len in Ez. change 0 with (num 0) in Ez.
    apply num_inj in Ez. discriminate Ez. }
  reflexivity.
Qed.

(** X12. When no key of the skills database is in lower case, as in the
    database that the toolkit builds, the learning roadmap of
    [find_skill_gaps] never uses the database: every step is the default
    learning path. *)
Theorem roadmap_is_default (self : CareerAnalysis.Toolkit)
    (current_skills target_job : string) :
  Forall (fun entry => lower (fst entry) <> fst entry) (CareerAnalysis.skills_database self) ->
  exists out,
    JobMatching.find_skill_gaps self current_skills target_job = Return (out, None)
    /\ (forall report,
          out = Report report ->
          Forall (fun step => snd step = JobMatching.default_path)
            (JobMatching.learning_roadmap report)).
Proof.
  intros Hkeys.
  destruct (find_skill_gaps_cases self current_skills target_job)
    as [-> | [[_ ->] | (target_skills & Ht & _ & ->)]];
    eexists; (split; [reflexivity |]); intros report Hr; try discriminate Hr.
  injection Hr as <-. cbn [JobMatching.learning_roadmap].
  apply Forall_firstn. apply create_learning_roadmap_Forall. intros skill Hskill.
  assert (Hlow : lower skill = skill).
  { apply (Permutation_in _ (iterate_perm _)) in Hskill.
    apply list_elem_of_In, elem_of_elements, elem_of_difference in Hskill.
    destruct Hskill as [Hskill _].
    apply elem_of_list_to_set, list_elem_of_In in Hskill.
    pose proof (find_target_job_skills_lower _ _ _ Ht) as Hall.
    rewrite List.Forall_forall in Hall. exact (Hall skill Hskill). }
  assert (Hnone : dict_get (CareerAnalysis.skills_database self) skill = None)
    by (rewrite <- Hlow; apply dict_get_lower; exact Hkeys).
  rewrite Hnone. reflexivity.
Qed.

(** X13. [find_skill_gaps] never raises and never reports an error: it
    asks for the inputs, says that the job role was not found, or
    reports on the skills of the job found. In the report the skill match
    lies between 0 and 100, is 0 exactly when the user has none of the
    skills, and is below 100 when a skill is to be developed; the skills
    that the user has and those to develop split the skills of the job;
    the roadmap has at most five steps, each named after a skill to
    develop. *)
Theorem find_skill_gaps_outcome (self : CareerAnalysis.Toolkit)
    (current_skills target_job : string) :
  exists out,
    JobMatching.find_skill_gaps self current_skills target_job = Return (out, None)
    /\ (out = Text "Please enter your current skills and target job role."
        \/ (JobMatching.no_skills (JobMatching.find_target_job_skills self target_job) = true
            /\ out = Text ("Job role '" +:+ target_job +:+ "' not found in database. Try: "
                           +:+ join ", "
                                 (firstn 5
                                    (List.map fst (CareerAnalysis.job_database self)))))
        \/ (exists report target_skills,
              out = Report report
              /\ JobMatching.find_target_job_skills self target_job = Some target_skills
              /\ (0 <= JobMatching.skill_match report
                  /\ JobMatching.skill_match report <= 100)
              /\ (JobMatching.skill_match report == 0
                  <-> JobMatching.skills_you_have report = ∅)
              /\ (JobMatching.skills_to_develop report <> ∅ ->
                  JobMatching.skill_match report < 100)
              /\ JobMatching.skills_you_have report ∪ JobMatching.skills_to_develop report
                 = list_to_set target_skills
              /\ JobMatching.skills_you_have report ∩ JobMatching.skills_to_develop report
                 = ∅
              /\ (length (JobMatching.learning_roadmap report) <= 5)%nat
              /\ Forall
                   (fun step =>
                      exists skill,
                        skill ∈ JobMatching.skills_to_develop report
                        /\ fst step = title skill)
                   (JobMatching.learning_roadmap report))).
Proof.
  destruct (find_skill_gaps_cases self current_skills target_job)
    as [-> | [[Hno ->] | (target_skills & Ht & Hne & ->)]];
    eexists; (split; [reflexivity |]);
    [left; reflexivity | right; left; split; [exact Hno | reflexivity] | right; right].
  eexists _, target_skills. split; [reflexivity |]. split; [exact Ht |].
  cbn [JobMatching.skill_match JobMatching.skills_you_have JobMatching.skills_to_develop
       JobMatching.learning_roadmap].
  set (C := list_to_set (JobMatching.skills_list_of current_skills) : gset string).
  set (T := list_to_set target_skills : gset string).
  assert (Hlen : 0 < len target_skills).
  { apply num_pos. destruct target_skills; [congruence | cbn; lia]. }
  assert (HT : (size T <= length target_skills)%nat) by apply size_list_to_set_le.
  assert (Hsub : C ∩ T ⊆ T) by (intros x; rewrite elem_of_intersection; tauto).
  assert (Hsize : (size (C ∩ T) <= size T)%nat) by (apply subseteq_size; exact Hsub).
  destruct (ratio_unit (num (size (C ∩ T))) (len target_skills) (num_nonneg _)
              (num_mono _ _ (Nat.le_trans _ _ _ Hsize HT)) Hlen) as [Hlow Hhigh].
  split; [split; lra |]. split.
  { rewrite (percentage_null _ _ Hlen). split.
    - intros H. change 0 with (num 0) in H. apply num_inj in H.
      apply leibniz_equiv. apply size_empty_iff. exact H.
    - intros ->. rewrite size_empty. reflexivity. }
  split.
  { intros Hdev.
    assert (Hlt : (size (C ∩ T) < size T)%nat).
    { destruct (Nat.eq_dec (size (C ∩ T)) (size T)) as [E | E]; [| lia].
      exfalso. apply Hdev.
      assert (Heq : C ∩ T ≡ T) by (apply set_subseteq_size_equiv; [exact Hsub | lia]).
      apply set_eq. intros x. rewrite elem_of_difference, elem_of_empty.
      specialize (Heq x). rewrite elem_of_intersection in Heq. tauto. }
    assert (Hnum : num (size (C ∩ T)) + 1 <= len target_skills).
    { unfold len. rewrite <- num_succ. apply num_mono. lia. }
    assert (Hr : num (size (C ∩ T)) / len target_skills < 1).
    { apply Qlt_shift_div_r; [exact Hlen | lra]. }
    lra. }
  split.
  { apply set_eq. intros x.
    rewrite elem_of_union, elem_of_intersection, elem_of_difference.
    destruct (decide (x ∈ C)); tauto. }
  split.
  { apply set_eq. intros x.
    rewrite elem_of_intersection, elem_of_intersection, elem_of_difference, elem_of_empty.
    tauto. }
  split; [apply firstn_le_length |].
  apply Forall_firstn. apply create_learning_roadmap_Forall. intros skill Hskill.
  apply (Permutation_in _ (iterate_perm _)) in Hskill.
  apply list_elem_of_In, elem_of_elements in Hskill.
  destruct (dict_get _ skill); exists skill; (split; [exact Hskill | reflexivity]).
Qed.

End SkillGaps.

Section SkillGapSamples.

Import Py PyMore.
Local Open Scope Q_scope.

Lemma roadmap_is_default_witness :
  exists out,
    JobMatching.find_skill_gaps (so := MoreSamples.elements_order)
      CareerAnalysis.init "python, sql" "data scientist" = Return (out, None)
    /\ (forall report,
          out = Report report ->
          Forall (fun step => snd step = JobMatching.default_path)
            (JobMatching.learning_roadmap report)).
Proof.
  apply (roadmap_is_default (so := MoreSamples.elements_order) CareerAnalysis.init).
  repeat constructor; vm_compute; discriminate.
Defined.

End SkillGapSamples.

(* ================================================================== *)
(** * The analysis of a resume *)
(* ================================================================== *)

Section ResumeAnalysis.

Import Py PyMore.
Local Open Scope Q_scope.

Context {sv : Services} {re : Regex} {so : SetOrder}.

Lemma filter_split_perm {A} (p : A -> bool) (l : list A) :
  Permutation (List.filter p l ++ List.filter (fun x => negb (p x)) l) l.
Proof.
  induction l as [| x l IH]; cbn [List.filter]; [reflexivity |].
  destruct (p x); cbn [negb app].
  - constructor. exact IH.
  - rewrite <- Permutation_middle. constructor. exact IH.
Qed.

(** The loop over the required sections, from any two lists. *)
Lemma check_sections_fold (text_lower : string) (required_sections found missing : list string) :
  let present section :=
    contains section text_lower
    || (String.eqb section "summary" && contains "profile" text_lower) in
  fold_left
    (fun '(found, missing) section =>
       if contains section text_lower
          || (String.eqb section "summary" && contains "profile" text_lower)
       then (found ++ [title section], missing)
       else (found, missing ++ [title section]))
    required_sections (found, missing)
  = (found ++ List.map title (List.filter present required_sections),
     missing ++ List.map title (List.filter (fun s => negb (present s)) required_sections)).
Proof.
  intros present. revert found missing.
  induction required_sections as [| section sections IH]; intros found missing;
    cbn [fold_left List.filter].
  - rewrite !app_nil_r. reflexivity.
  - fold (present section). destruct (present section); cbn [negb List.map];
      rewrite IH, <- app_assoc; reflexivity.
Qed.

Lemma check_sections_perm (required_sections : list string) (text_lower : string) :
  Permutation
    (fst (CareerAnalysis.check_sections required_sections text_lower)
     ++ snd (CareerAnalysis.check_sections required_sections text_lower))
    (List.map title required_sections).
Proof.
  unfold CareerAnalysis.check_sections. rewrite check_sections_fold. cbn [fst snd app].
  rewrite <- List.map_app. apply Permutation_map. apply filter_split_perm.
Qed.

Lemma perform_resume_analysis_sections (self : CareerAnalysis.Toolkit) (resume_text : string) :
  CareerToolkit.sections_found (CareerAnalysis.perform_resume_analysis self resume_text)
  = fst (CareerAnalysis.check_sections
           ["experience"; "education"; "skills"; "summary"; "objective"]
           (lower resume_text))
  /\ CareerToolkit.sections_missing (CareerAnalysis.perform_resume_analysis self resume_text)
     = snd (CareerAnalysis.check_sections
              ["experience"; "education"; "skills"; "summary"; "objective"]
              (lower resume_text)).
Proof.
  unfold CareerAnalysis.perform_resume_analysis.
  destruct (CareerAnalysis.check_sections _ _) as [found missing]. split; reflexivity.
Qed.

(** The sections found and the sections missing are the five titles. *)
Lemma perform_resume_analysis_titles (self : CareerAnalysis.Toolkit) (resume_text : string) :
  Permutation
    (CareerToolkit.sections_found (CareerAnalysis.perform_resume_analysis self resume_text)
     ++ CareerToolkit.sections_missing
          (CareerAnalysis.perform_resume_analysis self resume_text))
    Advice.section_titles.
Proof.
  destruct (perform_resume_analysis_sections self resume_text) as [-> ->].
  apply check_sections_perm.
Qed.

(** [all_skills] holds the skills of every job, in lower case. *)
Lemma elem_of_all_skills (self : CareerAnalysis.Toolkit) (skill : string) :
  skill ∈ CareerAnalysis.all_skills self
  <-> exists job_title job_skills s,
        In (job_title, job_skills) (CareerAnalysis.job_database self)
        /\ In s job_skills /\ skill = lower s.
Proof.
  unfold CareerAnalysis.all_skills.
  assert (Hgen : forall (items : list (string * list string)) (acc : gset string),
             skill ∈ fold_left
                       (fun (all_skills : gset string) job_skills =>
                          all_skills ∪ list_to_set (List.map lower job_skills))
                       (List.map snd items) acc
             <-> skill ∈ acc
                 \/ exists job_title job_skills s,
                      In (job_title, job_skills) items /\ In s job_skills /\ skill = lower s).
  { induction items as [| [job_title job_skills] items IH]; intros acc;
      cbn [List.map fold_left snd].
    - split; [tauto |]. intros [H | (? & ? & ? & [] & _)]. exact H.
    - rewrite IH, elem_of_union, elem_of_list_to_set, list_elem_of_In, List.in_map_iff.
      split.
      + intros [[H | (s & Hs & Hin)] | (t & js & s & Hin & Hs & E)].
        * left. exact H.
        * right. exists job_title, job_skills, s.
          split; [left; reflexivity |]. split; [exact Hin | symmetry; exact Hs].
        * right. exists t, js, s. split; [right; exact Hin |]. split; assumption.
      + intros [H | (t & js & s & [Hin | Hin] & Hs & E)].
        * left. left. exact H.
        * injection Hin as <- <-. left. right. exists s. split; [symmetry; exact E | exact Hs].
        * right. exists t, js, s. split; [exact Hin |]. split; assumption. }
  rewrite Hgen. rewrite elem_of_empty. tauto.
Qed.

(** X14. The analysis of a resume: the sections found and the sections
    missing are, together, the five section titles; a skill is found
    exactly when it is the title of a skill of some job whose lower-case
    name occurs in the lower-case text (as part of a word or not); there
    are at most two grammar issues, and none exactly when the text has
    five full stops and three commas. *)
Theorem perform_resume_analysis_facts (self : CareerAnalysis.Toolkit) (resume_text : string) :
  let analysis := CareerAnalysis.perform_resume_analysis self resume_text in
  Permutation
    (CareerToolkit.sections_found analysis ++ CareerToolkit.sections_missing analysis)
    Advice.section_titles
  /\ (forall found,
        In found (CareerToolkit.skills_found analysis)
        <-> exists job_title job_skills skill,
              In (job_title, job_skills) (CareerAnalysis.job_database self)
              /\ In skill job_skills
              /\ found = title (lower skill)
              /\ contains (lower skill) (lower resume_text) = true)
  /\ (length (CareerToolkit.grammar_issues analysis) <= 2)%nat
  /\ (CareerToolkit.grammar_issues analysis = []
      <-> (5 <= count_char "." resume_text)%nat /\ (3 <= count_char "," resume_text)%nat).
Proof.
  intros analysis. split; [apply perform_resume_analysis_titles |].
  subst analysis. unfold CareerAnalysis.perform_resume_analysis.
  destruct (CareerAnalysis.check_sections _ _) as [sections_found sections_missing].
  cbn [CareerToolkit.skills_found CareerToolkit.grammar_issues].
  split; [| split].
  - intros found. rewrite List.in_map_iff. split.
    + intros (skill & <- & Hskill). apply List.filter_In in Hskill.
      destruct Hskill as [Hskill Htext].
      apply (Permutation_in _ (iterate_perm _)) in Hskill.
      apply list_elem_of_In, elem_of_elements, elem_of_all_skills in Hskill.
      destruct Hskill as (job_title & job_skills & s & Hin & Hs & ->).
      rewrite lower_idempotent in Htext.
      exists job_title, job_skills, s. repeat split; assumption.
    + intros (job_title & job_skills & s & Hin & Hs & -> & Htext).
      exists (lower s). split; [reflexivity |]. apply List.filter_In. split.
      * apply (Permutation_in _ (Permutation_sym (iterate_perm _))).
        apply list_elem_of_In, elem_of_elements, elem_of_all_skills.
        exists job_title, job_skills, s. repeat split; assumption.
      * rewrite lower_idempotent. exact Htext.
  - destruct (count_char "." resume_text <? 5)%nat, (count_char "," resume_text <? 3)%nat;
      cbn [app length]; lia.
  - destruct (count_char "." resume_text <? 5)%nat eqn:E1,
             (count_char "," resume_text <? 3)%nat eqn:E2; cbn [app];
      repeat match goal with
        | H : (_ <? _)%nat = true |- _ => apply Nat.ltb_lt in H
        | H : (_ <? _)%nat = false |- _ => apply Nat.ltb_ge in H
        end;
      (split; [intros H; try discriminate H; lia | intros H; try reflexivity; exfalso; lia]).
Qed.


Lemma int_at_least (z : Z) (x : Q) : (0 <= z)%Z -> inject_Z z <= x -> (z <= int x)%Z.
Proof.
  intros Hz Hx. rewrite <- (int_inject z Hz). apply int_mono; [| exact Hx].
  unfold Qle. simpl. lia.
Qed.

Lemma int_at_most (z : Z) (x : Q) : 0 <= x -> x <= inject_Z z -> (int x <= z)%Z.
Proof.
  intros H0 Hx.
  assert (Hz : (0 <= z)%Z).
  { assert (H : 0 <= inject_Z z) by lra. unfold Qle in H. simpl in H. lia. }
  rewrite <- (int_inject z Hz). apply int_mono; assumption.
Qed.

(** With the five sections and nothing to improve, the score is 83 at
    least. *)
Lemma score_when_nothing_to_improve (a : CareerToolkit.Analysis) :
  length (CareerToolkit.sections_found a) = 5%nat ->
  Advice.nothing_to_improve a ->
  (83 <= CareerToolkit.calculate_resume_score a)%Z.
Proof.
  intros Hfound (_ & Hwords & Hcontact & Hskills & Hverbs & Hach & _).
  rewrite calculate_resume_score_points.
  assert (H1 : 40 <= ResumeScore.section_points a).
  { unfold ResumeScore.section_points, len. rewrite Hfound.
    apply min_glb; [lra |]. apply Qle_bool_iff. reflexivity. }
  assert (H2 : 15 <= ResumeScore.band_points a).
  { unfold ResumeScore.band_points, CareerToolkit.word_count_points.
    destruct (_ && _); [lra |].
    destruct ((200 <=? CareerToolkit.word_count a)%nat
              && (CareerToolkit.word_count a <=? 800)%nat) eqn:E; [lra |].
    apply Bool.andb_false_iff in E. destruct E as [E | E]; apply Nat.leb_gt in E; lia. }
  assert (H3 : 10 <= ResumeScore.skill_points a).
  { unfold ResumeScore.skill_points. apply min_glb; [lra |].
    pose proof (num_mono _ _ Hskills) as H. change (num 5) with 5 in H.
    unfold len. lra. }
  assert (H4 : 7.5 <= ResumeScore.verb_points a).
  { unfold ResumeScore.verb_points. apply min_glb; [lra |].
    pose proof (num_mono _ _ Hverbs) as H. change (num 5) with 5 in H. lra. }
  assert (H5 : 6 <= ResumeScore.achievement_points a).
  { unfold ResumeScore.achievement_points. apply min_glb; [lra |].
    pose proof (num_mono _ _ Hach) as H. change (num 3) with 3 in H. lra. }
  assert (H6 : ResumeScore.contact_points a = 5)
    by (unfold ResumeScore.contact_points; rewrite Hcontact; reflexivity).
  apply int_at_least; [lia |]. apply min_glb.
  - apply Qle_bool_iff. reflexivity.
  - rewrite H6. change (inject_Z 83) with 83. lra.
Qed.

(** A missing section caps the score at 92. *)
Lemma score_with_missing_section (a : CareerToolkit.Analysis) :
  (length (CareerToolkit.sections_found a) <= 4)%nat ->
  (CareerToolkit.calculate_resume_score a <= 92)%Z.
Proof.
  intros Hfound. rewrite calculate_resume_score_points.
  assert (H1 : 0 <= ResumeScore.section_points a /\ ResumeScore.section_points a <= 32).
  { split; [apply section_points_range |].
    unfold ResumeScore.section_points.
    pose proof (min_le_r 40 (len (CareerToolkit.sections_found a) / 5 * 40)) as H.
    assert (E : len (CareerToolkit.sections_found a) / 5 * 40
                == 8 * len (CareerToolkit.sections_found a)) by field.
    pose proof (num_mono _ _ Hfound) as Hn. change (num 4) with 4 in Hn.
    unfold len in *. lra. }
  pose proof (word_count_points_range (CareerToolkit.word_count a)) as H2.
  pose proof (skill_points_range a) as H3.
  pose proof (verb_points_range a) as H4.
  pose proof (achievement_points_range a) as H5.
  pose proof (contact_points_range a) as H6.
  unfold ResumeScore.band_points.
  set (s := 0 + _ + _ + _ + _ + _ + _).
  assert (Hs : 0 <= s /\ s <= 92) by (subst s; lra).
  pose proof (min_le_r 100 s).
  apply int_at_most; [apply min_glb; lra |]. change (inject_Z 92) with 92. lra.
Qed.

Lemma score_in_range (a : CareerToolkit.Analysis) :
  (10 <= CareerToolkit.calculate_resume_score a <= 100)%Z.
Proof.
  rewrite calculate_resume_score_points.
  pose proof (section_points_range a).
  pose proof (word_count_points_range (CareerToolkit.word_count a)).
  pose proof (skill_points_range a).
  pose proof (verb_points_range a).
  pose proof (achievement_points_range a).
  pose proof (contact_points_range a).
  unfold ResumeScore.band_points.
  set (s := 0 + _ + _ + _ + _ + _ + _).
  assert (Hs : 10 <= s) by (subst s; lra).
  pose proof (min_le_l 100 s).
  split.
  - apply int_at_least; [lia |]. change (inject_Z 10) with 10. apply min_glb; lra.
  - apply int_at_most; [apply min_glb; lra |]. change (inject_Z 100) with 100. lra.
Qed.

(** X15. [analyze_resume] never raises and never reports an error: it
    asks for a file, says that too little text could be extracted (fewer
    than 50 characters once stripped), or reports on a text of 50
    characters at least. The report shows the suggestions made on the
    analysis of the text and a score between 10 and 100, which is 83 at
    least when no suggestion is made and 92 at most when a section is
    missing. *)
Theorem analyze_resume_outcome (self : CareerAnalysis.Toolkit) (resume_file : option File) :
  exists out,
    CareerAnalysis.analyze_resume self resume_file = Return (out, None, None)
    /\ match resume_file with
       | None => out = Text "Please upload a resume file to analyze."
       | Some file =>
           let resume_text := CareerToolkit.extract_text_from_pdf (name file) in
           if (strlen (strip resume_text) <? 50)%nat
           then out = Text "Could not extract sufficient text from the resume. Please ensure the PDF contains readable text."
           else exists report,
                  out = Report report
                  /\ CareerAnalysis.report_analysis report
                     = CareerAnalysis.perform_resume_analysis self resume_text
                  /\ CareerAnalysis.report_suggestions report
                     = CareerAnalysis.generate_improvement_suggestions
                         (CareerAnalysis.report_analysis report)
                  /\ (10 <= CareerAnalysis.overall_score report <= 100)%Z
                  /\ (CareerAnalysis.report_suggestions report = [] ->
                      (83 <= CareerAnalysis.overall_score report)%Z)
                  /\ (CareerToolkit.sections_missing (CareerAnalysis.report_analysis report)
                      <> [] ->
                      (CareerAnalysis.overall_score report <= 92)%Z)
       end.
Proof.
  unfold CareerAnalysis.analyze_resume.
  destruct resume_file as [file |]; [| eexists; split; reflexivity].
  cbv zeta.
  set (resume_text := CareerToolkit.extract_text_from_pdf (name file)).
  destruct (strlen (strip resume_text) <? 50)%nat eqn:Eshort.
  { rewrite Bool.orb_true_r. cbn [try_except]. eexists. split; reflexivity. }
  assert (Htext : truthy resume_text = true).
  { destruct resume_text; [discriminate Eshort | reflexivity]. }
  rewrite Htext. cbn [negb orb try_except].
  eexists. split; [reflexivity |]. eexists. split; [reflexivity |].
  cbn [CareerAnalysis.create_analysis_report CareerAnalysis.report_analysis
       CareerAnalysis.report_suggestions CareerAnalysis.overall_score].
  unfold CareerAnalysis.create_analysis_report.
  cbn [CareerAnalysis.report_analysis CareerAnalysis.report_suggestions
       CareerAnalysis.overall_score].
  set (analysis := CareerAnalysis.perform_resume_analysis self resume_text).
  pose proof (Permutation_length (perform_resume_analysis_titles self resume_text)) as Hlen.
  fold analysis in Hlen. rewrite length_app in Hlen. cbn [Advice.section_titles length] in Hlen.
  split; [reflexivity |]. split; [reflexivity |]. split; [apply score_in_range |]. split.
  - intros Hnone. apply no_suggestion_sound in Hnone.
    apply score_when_nothing_to_improve; [| exact Hnone].
    destruct Hnone as (Hmissing & _). rewrite Hmissing in Hlen. cbn [length] in Hlen. lia.
  - intros Hmissing. apply score_with_missing_section.
    destruct (CareerToolkit.sections_missing analysis); [congruence | cbn [length] in Hlen; lia].
Qed.

End ResumeAnalysis.

(* ================================================================== *)
(** * The skills typed by the user *)
(* ================================================================== *)

Section TypedSkills.

Import Py PyMore.
Local Open Scope Q_scope.

Context {so : SetOrder}.

Lemma isspace_lower_char (c : ascii) : isspace (lower_char c) = isspace c.
Proof. destruct c as [[] [] [] [] [] [] [] []]; reflexivity. Qed.

Lemma comma_lower_char (c : ascii) : Ascii.eqb (lower_char c) "," = Ascii.eqb c ",".
Proof. destruct c as [[] [] [] [] [] [] [] []]; reflexivity. Qed.

Lemma chars_join_chars (l : list ascii) : chars (join_chars l) = l.
Proof. apply list_ascii_of_string_of_list_ascii. Qed.

Lemma join_chars_chars (s : string) : join_chars (chars s) = s.
Proof. apply string_of_list_ascii_of_string. Qed.

Lemma lower_join_chars (l : list ascii) :
  lower (join_chars l) = join_chars (List.map lower_char l).
Proof. unfold lower. rewrite chars_join_chars. reflexivity. Qed.

Lemma drop_spaces_lower (l : list ascii) :
  drop_spaces (List.map lower_char l) = List.map lower_char (drop_spaces l).
Proof.
  induction l as [| c l IH]; cbn [List.map drop_spaces]; [reflexivity |].
  rewrite isspace_lower_char. destruct (isspace c); [exact IH | reflexivity].
Qed.

(** Stripping and lowering commute. *)
Lemma strip_lower (s : string) : strip (lower s) = lower (strip s).
Proof.
  unfold strip. rewrite lower_join_chars, chars_lower.
  rewrite drop_spaces_lower, <- List.map_rev, drop_spaces_lower, <- List.map_rev.
  reflexivity.
Qed.

Lemma truthy_lower (s : string) : truthy (lower s) = truthy s.
Proof. destruct s; reflexivity. Qed.

Lemma split_sep_chars_lower (cur l : list ascii) :
  split_sep_chars "," (List.map lower_char cur) (List.map lower_char l)
  = List.map (List.map lower_char) (split_sep_chars "," cur l).
Proof.
  revert cur. induction l as [| c l IH]; intros cur; cbn [List.map split_sep_chars].
  - rewrite List.map_rev. reflexivity.
  - rewrite comma_lower_char. destruct (Ascii.eqb c ",").
    + cbn [List.map]. rewrite List.map_rev. f_equal. exact (IH []).
    + exact (IH (c :: cur)).
Qed.

(** The list of skills does not depend on the case in which they are
    typed. *)
Lemma skills_list_of_lower (user_skills : string) :
  JobMatching.skills_list_of (lower user_skills) = JobMatching.skills_list_of user_skills.
Proof.
  unfold JobMatching.skills_list_of, split_sep.
  rewrite chars_lower.
  pose proof (split_sep_chars_lower [] (chars user_skills)) as Hsplit.
  change (List.map lower_char []) with (@nil ascii) in Hsplit. rewrite Hsplit.
  rewrite !List.map_map. apply List.map_ext. intros piece.
  rewrite <- lower_join_chars, strip_lower. apply lower_idempotent.
Qed.

(** There is always a first skill, possibly empty. *)
Lemma split_sep_chars_nonempty (sep : ascii) (cur l : list ascii) :
  split_sep_chars sep cur l <> [].
Proof.
  revert cur. induction l as [| c l IH]; intros cur; cbn [split_sep_chars].
  - discriminate.
  - destruct (Ascii.eqb c sep); [discriminate | apply IH].
Qed.

(** X16. The job matcher and the skill gap finder do not depend on the
    case in which the skills are typed, and the list of skills that they
    compare is never empty. *)
Theorem typed_skills_case_insensitive (self : CareerAnalysis.Toolkit)
    (user_skills target_job : string) :
  JobMatching.match_jobs self (lower user_skills) = JobMatching.match_jobs self user_skills
  /\ JobMatching.find_skill_gaps self (lower user_skills) target_job
     = JobMatching.find_skill_gaps self user_skills target_job
  /\ JobMatching.skills_list_of user_skills <> [].
Proof.
  split; [| split].
  - unfold JobMatching.match_jobs.
    rewrite strip_lower, truthy_lower, skills_list_of_lower. reflexivity.
  - unfold JobMatching.find_skill_gaps.
    rewrite strip_lower, truthy_lower, skills_list_of_lower. reflexivity.
  - unfold JobMatching.skills_list_of, split_sep. intros H.
    apply List.map_eq_nil in H. apply List.map_eq_nil in H.
    exact (split_sep_chars_nonempty _ _ _ H).
Qed.

End TypedSkills.

(* ================================================================== *)
(** * The context of the chat *)
(* ================================================================== *)

Section ChatContext.

Import Py PyMore.

(** X17. [build_chat_context] keeps the last three exchanges only: what
    was said before them does not change the context. *)
Theorem build_chat_context_recent (earlier recent : list (string * string)) :
  length recent = 3%nat ->
  ProductionScores.build_chat_context (earlier ++ recent)
  = ProductionScores.build_chat_context recent.
Proof.
  intros Hlen. unfold ProductionScores.build_chat_context.
  destruct recent as [| r1 [| r2 [| r3 [| r4 recent]]]]; try discriminate Hlen.
  destruct (earlier ++ [r1; r2; r3]) as [| e l] eqn:E.
  { destruct earlier; discriminate E. }
  rewrite <- E. clear E e l.
  rewrite length_app. cbn [length].
  destruct earlier as [| e earlier]; [reflexivity |].
  assert (Hlong : (3 <? length (e :: earlier) + 3)%nat = true)
    by (apply Nat.ltb_lt; cbn [length]; lia).
  rewrite Hlong.
  replace (length (e :: earlier) + 3 - 3)%nat with (length (e :: earlier)) by lia.
  rewrite skipn_app, skipn_all, Nat.sub_diag. reflexivity.
Qed.

Lemma build_chat_context_recent_witness :
  ProductionScores.build_chat_context
    ([("Hello", "Hi"); ("Any tips?", "Quantify your achievements")]
     ++ [("How long?", "One page"); ("Which font?", "A plain one"); ("Thanks", "Welcome")])
  = ProductionScores.build_chat_context
      [("How long?", "One page"); ("Which font?", "A plain one"); ("Thanks", "Welcome")].
Proof. apply build_chat_context_recent. reflexivity. Defined.

End ChatContext.

(* ================================================================== *)
(** * The skill gap finder of the production toolkit *)
(* ================================================================== *)

Section ProductionSkillGaps.

Import Py PyMore.
Local Open Scope Q_scope.

Context {ai : Advisor} {so : SetOrder}.

Lemma ge_spec (a b : Q) : ge a b = true <-> b <= a.
Proof. unfold ge. apply Qle_bool_iff. Qed.

Lemma append_prefix_inj (p a b : string) : p +:+ a = p +:+ b -> a = b.
Proof.
  induction p as [| c p IH]; cbn [String.append]; [tauto |].
  intros H. injection H as H. exact (IH H).
Qed.

(** The three ways in which [find_skill_gaps_advanced] ends without
    consulting the job found. *)
Lemma find_skill_gaps_advanced_cases (self : ProductionGaps.Toolkit)
    (current_skills target_job : string) :
  ProductionGaps.find_skill_gaps_advanced self current_skills target_job
  = Return (Text "Please enter your current skills and target job role.", None)
  \/ (ProductionGaps.find_target_job_data self target_job = None
      /\ ProductionGaps.find_skill_gaps_advanced self current_skills target_job
         = Return
             (Text ("Job role '" +:+ target_job +:+ "' not found. Available roles: "
                    +:+ join ", "
                          (firstn 5 (List.map fst (ProductionGaps.job_database self)))),
              None))
  \/ (exists job_data,
        ProductionGaps.find_target_job_data self target_job = Some job_data
        /\ ProductionGaps.find_skill_gaps_advanced self current_skills target_job
           = try_except
               (ai_recommendations <-
                  ProductionGaps.generate_learning_recommendations
                    (Gaps.to_develop current_skills job_data) target_job;;
                report <-
                  ProductionGaps.create_skill_gap_report target_job
                    (list_to_set (JobMatching.skills_list_of current_skills)
                     ∩ list_to_set (List.map lower (ProductionGaps.skills job_data)))
                    (Gaps.to_develop current_skills job_data) job_data ai_recommendations;;
                Return (Report report, None))
               (fun e => Return (Text ("Error finding skill gaps: " +:+ str_exn e), None))).
Proof.
  unfold ProductionGaps.find_skill_gaps_advanced.
  destruct (negb (truthy (strip current_skills)) || negb (truthy (strip target_job)));
    [left; reflexivity | right].
  destruct (ProductionGaps.find_target_job_data self target_job) as [job_data |].
  - right. exists job_data. split; reflexivity.
  - left. split; reflexivity.
Qed.

(** X18. [find_skill_gaps_advanced] never raises. It reports an error
    only when the job found has no skill (a division by zero) or when the
    text generation raises. The service is not consulted when no skill is
    to be developed. In a report the skill compatibility lies between 0
    and 100, and the readiness is 'ready to apply' exactly from 80 on and
    'early stage' exactly below 40. *)
Theorem find_skill_gaps_advanced_outcome (self : ProductionGaps.Toolkit)
    (current_skills target_job : string) :
  exists out,
    ProductionGaps.find_skill_gaps_advanced self current_skills target_job
    = Return (out, None)
    /\ (forall message,
          out = Text ("Error finding skill gaps: " +:+ message) ->
          exists job_data,
            ProductionGaps.find_target_job_data self target_job = Some job_data
            /\ ((ProductionGaps.skills job_data = [] /\ message = "division by zero")
                \/ (Gaps.to_develop current_skills job_data <> ∅
                    /\ exists prompt e,
                         generate_ai_content prompt 500 = Raise e
                         /\ message = str_exn e)))
    /\ (forall report,
          out = Report report ->
          (0 <= ProductionGaps.skill_compatibility report
           /\ ProductionGaps.skill_compatibility report <= 100)
          /\ (ProductionGaps.readiness_assessment report = ProductionGaps.ReadyToApply
              <-> 80 <= ProductionGaps.skill_compatibility report)
          /\ (ProductionGaps.readiness_assessment report = ProductionGaps.EarlyStage
              <-> ProductionGaps.skill_compatibility report < 40)
          /\ (ProductionGaps.skills_to_develop report = ∅ ->
              ProductionGaps.ai_learning_roadmap report
              = "You have all the required skills!")).
Proof.
  destruct (find_skill_gaps_advanced_cases self current_skills target_job)
    as [-> | [[_ ->] | (job_data & Hfound & ->)]].
  1, 2: eexists; (split; [reflexivity |]);
    (split; [intros message H; discriminate H | intros report H; discriminate H]).
  set (missing := Gaps.to_develop current_skills job_data).
  set (matching := list_to_set (JobMatching.skills_list_of current_skills)
                   ∩ list_to_set (List.map lower (ProductionGaps.skills job_data))
                   : gset string).
  assert (Hrecs :
            (missing = ∅
             /\ ProductionGaps.generate_learning_recommendations missing target_job
                = Return "You have all the required skills!")
            \/ (missing <> ∅
                /\ exists prompt,
                     ProductionGaps.generate_learning_recommendations missing target_job
                     = generate_ai_content prompt 500)).
  { unfold ProductionGaps.generate_learning_recommendations.
    destruct (size missing =? 0)%nat eqn:E.
    - left. apply Nat.eqb_eq, size_empty_iff in E. apply leibniz_equiv in E.
      split; [exact E | reflexivity].
    - right. apply Nat.eqb_neq in E. split.
      + intros Hm. apply E. rewrite Hm. apply size_empty.
      + eexists. reflexivity. }
  assert (Hraise : forall e,
            ProductionGaps.generate_learning_recommendations missing target_job = Raise e ->
            missing <> ∅ /\ exists prompt e', generate_ai_content prompt 500 = Raise e'
                                             /\ str_exn e = str_exn e').
  { intros e He. destruct Hrecs as [[_ Hr] | [Hm [prompt Hr]]]; [congruence |].
    split; [exact Hm |]. exists prompt, e. split; [congruence | reflexivity]. }
  destruct (ProductionGaps.generate_learning_recommendations missing target_job)
    as [ai_recommendations | e] eqn:Eai; cbn [bind try_except].
  2: { eexists. split; [reflexivity |].
       split; [| intros report H; discriminate H].
       intros message H. injection H as H. apply append_prefix_inj in H. subst message.
       exists job_data. split; [exact Hfound |]. right.
       destruct (Hraise e eq_refl) as (Hm & prompt & e' & He' & Hstr).
       split; [exact Hm |]. exists prompt, e'. split; assumption. }
  unfold ProductionGaps.create_skill_gap_report, truediv.
  destruct (ProductionGaps.skills job_data) as [| skill skills] eqn:Eskills.
  { cbn [bind try_except]. eexists. split; [reflexivity |].
    split; [| intros report H; discriminate H].
    intros message H. injection H as H. apply append_prefix_inj in H. subst message.
    exists job_data. split; [exact Hfound |]. left. split; [exact Eskills | reflexivity]. }
  destruct (Qeq_bool (len (skill :: skills)) 0) eqn:Ez.
  { apply Qeq_bool_iff in Ez. unfold len in Ez. change 0 with (num 0) in Ez.
    apply num_inj in Ez. discriminate Ez. }
  cbn [bind try_except]. eexists. split; [reflexivity |].
  split; [intros message H; discriminate H |].
  intros report H. injection H as <-.
  cbn [ProductionGaps.skill_compatibility ProductionGaps.readiness_assessment
       ProductionGaps.skills_to_develop ProductionGaps.ai_learning_roadmap].
  assert (Hlen : 0 < len (skill :: skills)) by (apply num_pos; cbn; lia).
  assert (Hsize : (size matching <= length (skill :: skills))%nat).
  { subst matching. rewrite <- (length_map lower (skill :: skills)).
    etransitivity; [| apply size_list_to_set_le].
    apply subseteq_size. intros x. rewrite elem_of_intersection. tauto. }
  destruct (ratio_unit (num (size matching)) (len (skill :: skills)) (num_nonneg _)
              (num_mono _ _ Hsize) Hlen) as [Hlow Hhigh].
  set (pct := num (size matching) / len (skill :: skills) * 100) in *.
  split; [split; subst pct; lra |].
  unfold ProductionGaps.assess_job_readiness.
  destruct (ge pct 80) eqn:E80; [| destruct (ge pct 60) eqn:E60;
                                    [| destruct (ge pct 40) eqn:E40]].
  all: repeat match goal with
         | H : ge _ _ = true |- _ => apply ge_spec in H
         | H : ge _ _ = false |- _ =>
             apply (test_false _ _ (ge_spec _ _)) in H; apply Qnot_le_lt in H
         end.
  all: split; [split; intros H; first [discriminate H | reflexivity | lra] |].
  all: split; [split; intros H; first [discriminate H | reflexivity | lra] |].
  all: intros Hm; destruct Hrecs as [[_ Hr] | [Hne _]];
    [congruence | contradiction].
Qed.


Lemma find_map {A B} (f : B -> bool) (g : A -> B) (l : list A) :
  List.find f (List.map g l) = option_map g (List.find (fun x => f (g x)) l).
Proof.
  induction l as [| x l IH]; cbn [List.map List.find]; [reflexivity |].
  destruct (f (g x)); [reflexivity | exact IH].
Qed.

Lemma first_job_titles_and_skills (p : string -> bool) (self : ProductionGaps.Toolkit) :
  JobMatching.first_job p (Gaps.titles_and_skills self)
  = option_map (fun item => List.map lower (ProductionGaps.skills (snd item)))
      (List.find (fun item => p (fst item)) (ProductionGaps.job_database self)).
Proof.
  unfold JobMatching.first_job, Gaps.titles_and_skills. rewrite find_map. cbn [fst].
  destruct (List.find _ _) as [[job_title job_data] |]; reflexivity.
Qed.

(** Over the same jobs, each with a skill, the two toolkits find the
    same target job. *)
Lemma find_target_job_agrees (production : ProductionGaps.Toolkit)
    (basic : CareerAnalysis.Toolkit) (target_job : string) :
  CareerAnalysis.job_database basic = Gaps.titles_and_skills production ->
  Gaps.all_skilled production ->
  JobMatching.find_target_job_skills basic target_job
  = option_map (fun job_data => List.map lower (ProductionGaps.skills job_data))
      (ProductionGaps.find_target_job_data production target_job)
  /\ (forall job_data,
        ProductionGaps.find_target_job_data production target_job = Some job_data ->
        ProductionGaps.skills job_data <> []).
Proof.
  intros Hjobs Hskilled.
  unfold JobMatching.find_target_job_skills, ProductionGaps.find_target_job_data.
  rewrite Hjobs, !first_job_titles_and_skills.
  unfold Gaps.all_skilled in Hskilled. rewrite List.Forall_forall in Hskilled.
  destruct (List.find (fun item => contains (lower target_job) (lower (fst item))) _)
    as [[job_title job_data] |] eqn:Ewhole.
  - apply List.find_some in Ewhole. destruct Ewhole as [Hin _].
    specialize (Hskilled _ Hin). cbn [snd option_map] in *.
    destruct (ProductionGaps.skills job_data) as [| skill skills] eqn:E; [congruence |].
    cbn [List.map JobMatching.no_skills]. split; [reflexivity |].
    intros d [= <-]. rewrite E. discriminate.
  - cbn [option_map JobMatching.no_skills].
    destruct (List.find
                (fun item =>
                   any (fun word => contains word (lower (fst item)))
                     (split (lower target_job))) _)
      as [[job_title job_data] |] eqn:Epart; cbn [option_map snd].
    + split; [reflexivity |]. intros d [= <-].
      apply List.find_some in Epart. destruct Epart as [Hin _].
      exact (Hskilled _ Hin).
    + split; [reflexivity | intros d H; discriminate H].
Qed.

(** X19. Over the same jobs, each with a skill, the skill gap finders of
    the two toolkits agree: when the basic one answers with a message the
    production one answers with a message, and when the basic one reports
    the production one reports the same role, the same skill match and
    the same skills to have and to develop, unless its text generation
    raises. *)
Theorem skill_gap_finders_agree (production : ProductionGaps.Toolkit)
    (basic : CareerAnalysis.Toolkit) (current_skills target_job : string) :
  CareerAnalysis.job_database basic = Gaps.titles_and_skills production ->
  Gaps.all_skilled production ->
  exists out out',
    JobMatching.find_skill_gaps basic current_skills target_job = Return (out, None)
    /\ ProductionGaps.find_skill_gaps_advanced production current_skills target_job
       = Return (out', None)
    /\ (forall message, out = Text message -> exists message', out' = Text message')
    /\ (forall report,
          out = Report report ->
          (exists e,
              ProductionGaps.generate_learning_recommendations
                (JobMatching.skills_to_develop report) target_job = Raise e
              /\ out' = Text ("Error finding skill gaps: " +:+ str_exn e))
          \/ (exists report',
                out' = Report report'
                /\ ProductionGaps.target_role report' = JobMatching.target_role report
                /\ ProductionGaps.skill_compatibility report'
                   = JobMatching.skill_match report
                /\ ProductionGaps.skills_you_have report'
                   = JobMatching.skills_you_have report
                /\ ProductionGaps.skills_to_develop report'
                   = JobMatching.skills_to_develop report)).
Proof.
  intros Hjobs Hskilled.
  destruct (find_target_job_agrees production basic target_job Hjobs Hskilled)
    as [Hfind Hnonempty].
  unfold JobMatching.find_skill_gaps, ProductionGaps.find_skill_gaps_advanced.
  destruct (negb (truthy (strip current_skills)) || negb (truthy (strip target_job))).
  { eexists _, _. split; [reflexivity |]. split; [reflexivity |].
    split; [intros message _; eexists; reflexivity | intros report H; discriminate H]. }
  rewrite Hfind.
  destruct (ProductionGaps.find_target_job_data production target_job) as [job_data |];
    cbn [option_map].
  2: { cbn [try_except]. eexists _, _. split; [reflexivity |]. split; [reflexivity |].
       split; [intros message _; eexists; reflexivity | intros report H; discriminate H]. }
  specialize (Hnonempty job_data eq_refl).
  destruct (ProductionGaps.skills job_data) as [| skill skills] eqn:Eskills; [congruence |].
  cbn [List.map].
  change (lower skill :: List.map lower skills) with (List.map lower (skill :: skills)).
  unfold JobMatching.create_skill_gap_report, ProductionGaps.create_skill_gap_report.
  rewrite Eskills.
  assert (Elen : len (List.map lower (skill :: skills)) = len (skill :: skills))
    by (unfold len; rewrite length_map; reflexivity).
  rewrite Elen. unfold truediv.
  destruct (Qeq_bool (len (skill :: skills)) 0) eqn:Ez.
  { apply Qeq_bool_iff in Ez. unfold len in Ez. change 0 with (num 0) in Ez.
    apply num_inj in Ez. discriminate Ez. }
  cbn [bind try_except].
  destruct (ProductionGaps.generate_learning_recommendations _ target_job)
    as [ai_recommendations | e] eqn:Eai; cbn [bind try_except].
  - eexists _, _. split; [reflexivity |]. split; [reflexivity |].
    split; [intros message H; discriminate H |].
    intros report H. injection H as <-. right. eexists. split; [reflexivity |].
    cbn. repeat split; reflexivity.
  - eexists _, _. split; [reflexivity |]. split; [reflexivity |].
    split; [intros message H; discriminate H |].
    intros report H. injection H as <-. left. exists e.
    cbn [JobMatching.skills_to_develop]. split; [exact Eai | reflexivity].
Qed.

End ProductionSkillGaps.

Section ProductionSkillGapSamples.

Import Py PyMore.
Local Open Scope Q_scope.

Lemma skill_gap_finders_agree_witness :
  exists out out',
    JobMatching.find_skill_gaps (so := MoreSamples.elements_order)
      Gaps.basic_sample "python, sql" "data" = Return (out, None)
    /\ ProductionGaps.find_skill_gaps_advanced (ai := Gaps.canned)
         (so := MoreSamples.elements_order) ProductionGaps.init "python, sql" "data"
       = Return (out', None)
    /\ (forall report, out = Report report -> exists report', out' = Report report').
Proof.
  destruct (skill_gap_finders_agree (ai := Gaps.canned) (so := MoreSamples.elements_order)
              ProductionGaps.init Gaps.basic_sample "python, sql" "data")
    as (out & out' & Hout & Hout' & _ & Hreport).
  - reflexivity.
  - repeat constructor; discriminate.
  - exists out, out'. split; [exact Hout |]. split; [exact Hout' |].
    intros report Hr. destruct (Hreport report Hr) as [(e & He & _) | (report' & Hr' & _)].
    + exfalso. revert He. unfold ProductionGaps.generate_learning_recommendations.
      destruct (size _ =? 0)%nat; discriminate.
    + exists report'. exact Hr'.
Defined.

End ProductionSkillGapSamples.

(* ================================================================== *)
(** * The analysis of a resume in the production toolkit *)
(* ================================================================== *)

Section ProductionResumeAnalysis.

Import Py PyMore.
Local Open Scope Q_scope.

Context {sv : Services} {re : Regex} {so : SetOrder} {ai : Advisor}.

Lemma num_le_inv (n m : nat) : num n <= num m -> (n <= m)%nat.
Proof. unfold num. rewrite <- Zle_Qle. lia. Qed.

(** The count of a word in a counter: 0 when the word is no key. *)
Lemma dict_get_increment (counter : list (string * nat)) (word x : string) :
  dict_get (ProductionAnalysis.increment counter word) x
  = if String.eqb x word
    then Some (S (match dict_get counter word with Some n => n | None => 0%nat end))
    else dict_get counter x.
Proof.
  induction counter as [| [w n] counter IH]; cbn [ProductionAnalysis.increment dict_get].
  - destruct (String.eqb x word); reflexivity.
  - destruct (String.eqb_spec word w) as [-> | Hw]; cbn [dict_get].
    + destruct (String.eqb x w); reflexivity.
    + rewrite IH. destruct (String.eqb_spec x w) as [-> | Hx].
      * destruct (String.eqb_spec w word) as [E | _]; [congruence | reflexivity].
      * reflexivity.
Qed.

Lemma keys_increment (counter : list (string * nat)) (word : string) :
  List.map fst (ProductionAnalysis.increment counter word)
  = if existsb (String.eqb word) (List.map fst counter)
    then List.map fst counter
    else List.map fst counter ++ [word].
Proof.
  induction counter as [| [w n] counter IH];
    cbn [ProductionAnalysis.increment List.map existsb fst app]; [reflexivity |].
  destruct (String.eqb word w); cbn [List.map fst orb]; [reflexivity |].
  rewrite IH. destruct (existsb _ _); reflexivity.
Qed.

Lemma NoDup_increment (counter : list (string * nat)) (word : string) :
  NoDup (List.map fst counter) ->
  NoDup (List.map fst (ProductionAnalysis.increment counter word)).
Proof.
  intros H. rewrite keys_increment.
  destruct (existsb (String.eqb word) (List.map fst counter)) eqn:E; [exact H |].
  apply NoDup_app. split; [exact H |]. split; [| apply NoDup_singleton].
  intros x Hx Hin. apply list_elem_of_In in Hx.
  apply list_elem_of_In in Hin. destruct Hin as [<- | []].
  assert (Hex : existsb (String.eqb word) (List.map fst counter) = true).
  { apply List.existsb_exists. exists word. split; [exact Hx | apply String.eqb_refl]. }
  congruence.
Qed.

Lemma dict_get_In {V} (d : list (string * V)) (k : string) (v : V) :
  NoDup (List.map fst d) -> (In (k, v) d <-> dict_get d k = Some v).
Proof.
  induction d as [| [k' v'] d IH]; cbn [List.map fst dict_get In].
  - intros _. split; [intros [] | discriminate].
  - intros Hnd. apply NoDup_cons in Hnd. destruct Hnd as [Hk' Hnd].
    destruct (String.eqb_spec k k') as [-> | Hk].
    + split.
      * intros [[= ->] | Hin]; [reflexivity |].
        exfalso. apply Hk'. apply list_elem_of_In.
        apply List.in_map_iff. exists (k', v). split; [reflexivity | exact Hin].
      * intros [= ->]. left. reflexivity.
    + rewrite <- (IH Hnd). split.
      * intros [[= E _] | Hin]; [congruence | exact Hin].
      * intros Hin. right. exact Hin.
Qed.

(** The counter of a list of words holds each word with the number of
    its occurrences. *)
Lemma Counter_spec (words : list string) :
  NoDup (List.map fst (ProductionAnalysis.Counter words))
  /\ (forall word n,
        In (word, n) (ProductionAnalysis.Counter words)
        <-> n = Keywords.occurrences words word /\ (1 <= n)%nat).
Proof.
  unfold ProductionAnalysis.Counter.
  assert (Hgen : forall (counter : list (string * nat)),
             NoDup (List.map fst counter) ->
             NoDup (List.map fst (fold_left ProductionAnalysis.increment words counter))
             /\ (forall x,
                   dict_get (fold_left ProductionAnalysis.increment words counter) x
                   = if (Keywords.occurrences words x =? 0)%nat
                     then dict_get counter x
                     else Some (match dict_get counter x with Some n => n | None => 0%nat end
                                + Keywords.occurrences words x)%nat)).
  { induction words as [| w words IH]; intros counter Hnd; cbn [fold_left].
    - split; [exact Hnd | intros x; reflexivity].
    - destruct (IH (ProductionAnalysis.increment counter w) (NoDup_increment _ _ Hnd))
        as [Hnd' Hget].
      split; [exact Hnd' |]. intros x. rewrite Hget, dict_get_increment.
      unfold Keywords.occurrences. cbn [count_occ].
      destruct (string_dec w x) as [-> | Hwx].
      + rewrite String.eqb_refl.
        destruct (count_occ string_dec words x =? 0)%nat eqn:E0.
        * apply Nat.eqb_eq in E0. rewrite E0. cbn [Nat.eqb]. f_equal. lia.
        * cbn [Nat.eqb]. f_equal. lia.
      + destruct (String.eqb_spec x w) as [E | _]; [congruence | reflexivity]. }
  destruct (Hgen [] (NoDup_nil_2 (A := string))) as [Hnd Hget]. split; [exact Hnd |].
  intros word n. rewrite (dict_get_In _ _ _ Hnd), Hget. cbn [dict_get].
  destruct (Keywords.occurrences words word =? 0)%nat eqn:E0.
  - apply Nat.eqb_eq in E0. split; [discriminate | intros [-> H]; lia].
  - apply Nat.eqb_neq in E0. cbn [Nat.add]. split.
    + intros [= <-]. split; [reflexivity | lia].
    + intros [-> _]. reflexivity.
Qed.

Lemma split_stops_nonempty (cur : list ascii) (in_run : bool) (l : list ascii) :
  ProductionAnalysis.split_stops cur in_run l <> [].
Proof.
  revert cur in_run. induction l as [| c l IH]; intros cur in_run;
    cbn [ProductionAnalysis.split_stops]; [discriminate |].
  destruct (ProductionAnalysis.is_stop c); [destruct in_run |];
    first [discriminate | apply IH].
Qed.

(** There is always a sentence, so that the readability is computed. *)
Lemma sentences_positive (text : string) :
  (0 < length (ProductionAnalysis.re_split_stops text))%nat.
Proof.
  unfold ProductionAnalysis.re_split_stops. rewrite length_map.
  pose proof (split_stops_nonempty [] false (chars text)) as H.
  destruct (ProductionAnalysis.split_stops [] false (chars text)); [congruence | cbn; lia].
Qed.

Lemma NoDup_firstn {A} (n : nat) (l : list A) : NoDup l -> NoDup (firstn n l).
Proof.
  intros H. revert n. induction H as [| x l Hx Hl IH]; intros [| n]; cbn [firstn];
    try constructor.
  - intros Hin. apply Hx. apply list_elem_of_In. apply list_elem_of_In in Hin.
    exact (In_firstn _ _ _ Hin).
  - apply IH.
Qed.


Lemma StronglySorted_impl {A} (R R' : A -> A -> Prop) (l : list A) :
  (forall a b, R a b -> R' a b) -> StronglySorted R l -> StronglySorted R' l.
Proof.
  intros HR H. induction H as [| x l Hl IH Hx]; constructor; [exact IH |].
  eapply List.Forall_impl; [| exact Hx]. intros b. apply HR.
Qed.

(** The ten most common words: sorted by count, without repetition, each
    with the number of its occurrences; a word that is left out is not
    more frequent than a word that is kept. *)
Lemma most_common_spec (words : list string) :
  let kept := ProductionAnalysis.most_common 10 (ProductionAnalysis.Counter words) in
  (length kept <= 10)%nat
  /\ Keywords.by_count kept
  /\ NoDup (List.map fst kept)
  /\ Forall (fun item => (1 <= snd item)%nat
                         /\ snd item = Keywords.occurrences words (fst item)) kept
  /\ (forall word,
        In word words ->
        In word (List.map fst kept)
        \/ (length kept = 10%nat
            /\ Forall (fun item => (Keywords.occurrences words word <= snd item)%nat) kept)).
Proof.
  intros kept. subst kept. unfold ProductionAnalysis.most_common.
  destruct (Counter_spec words) as [Hnd Hin].
  set (counter := ProductionAnalysis.Counter words) in *.
  pose proof (sort_by_desc_perm (fun item : string * nat => num (snd item)) counter) as Hperm.
  pose proof (sort_by_desc_sorted (fun item : string * nat => num (snd item)) counter)
    as Hsorted.
  set (ranked := sort_by_desc (fun item : string * nat => num (snd item)) counter) in *.
  apply (StronglySorted_impl _ (fun item item' : string * nat => (snd item' <= snd item)%nat))
    in Hsorted; [| intros a b; apply num_le_inv].
  split; [apply firstn_le_length |].
  split; [apply firstn_sorted; exact Hsorted |].
  split.
  { rewrite <- List.firstn_map. apply NoDup_firstn.
    rewrite (Permutation_map fst Hperm). exact Hnd. }
  split.
  { apply Forall_firstn. apply List.Forall_forall. intros [word n] Hitem.
    apply (Permutation_in _ Hperm), Hin in Hitem. cbn [fst snd]. tauto. }
  intros word Hword.
  assert (Hcounted : In (word, Keywords.occurrences words word) ranked).
  { apply (Permutation_in _ (Permutation_sym Hperm)). apply Hin.
    split; [reflexivity |]. unfold Keywords.occurrences.
    apply (count_occ_In string_dec) in Hword. lia. }
  rewrite <- (firstn_skipn 10 ranked) in Hcounted.
  apply in_app_or in Hcounted. destruct Hcounted as [Htop | Hrest].
  - left. apply List.in_map_iff. exists (word, Keywords.occurrences words word).
    split; [reflexivity | exact Htop].
  - right. split.
    + apply firstn_length_le.
      destruct (Nat.le_gt_cases 10 (length ranked)) as [Hle | Hgt]; [exact Hle |].
      rewrite skipn_all2 in Hrest by lia. contradiction.
    + apply List.Forall_forall. intros item Hitem.
      exact (sorted_tail_below _ 10 ranked Hsorted item _ Hitem Hrest).
Qed.

(** X20. The comprehensive analysis of a resume never fails: there is
    always a sentence, so that the readability is computed, and it lies
    between 0 and 100. The keywords are the ten most common words of the
    lower-case text at most, in descending order of count, without
    repetition, each with the number of its occurrences; a word that is
    left out is not more frequent than a keyword. The sections found and
    missing are, together, the five section titles. *)
Theorem perform_comprehensive_analysis_facts (self : ProductionGaps.Toolkit)
    (resume_text : string) :
  exists analysis,
    ProductionAnalysis.perform_comprehensive_analysis self resume_text = Return analysis
    /\ (0 <= ProductionCareerToolkit.readability_score analysis
        /\ ProductionCareerToolkit.readability_score analysis <= 100)
    /\ ProductionCareerToolkit.keywords_density analysis
       = ProductionAnalysis.most_common 10
           (ProductionAnalysis.Counter (split (lower resume_text)))
    /\ (length (ProductionCareerToolkit.keywords_density analysis) <= 10)%nat
    /\ Keywords.by_count (ProductionCareerToolkit.keywords_density analysis)
    /\ NoDup (List.map fst (ProductionCareerToolkit.keywords_density analysis))
    /\ Forall
         (fun item =>
            (1 <= snd item)%nat
            /\ snd item = Keywords.occurrences (split (lower resume_text)) (fst item))
         (ProductionCareerToolkit.keywords_density analysis)
    /\ (forall word,
          In word (split (lower resume_text)) ->
          In word (List.map fst (ProductionCareerToolkit.keywords_density analysis))
          \/ (length (ProductionCareerToolkit.keywords_density analysis) = 10%nat
              /\ Forall
                   (fun item =>
                      (Keywords.occurrences (split (lower resume_text)) word <= snd item)%nat)
                   (ProductionCareerToolkit.keywords_density analysis)))
    /\ Permutation
         (ProductionCareerToolkit.sections_found analysis
          ++ ProductionCareerToolkit.sections_missing analysis)
         Advice.section_titles.
Proof.
  unfold ProductionAnalysis.perform_comprehensive_analysis.
  pose proof (check_sections_perm
                ["experience"; "education"; "skills"; "summary"; "objective"]
                (lower resume_text)) as Hsections.
  destruct (CareerAnalysis.check_sections _ _) as [sections_found sections_missing].
  cbn [fst snd] in Hsections.
  pose proof (sentences_positive resume_text) as Hsentences.
  destruct (0 <? length (ProductionAnalysis.re_split_stops resume_text))%nat eqn:E;
    [| apply Nat.ltb_ge in E; lia].
  assert (Hpos : 0 < num (length (ProductionAnalysis.re_split_stops resume_text)))
    by (apply num_pos; exact Hsentences).
  unfold truediv.
  destruct (Qeq_bool (num (length (ProductionAnalysis.re_split_stops resume_text))) 0)
    eqn:Ez; [apply Qeq_bool_iff in Ez; lra |].
  cbn [bind]. eexists. split; [reflexivity |].
  cbn [ProductionCareerToolkit.readability_score ProductionCareerToolkit.keywords_density
       ProductionCareerToolkit.sections_found ProductionCareerToolkit.sections_missing].
  destruct (most_common_spec (split (lower resume_text))) as (H1 & H2 & H3 & H4 & H5).
  split.
  { apply min_range; [lra |].
    assert (Hratio : 0 <= num (length (split resume_text))
                         / num (length (ProductionAnalysis.re_split_stops resume_text))).
    { apply Qle_shift_div_l; [exact Hpos |].
      pose proof (num_nonneg (length (split resume_text))). lra. }
    lra. }
  split; [reflexivity |].
  repeat (split; [assumption |]). exact Hsections.
Qed.


(** The analysis is returned, with the five section titles. *)
Lemma perform_comprehensive_analysis_returns (self : ProductionGaps.Toolkit)
    (resume_text : string) :
  exists analysis,
    ProductionAnalysis.perform_comprehensive_analysis self resume_text = Return analysis
    /\ (length (ProductionCareerToolkit.sections_found analysis)
        + length (ProductionCareerToolkit.sections_missing analysis) = 5)%nat.
Proof.
  unfold ProductionAnalysis.perform_comprehensive_analysis.
  pose proof (Permutation_length
                (check_sections_perm
                   ["experience"; "education"; "skills"; "summary"; "objective"]
                   (lower resume_text))) as Hsections.
  rewrite length_app in Hsections.
  destruct (CareerAnalysis.check_sections _ _) as [sections_found sections_missing].
  cbn [fst snd List.map length] in Hsections.
  pose proof (sentences_positive resume_text) as Hsentences.
  destruct (0 <? length (ProductionAnalysis.re_split_stops resume_text))%nat eqn:E;
    [| apply Nat.ltb_ge in E; lia].
  unfold truediv.
  destruct (Qeq_bool (num (length (ProductionAnalysis.re_split_stops resume_text))) 0)
    eqn:Ez.
  { apply Qeq_bool_iff in Ez. change 0 with (num 0) in Ez. apply num_inj in Ez. lia. }
  cbn [bind]. eexists. split; [reflexivity | exact Hsections].
Qed.

(** No recommendation is made exactly when nothing is to recommend. *)
Lemma no_recommendation_iff (a : ProductionCareerToolkit.Analysis) (score : Z) :
  ProductionAnalysis.generate_improvement_recommendations a score = []
  <-> Keywords.nothing_to_recommend a.
Proof.
  unfold ProductionAnalysis.generate_improvement_recommendations,
    Keywords.nothing_to_recommend.
  split.
  - intros H. cbv zeta in H.
    repeat match type of H with
      | (if ?c then _ else _) = [] =>
          destruct c eqn:?;
          [apply List.app_eq_nil in H; destruct H as [_ H]; discriminate H |]
      end.
    repeat match goal with
      | E : (_ <? _)%nat = false |- _ => apply Nat.ltb_ge in E
      | E : negb _ = false |- _ => apply Bool.negb_false_iff in E
      end.
    destruct (ProductionCareerToolkit.sections_missing a); cbn [length] in *;
      repeat split; solve [lia | reflexivity | assumption].
  - intros (H1 & H2 & H3 & H4 & H5 & H6).
    rewrite H1, H6. change (0 <? length (@nil string))%nat with false. cbn [negb].
    rewrite (proj2 (Nat.ltb_ge _ _) H2), (proj2 (Nat.ltb_ge _ _) H3),
      (proj2 (Nat.ltb_ge _ _) H4), (proj2 (Nat.ltb_ge _ _) H5).
    reflexivity.
Qed.

(** With the five sections and nothing to recommend, the comprehensive
    score is 60 at least. *)
Lemma comprehensive_score_when_nothing_to_recommend (a : ProductionCareerToolkit.Analysis) :
  length (ProductionCareerToolkit.sections_found a) = 5%nat ->
  Keywords.nothing_to_recommend a ->
  (60 <= ProductionScores.calculate_comprehensive_score a)%Z.
Proof.
  intros Hfound (_ & Hwords & Hverbs & Hach & Hskills & Hcontact).
  unfold ProductionScores.calculate_comprehensive_score. cbv zeta.
  rewrite (proj2 (Nat.leb_le _ _) Hverbs), (proj2 (Nat.leb_le _ _) Hach), Hcontact.
  assert (H200 : (200 <=? ProductionCareerToolkit.word_count a)%nat = true)
    by (apply Nat.leb_le; lia).
  rewrite H200.
  assert (Hs : 30 <= min 30 (len (ProductionCareerToolkit.sections_found a) / 5 * 30)).
  { unfold len. rewrite Hfound. apply Qle_bool_iff. reflexivity. }
  assert (Hk : 10 <= min 20 (len (ProductionCareerToolkit.skills_found a) * 2)).
  { apply min_glb; [lra |]. pose proof (num_mono _ _ Hskills) as H.
    change (num 5) with 5 in H. unfold len. lra. }
  set (S := min 30 _) in *. set (K := min 20 _) in *.
  apply int_at_least; [lia |]. change (inject_Z 60) with 60.
  apply min_glb; [lra |].
  repeat match goal with
    | |- context [if ?b then _ else _] => destruct b
    end; lra.
Qed.

(** X21. [analyze_resume_advanced] never raises, and it reports an error
    only when the text generation raises. The score of a report lies
    between 0 and 100; no recommendation is made exactly when no section
    is missing and the analysis counts 300 words, five action verbs,
    three quantified achievements, five skills and contact information,
    and the score is then 60 at least. At most five keywords are
    shown. *)
Theorem analyze_resume_advanced_outcome (self : ProductionGaps.Toolkit)
    (resume_file : option File) :
  exists out,
    ProductionAnalysis.analyze_resume_advanced self resume_file = Return (out, None)
    /\ (forall message,
          out = Text ("Error analyzing resume: " +:+ message) ->
          exists prompt e,
            generate_ai_content prompt 400 = Raise e /\ message = str_exn e)
    /\ (forall report,
          out = Report report ->
          (0 <= ProductionAnalysis.overall_score report <= 100)%Z
          /\ (length (ProductionAnalysis.top_keywords report) <= 5)%nat
          /\ (ProductionAnalysis.improvement_recommendations report = []
              <-> Keywords.nothing_to_recommend (ProductionAnalysis.report_analysis report))
          /\ (ProductionAnalysis.improvement_recommendations report = [] ->
              (60 <= ProductionAnalysis.overall_score report)%Z)).
Proof.
  unfold ProductionAnalysis.analyze_resume_advanced.
  destruct resume_file as [file |].
  2: { eexists. split; [reflexivity |].
       split; [intros message H; discriminate H | intros report H; discriminate H]. }
  set (resume_text := ProductionCareerToolkit.extract_text_from_pdf (name file)).
  destruct (negb (truthy resume_text) || (strlen (strip resume_text) <? 50)%nat).
  { cbn [try_except]. eexists. split; [reflexivity |].
    split; [intros message H; discriminate H | intros report H; discriminate H]. }
  destruct (perform_comprehensive_analysis_returns self resume_text)
    as (analysis & -> & Hsections).
  cbn [bind]. unfold ProductionAnalysis.generate_ai_insights.
  match goal with
  | |- context [generate_ai_content ?p 400] => set (prompt := p)
  end.
  destruct (generate_ai_content prompt 400) as [ai_insights | e] eqn:Eai;
    cbn [bind try_except].
  - eexists. split; [reflexivity |]. split; [intros message H; discriminate H |].
    intros report H. injection H as <-.
    unfold ProductionAnalysis.create_comprehensive_report.
    cbn [ProductionAnalysis.overall_score ProductionAnalysis.top_keywords
         ProductionAnalysis.improvement_recommendations ProductionAnalysis.report_analysis].
    split.
    { unfold ProductionScores.calculate_comprehensive_score.
      pose proof (fraction_of_len_nonneg (ProductionCareerToolkit.sections_found analysis)
                    5 30 ltac:(lra) ltac:(lra)) as Hs.
      pose proof (scaled_len_nonneg (ProductionCareerToolkit.skills_found analysis) 2
                    ltac:(lra)) as Hk.
      apply (min_range 30) in Hs; [| lra]. apply (min_range 20) in Hk; [| lra].
      apply int_clamped. unfold ge.
      repeat match goal with
        | |- context [if ?b then _ else _] => destruct b
        end; lra. }
    split; [apply firstn_le_length |].
    split; [apply no_recommendation_iff |].
    intros Hnone. apply no_recommendation_iff in Hnone.
    apply comprehensive_score_when_nothing_to_recommend; [| exact Hnone].
    destruct Hnone as (Hmissing & _). rewrite Hmissing in Hsections.
    cbn [length] in Hsections. lia.
  - eexists. split; [reflexivity |]. split; [| intros report H; discriminate H].
    intros message H. injection H as H. apply append_prefix_inj in H. subst message.
    exists prompt, e. split; [exact Eai | reflexivity].
Qed.

End ProductionResumeAnalysis.

(* ================================================================== *)
(** * The perfection score of the production toolkit and the chat *)
(* ================================================================== *)

Section ProductionPerfectionScore.

Import Py PyMore.
Local Open Scope Q_scope.

Context {sv : Services} {re : Regex} {so : SetOrder} {ai : Advisor}.

(** The dictionary of [calculate_detailed_perfection_scores] has the six
    keys, and an overall score between 20 and 100. *)
Lemma perfection_scores_lookups (a : ProductionCareerToolkit.Analysis) (resume_text : string) :
  exists scores structure content keywords formatting professionalism overall,
    ProductionCareerToolkit.calculate_detailed_perfection_scores a resume_text
    = Return scores
    /\ scores = [("structure", structure); ("content", content); ("keywords", keywords);
                 ("formatting", formatting); ("professionalism", professionalism);
                 ("overall", overall)]
    /\ (20 <= overall /\ overall <= 100).
Proof.
  cbv [ProductionCareerToolkit.calculate_detailed_perfection_scores
       setitem lookup bind values sum List.map fold_left fst snd
       String.eqb Ascii.eqb Bool.eqb].
  do 7 eexists. split; [reflexivity |]. split; [reflexivity |].
  pose proof (scaled_len_nonneg (ProductionCareerToolkit.sections_found a) 5 ltac:(lra)) as Hs.
  pose proof (scaled_len_nonneg (ProductionCareerToolkit.skills_found a) 2 ltac:(lra)) as Hk.
  pose proof (num_nonneg (ProductionCareerToolkit.action_verbs a)) as Hv.
  pose proof (num_nonneg (ProductionCareerToolkit.quantified_achievements a)) as Hq.
  assert (Hc : 0 <= num (ProductionCareerToolkit.action_verbs a) * 2
                    + num (ProductionCareerToolkit.quantified_achievements a) * 3) by lra.
  apply (min_range 25) in Hs; [| lra]. apply (min_range 20) in Hk; [| lra].
  apply (min_range 25) in Hc; [| lra].
  assert (H10 : min 15 10 == 10) by reflexivity.
  assert (H15 : min 15 15 == 15) by reflexivity.
  repeat match goal with
    | |- context [if ?b then _ else _] => destruct b
    end; lra.
Qed.

(** X22. [calculate_perfection_score_ai] never raises, and it reports an
    error only when the text generation raises. In a report the overall
    score lies between 20 and 100, and the grade and the performance
    level go together: A+ with exceptional (from 90 on), A with
    excellent, B+ with good, B with fair, C with needs work (below 60). *)
Theorem calculate_perfection_score_ai_outcome (self : ProductionGaps.Toolkit)
    (resume_file : option File) :
  exists out,
    ProductionPerfection.calculate_perfection_score_ai self resume_file = Return (out, None)
    /\ (forall message,
          out = Text ("Error calculating perfection score: " +:+ message) ->
          exists prompt e,
            generate_ai_content prompt 400 = Raise e /\ message = str_exn e)
    /\ (forall report,
          out = Report report ->
          (20 <= ProductionPerfection.overall_score report
           /\ ProductionPerfection.overall_score report <= 100)
          /\ (ProductionPerfection.grade report = "A+"
              <-> 90 <= ProductionPerfection.overall_score report)
          /\ (ProductionPerfection.grade report = "C"
              <-> ProductionPerfection.overall_score report < 60)
          /\ (ProductionPerfection.grade report = "A+"
              <-> ProductionPerfection.performance_level report
                  = ProductionPerfection.Exceptional)
          /\ (ProductionPerfection.grade report = "A"
              <-> ProductionPerfection.performance_level report
                  = ProductionPerfection.Excellent)
          /\ (ProductionPerfection.grade report = "B+"
              <-> ProductionPerfection.performance_level report = ProductionPerfection.Good)
          /\ (ProductionPerfection.grade report = "B"
              <-> ProductionPerfection.performance_level report = ProductionPerfection.Fair)
          /\ (ProductionPerfection.grade report = "C"
              <-> ProductionPerfection.performance_level report
                  = ProductionPerfection.NeedsWork)).
Proof.
  unfold ProductionPerfection.calculate_perfection_score_ai.
  destruct resume_file as [file |].
  2: { eexists. split; [reflexivity |].
       split; [intros message H; discriminate H | intros report H; discriminate H]. }
  set (resume_text := ProductionCareerToolkit.extract_text_from_pdf (name file)).
  destruct (negb (truthy resume_text)).
  { cbn [try_except]. eexists. split; [reflexivity |].
    split; [intros message H; discriminate H | intros report H; discriminate H]. }
  destruct (perform_comprehensive_analysis_returns self resume_text)
    as (analysis & -> & _).
  cbn [bind]. unfold ProductionPerfection.generate_ai_evaluation.
  match goal with
  | |- context [generate_ai_content ?p 400] => set (prompt := p)
  end.
  destruct (generate_ai_content prompt 400) as [ai_evaluation | e] eqn:Eai;
    cbn [bind try_except].
  2: { eexists. split; [reflexivity |]. split; [| intros report H; discriminate H].
       intros message H. injection H as H. apply append_prefix_inj in H. subst message.
       exists prompt, e. split; [exact Eai | reflexivity]. }
  destruct (perfection_scores_lookups analysis resume_text)
    as (scores & structure & content & keywords & formatting & professionalism & overall
        & -> & -> & Hrange).
  cbn [bind]. unfold ProductionPerfection.create_perfection_report.
  cbn [lookup String.eqb Ascii.eqb Bool.eqb bind ProductionScores.get_optimization_priority].
  cbn [try_except]. eexists. split; [reflexivity |].
  split; [intros message H; discriminate H |].
  intros report H. injection H as <-.
  cbn [ProductionPerfection.overall_score ProductionPerfection.grade
       ProductionPerfection.performance_level].
  split; [exact Hrange |].
  unfold ProductionPerfection.get_performance_level.
  destruct (ge overall 90) eqn:E90;
    [| destruct (ge overall 80) eqn:E80;
       [| destruct (ge overall 70) eqn:E70; [| destruct (ge overall 60) eqn:E60]]].
  all: repeat match goal with
         | H : ge _ _ = true |- _ => apply ge_spec in H
         | H : ge _ _ = false |- _ =>
             apply (test_false _ _ (ge_spec _ _)) in H; apply Qnot_le_lt in H
         end.
  all: repeat split; intros H; first [discriminate H | reflexivity | lra].
Qed.

End ProductionPerfectionScore.

Section Chat.

Import Py PyMore.

Context {ai : Advisor}.

(** X23. The career chatbot never raises, and its answer is never empty
    and never holds the word 'error', in any case of the letters: an
    answer of the text generation that is empty or holds it is replaced
    by one of four fixed answers, and an exception by a fifth. *)
Theorem chatbot_response_is_clean (message : string) (history : list (string * string)) :
  exists response,
    ProductionChat.create_career_chatbot_response message history = Return response
    /\ truthy response = true
    /\ contains "error" (lower response) = false.
Proof.
  unfold ProductionChat.create_career_chatbot_response.
  destruct (generate_ai_content _ 300) as [response | e]; cbn [bind try_except].
  - destruct (truthy response) eqn:Etruthy; cbn [negb orb].
    + destruct (contains "error" (lower response)) eqn:Eerror.
      * eexists. split; [reflexivity |].
        unfold ProductionChat.get_fallback_career_response.
        destruct (any _ _); [split; reflexivity |].
        destruct (any _ _); [split; reflexivity |].
        destruct (any _ _); split; reflexivity.
      * eexists. split; [reflexivity |]. split; assumption.
    + eexists. split; [reflexivity |].
      unfold ProductionChat.get_fallback_career_response.
      destruct (any _ _); [split; reflexivity |].
      destruct (any _ _); [split; reflexivity |].
      destruct (any _ _); split; reflexivity.
  - eexists. split; [reflexivity |]. split; reflexivity.
Qed.

End Chat.

(* ================================================================== *)
(** * Sample runs *)
(* ================================================================== *)

Section SampleRuns.

Import Py PyMore.
Local Open Scope Q_scope.

(** The analysis of a short resume: the letter r of the text counts as
    the skill R, and the score is 67. *)
Example short_resume_analysis :
  let analysis :=
    CareerAnalysis.perform_resume_analysis (re := MoreSamples.rich_match)
      (so := MoreSamples.elements_order) CareerAnalysis.init MoreSamples.short_resume in
  CareerToolkit.sections_found analysis = ["Experience"; "Education"; "Skills"; "Summary"]
  /\ CareerToolkit.sections_missing analysis = ["Objective"]
  /\ CareerToolkit.word_count analysis = 14%nat
  /\ CareerToolkit.skills_found analysis = ["Sql"; "R"; "Python"]
  /\ CareerToolkit.contact_info analysis = true
  /\ CareerToolkit.action_verbs analysis = 15%nat
  /\ CareerToolkit.quantified_achievements analysis = 2%nat
  /\ length (CareerToolkit.grammar_issues analysis) = 2%nat
  /\ CareerToolkit.calculate_resume_score analysis = 67%Z.
Proof. vm_compute. repeat split; reflexivity. Qed.

(** Without any match of the patterns, eight suggestions are made on the
    short resume. *)
Example short_resume_suggestions :
  length
    (CareerAnalysis.generate_improvement_suggestions
       (CareerAnalysis.perform_resume_analysis (re := MoreSamples.no_match)
          (so := MoreSamples.elements_order) CareerAnalysis.init MoreSamples.short_resume))
  = 8%nat.
Proof. vm_compute. reflexivity. Qed.

(** Of two lowest scores, the first one gives the priority. *)
Example optimization_priority_of_a_tie :
  ProductionScores.get_optimization_priority MoreSamples.sample_scores
  = Return "Improve content with more action verbs and quantified achievements".
Proof. reflexivity. Qed.

(** The five best jobs for four skills. *)
Example match_jobs_sample :
  exists report,
    JobMatching.match_jobs (so := MoreSamples.elements_order) CareerAnalysis.init
      "Python, sql , Docker,aws" = Return (Report report, None)
    /\ JobMatching.your_skills report = ["python"; "sql"; "docker"; "aws"]
    /\ List.map JobMatching.job_title (JobMatching.top_matches report)
       = ["Software Engineer"; "Machine Learning Engineer"; "Financial Analyst";
          "Data Scientist"; "DevOps Engineer"]
    /\ Forall2 Qeq (List.map JobMatching.match_percentage (JobMatching.top_matches report))
         [40; 25; 200 # 9; 20; 20].
Proof.
  eexists. split; [vm_compute; reflexivity |]. split; [reflexivity |].
  split; [reflexivity |]. repeat constructor.
Qed.

End SampleRuns.
